(** * UWB positioning core: range-measurement model and trilateration

    A shallow embedding of

    - [simulation/uwb_sensor_model.py], class [UWBSensor]
      (the stochastic range-measurement source), and
    - [uwb/trilateration.py], class [Trilateration]
      (linear least squares, nonlinear refinement, combined policy).

    Conventions.

    - Python floats are idealised as real numbers [R]; NaN, infinities,
      rounding and overflow are outside the model, and with overflow the
      [OverflowError] that [x ** 2] raises for a Python float [x] above
      about 1.3e154 (line 72 of the sensor model, line 70 of the
      trilateration).
    - Randomness is made explicit: the values that [np.random.random()] and
      the standard normal generator would deliver are arguments.
    - The numerical library routines [np.linalg.lstsq] and
      [scipy.optimize.minimize] are parameters of the trilateration section;
      [None] as their outcome stands for a raised exception.
    - Calls to the library routines and to the logger are recorded in a
      trace, so that statements about which solver ran, in which order and
      from which seed can be written down. *)

From Stdlib Require Import Reals Lra Lia List String Bool Arith.
From stdpp Require Import base option list.
Import ListNotations.

Local Open Scope R_scope.

(** ** Numbers, points, exceptions *)

Definition point : Type := R * R * R.

Module Float.

(** [x < y] and [x > y] as Python evaluates them in a condition. *)
Definition ltb (x y : R) : bool := if Rlt_dec x y then true else false.
Definition gtb (x y : R) : bool := ltb y x.
Definition is_zero (x : R) : bool := if Req_dec_T x 0 then true else false.

End Float.

(** The exceptions the modelled code raises to its caller. *)
Inductive Exception : Type :=
| ZeroDivisionError
| ValueError (msg : string).

(** ** The range-measurement source: [UWBSensor] *)

Module UWBSensor.

Record t : Type := mk {
  sensor_id : string;
  position : point;
  range_noise_std : R;
  max_range : R;
  detection_probability : R;
  update_rate : R;
  last_measurement_time : R
}.

(** [__init__]; [fresh_id] is the identifier [uuid] would have produced.
    [sensor_id if sensor_id else ...] also replaces the empty string. *)
Definition init (fresh_id : string) (sensor_id : option string)
    (position : point) (range_noise_std max_range
     detection_probability update_rate : R) : t :=
  {| sensor_id :=
       match sensor_id with
       | Some s => if String.eqb s EmptyString then fresh_id else s
       | None => fresh_id
       end;
     position := position;
     range_noise_std := range_noise_std;
     max_range := max_range;
     detection_probability := detection_probability;
     update_rate := update_rate;
     last_measurement_time := 0 |}.

(** [__init__] called with the defaults of its signature. *)
Definition init_default (fresh_id : string) (position : point) : t :=
  init fresh_id None position 0.1 100 0.95 10.

(** [self.last_measurement_time = v] *)
Definition set_last_measurement_time (self : t) (v : R) : t :=
  {| sensor_id := sensor_id self;
     position := position self;
     range_noise_std := range_noise_std self;
     max_range := max_range self;
     detection_probability := detection_probability self;
     update_rate := update_rate self;
     last_measurement_time := v |}.

(** What the pseudo-random generator delivers when asked:
    [uniform] for [np.random.random()], a value of [[0, 1)], and
    [gauss] for the standard normal deviate behind [np.random.normal]. *)
Record Draws : Type := mkDraws { uniform : R; gauss : R }.

Definition uniform_in_range (rng : Draws) : Prop :=
  0 <= uniform rng < 1.

(** Outcome of a call: an exception, or the returned [Optional[float]]. *)
Inductive Result : Type :=
| Raise (e : Exception)
| Return (v : option R).

(** [math.sqrt(dx**2 + dy**2 + dz**2)] *)
Definition true_distance (self : t) (target_position : point) : R :=
  let '(tx, ty, tz) := target_position in
  let '(px, py, pz) := position self in
  let dx := tx - px in
  let dy := ty - py in
  let dz := tz - pz in
  sqrt (dx ^ 2 + dy ^ 2 + dz ^ 2).

(** [np.random.normal(0, scale)]: [loc + scale * gauss]; a negative
    scale raises [ValueError]. *)
Definition np_random_normal (rng : Draws) (scale : R) : Exception + R :=
  if Float.ltb scale 0 then inl (ValueError "scale < 0")
  else inr (0 + scale * gauss rng).

(** Lines 58 and 59: the time the call works with; [clock] is what
    [time.time()] would return. *)
Definition effective_time (clock : R) (current_time : option R) : R :=
  match current_time with None => clock | Some c => c end.

(** [measure_distance]. The sensor after the call is returned with the
    outcome: an exception of line 62 leaves it as it was, one of line 83
    comes after the assignment of line 66. *)
Definition measure_distance (clock : R) (rng : Draws) (self : t)
    (target_position : point) (current_time : option R) : t * Result :=
  let current_time := effective_time clock current_time in
  if Float.is_zero (update_rate self) then (self, Raise ZeroDivisionError)
  else if Float.ltb (current_time - last_measurement_time self)
                    (1 / update_rate self)
  then (self, Return None)
  else
    let self := set_last_measurement_time self current_time in
    let true_distance := true_distance self target_position in
    if Float.gtb true_distance (max_range self) then (self, Return None)
    else if Float.gtb (uniform rng) (detection_probability self)
    then (self, Return None)
    else
      match np_random_normal rng (range_noise_std self) with
      | inl e => (self, Raise e)
      | inr noise =>
          let measured_distance := true_distance + noise in
          (self, Return (Some (Rmax 0 measured_distance)))
      end.

(** The rate gate of line 62 lets the call through. *)
Definition rate_gate_open (self : t) (now : R) : Prop :=
  ~ (now - last_measurement_time self < 1 / update_rate self).

End UWBSensor.

(** ** The position estimator: [Trilateration] *)

(** *** Library results, log records and the trace of a call *)

(** The four values [np.linalg.lstsq] returns; the matrix has three
    columns, so the solution is a point. *)
Record LstsqResult : Type := mkLstsq {
  lstsq_x : point;
  lstsq_residuals : list R;
  lstsq_rank : nat;
  lstsq_s : list R
}.

(** The fields of scipy's [OptimizeResult] the code reads. *)
Record OptimizeResult : Type := mkOptimize {
  res_x : point;
  res_success : bool;
  res_fun : R;
  res_message : string
}.

Inductive Level : Type := DEBUG | INFO | WARNING | ERROR.

(** One constructor per log statement of [trilateration.py]. *)
Inductive Message : Type :=
| MsgInitialized (num_anchors : nat)
| MsgExpected (expected got : nat)
| MsgCalculated (x : point) (residuals : list R)
| MsgLlsFailed
| MsgOptSuccessful (x : point) (f : R)
| MsgOptFailed (message : string)
| MsgNonlinearFailed
| MsgUnknownMethod (method : string).

(** What a call leaves in the trace: a log record, a call of
    [np.linalg.lstsq] or of [minimize] with its arguments, and a mark for
    the branch of line 99 that takes the centroid as the initial guess. *)
Inductive Event : Type :=
| Log (lvl : Level) (msg : Message)
| CallLstsq (A : list point) (b : list R)
| SeedCentroid (c : point)
| CallMinimize (x0 : point).

(** A computation that appends to the trace. *)
Definition Traced (A : Type) : Type := list Event * A.

#[global] Instance Traced_ret : MRet Traced := fun A a => ([], a).
#[global] Instance Traced_bind : MBind Traced := fun A B f m =>
  let '(t1, a) := m in let '(t2, b) := f a in (t1 ++ t2, b).

Definition emit (e : Event) : Traced unit := ([e], tt).
Definition trace {A : Type} (m : Traced A) : list Event := fst m.
Definition value {A : Type} (m : Traced A) : A := snd m.

Definition is_solver_event (e : Event) : bool :=
  match e with Log _ _ => false | _ => true end.

(** The trace without the log records. *)
Definition solver_calls (tr : list Event) : list Event :=
  List.filter is_solver_event tr.

(** The optimizer returned and reported success ([result.success]). *)
Definition converged (outcome : option OptimizeResult) : bool :=
  match outcome with Some result => res_success result | None => false end.

(** *** Vectors *)

Definition psub (p q : point) : point :=
  let '(px, py, pz) := p in let '(qx, qy, qz) := q in
  (px - qx, py - qy, pz - qz).

(** [np.linalg.norm] of a 3-vector. *)
Definition norm (p : point) : R :=
  let '(x, y, z) := p in sqrt (x ^ 2 + y ^ 2 + z ^ 2).

(** [np.mean(positions, axis=0)] *)
Definition centroid (positions : list point) : point :=
  let n := INR (length positions) in
  (fold_right Rplus 0 (map (fun p => fst (fst p)) positions) / n,
   fold_right Rplus 0 (map (fun p => snd (fst p)) positions) / n,
   fold_right Rplus 0 (map snd positions) / n).

(** A [for] loop over indices whose body may raise ([None]). *)
Fixpoint for_each {S : Type} (body : S -> nat -> option S)
    (indices : list nat) (s : S) : option S :=
  match indices with
  | [] => Some s
  | i :: rest => s' ← body s i; for_each body rest s'
  end.

Module Trilateration.

Record t : Type := mk {
  anchor_positions : list point;
  num_anchors : nat
}.

(** [__init__]: raises [ValueError] for fewer than four anchors. *)
Definition init (anchor_positions : list point) : Traced (Exception + t) :=
  if (length anchor_positions <? 4)%nat
  then mret (inl (ValueError
         "At least 4 anchor positions are required for 3D trilateration"))
  else
    let self := {| anchor_positions := anchor_positions;
                   num_anchors := length anchor_positions |} in
    _ ← emit (Log INFO (MsgInitialized (num_anchors self)));
    mret (inr self).

(** The object [init] builds, when it builds one. *)
Definition constructed (anchor_positions : list point) (self : t) : Prop :=
  value (init anchor_positions) = inr self.

(** Row [i-1] of [A] and entry [i-1] of [b], lines 66 to 70. *)
Definition row (p0 pi : point) : point :=
  let '(x0, y0, z0) := p0 in let '(xi, yi, zi) := pi in
  (2 * (xi - x0), 2 * (yi - y0), 2 * (zi - z0)).

Definition rhs (p0 : point) (r0 : R) (pi : point) (ri : R) : R :=
  let '(x0, y0, z0) := p0 in let '(xi, yi, zi) := pi in
  (ri ^ 2 - r0 ^ 2) - (xi ^ 2 - x0 ^ 2) - (yi ^ 2 - y0 ^ 2)
    - (zi ^ 2 - z0 ^ 2).

(** Body of the loop of line 61; an index out of range raises. The three
    assignments to the columns of row [i-1] are made as one. *)
Definition fill (self : t) (distances : list R) (p0 : point) (r0 : R)
    (Ab : list point * list R) (i : nat) : option (list point * list R) :=
  let '(A, b) := Ab in
  pi ← anchor_positions self !! i;
  ri ← distances !! i;
  if bool_decide (i - 1 < length A)%nat && bool_decide (i - 1 < length b)%nat
  then Some (<[(i - 1)%nat := row p0 pi]> A,
             <[(i - 1)%nat := rhs p0 r0 pi ri]> b)
  else None.

(** Lines 54 to 70: the matrix [A] and the vector [b]. *)
Definition build_system (self : t) (distances : list R)
    : option (list point * list R) :=
  let A := replicate (num_anchors self - 1) (0, 0, 0) in
  let b := replicate (num_anchors self - 1) 0 in
  p0 ← anchor_positions self !! 0%nat;
  r0 ← distances !! 0%nat;
  for_each (fill self distances p0 r0)
           (seq 1 (num_anchors self - 1)) (A, b).

(** The function [objective] of line 105: sum of squared range errors.
    The length check of line 95 keeps the indices in range. *)
Definition objective (self : t) (distances : list R) (pt : point) : R :=
  fold_left
    (fun error_sum i =>
       let anchor := nth i (anchor_positions self) (0, 0, 0) in
       let measured_dist := nth i distances 0 in
       let calc_dist := norm (psub pt anchor) in
       error_sum + (calc_dist - measured_dist) ^ 2)
    (seq 0 (num_anchors self)) 0.

(** Lines 99 to 101: the point Stage B starts from, and the mark the
    default leaves in the trace. *)
Definition seed (self : t) (initial_guess : option point) : point :=
  match initial_guess with
  | Some g => g
  | None => centroid (anchor_positions self)
  end.

Definition seeding (self : t) (initial_guess : option point) : list Event :=
  match initial_guess with
  | Some _ => []
  | None => [SeedCentroid (centroid (anchor_positions self))]
  end.

Section Estimator.

(** [np.linalg.lstsq(A, b, rcond=None)] and
    [minimize(objective, x0, method='L-BFGS-B')]. *)
Variable lstsq : list point -> list R -> option LstsqResult.
Variable minimize : (point -> R) -> point -> option OptimizeResult.

Definition linear_least_squares (self : t) (distances : list R)
    : Traced (option point) :=
  if negb (length distances =? num_anchors self)%nat then
    _ ← emit (Log ERROR
                (MsgExpected (num_anchors self) (length distances)));
    mret None
  else
    match build_system self distances with
    | None => _ ← emit (Log ERROR MsgLlsFailed); mret None
    | Some (A, b) =>
        _ ← emit (CallLstsq A b);
        match lstsq A b with
        | None => _ ← emit (Log ERROR MsgLlsFailed); mret None
        | Some sol =>
            _ ← emit (Log DEBUG (MsgCalculated (lstsq_x sol)
                                   (lstsq_residuals sol)));
            mret (Some (lstsq_x sol))
        end
    end.

Definition nonlinear_optimization (self : t) (distances : list R)
    (initial_guess : option point) : Traced (option point) :=
  if negb (length distances =? num_anchors self)%nat then
    _ ← emit (Log ERROR
                (MsgExpected (num_anchors self) (length distances)));
    mret None
  else
    initial_guess ←
      match initial_guess with
      | None =>
          let c := centroid (anchor_positions self) in
          _ ← emit (SeedCentroid c); mret c
      | Some g => mret g
      end;
    _ ← emit (CallMinimize initial_guess);
    match minimize (objective self distances) initial_guess with
    | None => _ ← emit (Log ERROR MsgNonlinearFailed); mret None
    | Some result =>
        if res_success result then
          _ ← emit (Log DEBUG
                      (MsgOptSuccessful (res_x result) (res_fun result)));
          mret (Some (res_x result))
        else
          _ ← emit (Log WARNING (MsgOptFailed (res_message result)));
          mret None
    end.

Definition multilateral_algorithm (self : t) (distances : list R)
    : Traced (option point) :=
  lls_result ← linear_least_squares self distances;
  match lls_result with
  | Some guess =>
      opt_result ← nonlinear_optimization self distances (Some guess);
      match opt_result with
      | Some p => mret (Some p)
      | None => nonlinear_optimization self distances None
      end
  | None => nonlinear_optimization self distances None
  end.

Definition estimate_position (self : t) (distances : list R)
    (method : string) : Traced (option point) :=
  if String.eqb method "lls" then linear_least_squares self distances
  else if String.eqb method "nonlinear"
  then nonlinear_optimization self distances None
  else if String.eqb method "multi"
  then multilateral_algorithm self distances
  else _ ← emit (Log ERROR (MsgUnknownMethod method)); mret None.

End Estimator.

(** [calculate_position_error] *)
Definition calculate_position_error (true_position estimated_position : point)
    : R :=
  norm (psub true_position estimated_position).

End Trilateration.

(** Scalar product, and what it means for a point to satisfy the
    equations [A p = b] row by row. *)
Definition dot (p q : point) : R :=
  let '(px, py, pz) := p in let '(qx, qy, qz) := q in
  px * qx + py * qy + pz * qz.

Definition popp (p : point) : point :=
  let '(x, y, z) := p in (- x, - y, - z).

Definition solves (A : list point) (b : list R) (p : point) : Prop :=
  Forall2 (fun row rhs => dot row p = rhs) A b.

(** What Stage A is described as building, in the words of the
    description: the squared-distance equation of an anchor [a] with range
    [r], which says that the unknown point [x] is at distance [r] from
    [a], and the equation left by subtracting the squared-distance
    equation of anchor 0 from that of anchor [i], side by side. *)
Definition range_equation (a : point) (r : R) (x : point) : Prop :=
  dot (psub x a) (psub x a) = r ^ 2.

Definition difference_equation (p0 : point) (r0 : R) (pi : point) (ri : R)
    (x : point) : Prop :=
  dot (psub x pi) (psub x pi) - dot (psub x p0) (psub x p0)
  = ri ^ 2 - r0 ^ 2.

(** Noiseless distances as the module's example computes them,
    [np.linalg.norm(anchor - true_pos)] for each anchor. *)
Definition exact_distances (anchors : list point) (p : point) : list R :=
  map (fun anchor => norm (psub anchor p)) anchors.

(** ** Sample configurations *)

Module Samples.

(** A sensor at the origin built with the defaults of [__init__]. *)
Definition sensor0 : UWBSensor.t := UWBSensor.init_default "uwb_0" (0, 0, 0).

(** The same sensor with [detection_probability] 0.0 and 1.0. *)
Definition sensor_never : UWBSensor.t :=
  UWBSensor.init "uwb_0" None (0, 0, 0) 0.1 100 0 10.
Definition sensor_always : UWBSensor.t :=
  UWBSensor.init "uwb_0" None (0, 0, 0) 0.1 100 1 10.

Definition far_target : point := (200, 0, 0).
Definition near_target : point := (3, 4, 0).

(** A draw that passes the default detection trial, one that fails it,
    and the smallest value [np.random.random()] can deliver. *)
Definition draws_hit : UWBSensor.Draws := UWBSensor.mkDraws 0.5 0.
Definition draws_miss : UWBSensor.Draws := UWBSensor.mkDraws 0.99 0.
Definition draws_zero : UWBSensor.Draws := UWBSensor.mkDraws 0 0.

(** Four anchors of which one is off the floor, the four coplanar room
    corners of the module's own example, and the target of both. *)
Definition anchors_room : list point :=
  [(0, 0, 0); (5, 0, 0); (5, 5, 0); (0, 5, 2.5)].
Definition anchors_coplanar : list point :=
  [(0, 0, 2.5); (5, 0, 2.5); (5, 5, 2.5); (0, 5, 2.5)].
Definition true_pos : point := (2.5, 2.5, 1.0).

Definition room : Trilateration.t := Trilateration.mk anchors_room 4.
Definition coplanar : Trilateration.t := Trilateration.mk anchors_coplanar 4.

Definition room_distances : list R := exact_distances anchors_room true_pos.
Definition coplanar_distances : list R :=
  exact_distances anchors_coplanar true_pos.

(** The exact solution of the Stage A system of the room sample, and the
    minimum-norm solution of the rank-deficient system of the coplanar
    sample, both at noiseless distances. *)
Definition room_lls : point := (-2.5, -2.5, -1).
Definition coplanar_lls : point := (-2.5, -2.5, 0).

(** Library behaviours used to run the estimator on the samples: a
    least-squares routine that delivers a given solution, one that raises,
    an optimizer that stops at its starting point without meeting its
    tolerance, and one that reports convergence at a given point. *)
Definition lstsq_returns (x : point) (rank : nat)
    : list point -> list R -> option LstsqResult :=
  fun _ _ => Some (mkLstsq x [] rank []).
Definition lstsq_raises : list point -> list R -> option LstsqResult :=
  fun _ _ => None.
Definition minimize_stalls
    : (point -> R) -> point -> option OptimizeResult :=
  fun f x0 => Some (mkOptimize x0 false (f x0)
                      "ABNORMAL_TERMINATION_IN_LNSRCH").
Definition minimize_finds (x : point)
    : (point -> R) -> point -> option OptimizeResult :=
  fun f _ => Some (mkOptimize x true (f x)
                     "CONVERGENCE: NORM_OF_PROJECTED_GRADIENT_<=_PGTOL").

End Samples.

(** ** The sensor network: [UWBSensorNetwork] *)

(** A Python [dict] with string keys: the entries in insertion order, each
    key at most once. Assigning to a key that is present replaces the value
    in place; a new key goes to the end. *)
Module Dict.

Definition t (V : Type) : Type := list (string * V).

Fixpoint get {V : Type} (d : t V) (k : string) : option V :=
  match d with
  | [] => None
  | (k', v) :: rest => if String.eqb k' k then Some v else get rest k
  end.

(** [k in d] *)
Definition mem {V : Type} (d : t V) (k : string) : bool :=
  match get d k with Some _ => true | None => false end.

(** [d[k] = v] *)
Fixpoint set {V : Type} (d : t V) (k : string) (v : V) : t V :=
  match d with
  | [] => [(k, v)]
  | (k', v') :: rest =>
      if String.eqb k' k then (k', v) :: rest else (k', v') :: set rest k v
  end.

(** [del d[k]], for a key that is present *)
Fixpoint del {V : Type} (d : t V) (k : string) : t V :=
  match d with
  | [] => []
  | (k', v') :: rest =>
      if String.eqb k' k then rest else (k', v') :: del rest k
  end.

Definition keys {V : Type} (d : t V) : list string := map fst d.
Definition values {V : Type} (d : t V) : list V := map snd d.

(** The keys are pairwise distinct, as in every Python [dict]. *)
Definition wf {V : Type} (d : t V) : Prop := NoDup (keys d).

End Dict.

Module UWBSensorNetwork.

Record t : Type := mk { sensors : Dict.t UWBSensor.t }.

(** [__init__]: an empty network. *)
Definition init : t := mk [].

(** [add_sensor]: the network after the call and the returned id. *)
Definition add_sensor (self : t) (sensor : UWBSensor.t) : t * string :=
  (mk (Dict.set (sensors self) (UWBSensor.sensor_id sensor) sensor),
   UWBSensor.sensor_id sensor).

(** [remove_sensor] *)
Definition remove_sensor (self : t) (sensor_id : string) : t * bool :=
  if Dict.mem (sensors self) sensor_id
  then (mk (Dict.del (sensors self) sensor_id), true)
  else (self, false).

(** The loop of [measure_distances] over [self.sensors.items()]. Each
    sensor object is updated in place by its [measure_distance]; [rng id]
    is what the generator would deliver to the call made for key [id]. An
    exception leaves the loop at once: the sensors visited so far keep
    their updates, the others are untouched. *)
Fixpoint measure_loop (clock : R) (rng : string -> UWBSensor.Draws)
    (tag_position : point) (current_time : R)
    (entries : Dict.t UWBSensor.t) (measurements : Dict.t R)
    : Dict.t UWBSensor.t * (Exception + Dict.t R) :=
  match entries with
  | [] => ([], inr measurements)
  | (sensor_id, sensor) :: rest =>
      let '(sensor', outcome) :=
        UWBSensor.measure_distance clock (rng sensor_id) sensor
          tag_position (Some current_time) in
      match outcome with
      | UWBSensor.Raise e => ((sensor_id, sensor') :: rest, inl e)
      | UWBSensor.Return distance =>
          let measurements :=
            match distance with
            | Some d => Dict.set measurements sensor_id d
            | None => measurements
            end in
          let '(rest', result) :=
            measure_loop clock rng tag_position current_time rest
              measurements in
          ((sensor_id, sensor') :: rest', result)
      end
  end.

(** [measure_distances] *)
Definition measure_distances (clock : R) (rng : string -> UWBSensor.Draws)
    (self : t) (tag_position : point) (current_time : option R)
    : t * (Exception + Dict.t R) :=
  let current_time := UWBSensor.effective_time clock current_time in
  let '(sensors', result) :=
    measure_loop clock rng tag_position current_time (sensors self) [] in
  (mk sensors', result).

(** The call a poll at [current_time] makes for one entry of the network,
    and what it adds to the measurements. *)
Definition polled (clock : R) (rng : string -> UWBSensor.Draws)
    (tag_position : point) (current_time : R)
    (entry : string * UWBSensor.t) : UWBSensor.t * UWBSensor.Result :=
  UWBSensor.measure_distance clock (rng (fst entry)) (snd entry)
    tag_position (Some current_time).

Definition recorded (clock : R) (rng : string -> UWBSensor.Draws)
    (tag_position : point) (current_time : R)
    (measurements : Dict.t R) (entry : string * UWBSensor.t) : Dict.t R :=
  match snd (polled clock rng tag_position current_time entry) with
  | UWBSensor.Return (Some d) => Dict.set measurements (fst entry) d
  | _ => measurements
  end.

(** The entry after its call, and the calls that return. *)
Definition updated (clock : R) (rng : string -> UWBSensor.Draws)
    (tag_position : point) (current_time : R)
    (entry : string * UWBSensor.t) : string * UWBSensor.t :=
  (fst entry, fst (polled clock rng tag_position current_time entry)).

Definition returns (clock : R) (rng : string -> UWBSensor.Draws)
    (tag_position : point) (current_time : R)
    (entry : string * UWBSensor.t) : Prop :=
  exists v,
    snd (polled clock rng tag_position current_time entry)
      = UWBSensor.Return v.

(** [get_sensor_positions] *)
Definition get_sensor_positions (self : t) : Dict.t point :=
  map (fun entry => (fst entry, UWBSensor.position (snd entry)))
      (sensors self).

(** *** [create_grid_layout] *)

(** The keyword arguments [**sensor_properties] can pass on to
    [UWBSensor.__init__]; [position] is given by the layout itself, and a
    second value for it, or an unknown key, would be a [TypeError]. *)
Record SensorProperties : Type := mkProperties {
  prop_sensor_id : option string;
  prop_range_noise_std : option R;
  prop_max_range : option R;
  prop_detection_probability : option R;
  prop_update_rate : option R
}.

Definition no_properties : SensorProperties :=
  mkProperties None None None None None.

(** [UWBSensor(position=position, **sensor_properties)] *)
Definition make_sensor (fresh_id : string) (position : point)
    (properties : SensorProperties) : UWBSensor.t :=
  UWBSensor.init fresh_id (prop_sensor_id properties) position
    (default 0.1 (prop_range_noise_std properties))
    (default 100 (prop_max_range properties))
    (default 0.95 (prop_detection_probability properties))
    (default 10 (prop_update_rate properties)).

(** [int(x)] for a float: truncation towards zero. *)
Definition py_int (x : R) : Z :=
  if Rle_dec 0 x then Int_part x else (- Int_part (- x))%Z.

(** [max(2, int(extent / grid_size) + 1)] *)
Definition grid_count (extent grid_size : R) : nat :=
  Z.to_nat (Z.max 2 (py_int (extent / grid_size) + 1)).

(** [min(hi, max(0, x))] *)
Definition clamp (hi x : R) : R := Rmin hi (Rmax 0 x).

(** [i == 0 or i == nx-1 or j == 0 or j == ny-1] *)
Definition on_perimeter (nx ny i j : nat) : bool :=
  (i =? 0)%nat || (i =? nx - 1)%nat || (j =? 0)%nat || (j =? ny - 1)%nat.

(** Construct a sensor and add it; the second component counts the
    sensors constructed so far, [fresh k] being the identifier [uuid]
    would produce for the next one. *)
Definition place (fresh : nat -> string) (properties : SensorProperties)
    (position : point) (state : t * nat) : t * nat :=
  let '(network, k) := state in
  (fst (add_sensor network (make_sensor (fresh k) position properties)),
   S k).

(** Position of the sensor of cell [(i, j)]. *)
Definition cell_position (width length grid_size z_height : R) (i j : nat)
    : point :=
  (clamp width (INR i * grid_size), clamp length (INR j * grid_size),
   z_height).

(** Body of the inner loop. *)
Definition grid_cell (fresh : nat -> string) (properties : SensorProperties)
    (width length grid_size z_height : R) (nx ny i : nat)
    (state : t * nat) (j : nat) : t * nat :=
  if on_perimeter nx ny i j
  then place fresh properties
         (cell_position width length grid_size z_height i j) state
  else state.

(** The state the two loops and the final test of [create_grid_layout]
    arrive at: the network and the number of sensors constructed. *)
Definition grid_state (fresh : nat -> string)
    (properties : SensorProperties)
    (width length grid_size z_height : R) : t * nat :=
  let nx := grid_count width grid_size in
  let ny := grid_count length grid_size in
  let state :=
    fold_left
      (fun state i =>
         fold_left
           (grid_cell fresh properties width length grid_size z_height
              nx ny i)
           (seq 0 ny) state)
      (seq 0 nx) (init, 0%nat) in
  if Float.gtb width (3 * grid_size) && Float.gtb length (3 * grid_size)
  then place fresh properties (width / 2, length / 2, z_height) state
  else state.

(** [create_grid_layout]; [height] is accepted and not used. A
    [grid_size] of zero raises in the first division. *)
Definition create_grid_layout (fresh : nat -> string)
    (width length height grid_size z_height : R)
    (sensor_properties : option SensorProperties) : Exception + t :=
  let properties := default no_properties sensor_properties in
  if Float.is_zero grid_size then inl ZeroDivisionError
  else
    let nx := grid_count width grid_size in
    let ny := grid_count length grid_size in
    let state :=
      fold_left
        (fun state i =>
           fold_left
             (grid_cell fresh properties width length grid_size z_height
                nx ny i)
             (seq 0 ny) state)
        (seq 0 nx) (init, 0%nat) in
    let state :=
      if Float.gtb width (3 * grid_size) && Float.gtb length (3 * grid_size)
      then place fresh properties (width / 2, length / 2, z_height) state
      else state in
    inr (fst state).

End UWBSensorNetwork.

(** ** Counting solver calls *)

Definition is_lstsq_call (e : Event) : bool :=
  match e with CallLstsq _ _ => true | _ => false end.

Definition is_minimize_call (e : Event) : bool :=
  match e with CallMinimize _ => true | _ => false end.

Definition lstsq_calls (tr : list Event) : nat :=
  length (List.filter is_lstsq_call tr).

Definition minimize_calls (tr : list Event) : nat :=
  length (List.filter is_minimize_call tr).

(** ** More sample configurations *)

Module NetworkSamples.

Definition sensor_a : UWBSensor.t :=
  UWBSensor.init "uwb_0" (Some "a"%string) (0, 0, 0) 0.1 100 0.95 10.
Definition sensor_b : UWBSensor.t :=
  UWBSensor.init "uwb_0" (Some "b"%string) (0, 0, 0) 0 100 1 10.
Definition sensor_fragile : UWBSensor.t :=
  UWBSensor.init "uwb_0" (Some "c"%string) (0, 0, 0) 0.1 100 0.95 0.

Definition pair_network : UWBSensorNetwork.t :=
  UWBSensorNetwork.mk [("a"%string, sensor_a); ("b"%string, sensor_b)].

Definition same_draws : string -> UWBSensor.Draws :=
  fun _ => Samples.draws_hit.

(** Identifiers standing for the ones [uuid] produces, all distinct. *)
Fixpoint tally (k : nat) : string :=
  match k with
  | O => EmptyString
  | S k' => String.append "x" (tally k')
  end.

Definition numbered (k : nat) : string := String.append "uwb_" (tally k).

End NetworkSamples.

(** * Properties *)

(** ** Comparisons *)

Lemma ltb_lt (x y : R) : Float.ltb x y = true <-> x < y.
Proof.
  unfold Float.ltb. destruct (Rlt_dec x y); split; intros; congruence || assumption.
Qed.

Lemma ltb_ge (x y : R) : Float.ltb x y = false <-> y <= x.
Proof.
  unfold Float.ltb.
  destruct (Rlt_dec x y); split; intros; try congruence; try lra.
Qed.

Lemma ltb_nlt (x y : R) : Float.ltb x y = false <-> ~ x < y.
Proof. rewrite ltb_ge. split; lra. Qed.

Lemma gtb_gt (x y : R) : Float.gtb x y = true <-> x > y.
Proof. unfold Float.gtb. rewrite ltb_lt. unfold Rgt. tauto. Qed.

Lemma gtb_le (x y : R) : Float.gtb x y = false <-> x <= y.
Proof. unfold Float.gtb. apply ltb_ge. Qed.

Lemma is_zero_true (x : R) : Float.is_zero x = true <-> x = 0.
Proof.
  unfold Float.is_zero. destruct (Req_dec_T x 0); split; intros; congruence.
Qed.

Lemma is_zero_false (x : R) : Float.is_zero x = false <-> x <> 0.
Proof.
  unfold Float.is_zero. destruct (Req_dec_T x 0); split; intros; congruence.
Qed.

(** Settle a comparison whose outcome follows from the context. *)
Ltac settle_cmp :=
  match goal with
  | |- context [Float.ltb ?x ?y] =>
      first [ replace (Float.ltb x y) with true
                by (symmetry; apply ltb_lt; lra)
            | replace (Float.ltb x y) with false
                by (symmetry; apply ltb_ge; lra) ]
  | |- context [Float.gtb ?x ?y] =>
      first [ replace (Float.gtb x y) with true
                by (symmetry; apply gtb_gt; lra)
            | replace (Float.gtb x y) with false
                by (symmetry; apply gtb_le; lra) ]
  | |- context [Float.is_zero ?x] =>
      first [ replace (Float.is_zero x) with true
                by (symmetry; apply is_zero_true; lra)
            | replace (Float.is_zero x) with false
                by (symmetry; apply is_zero_false; lra) ]
  end.

(** ** The range-measurement source *)

Section SensorFacts.

Import UWBSensor.

Variables (clock : R) (rng : Draws) (self : t) (target : point).
Variable current_time : option R.

Lemma set_last_measurement_time_same :
  set_last_measurement_time self (last_measurement_time self) = self.
Proof. destruct self; reflexivity. Qed.

Lemma true_distance_set_time (v : R) :
  true_distance (set_last_measurement_time self v) target =
  true_distance self target.
Proof. reflexivity. Qed.

(** A closed gate: nothing changes and [None] is returned. *)
Lemma measure_distance_gated :
  update_rate self <> 0 ->
  ~ rate_gate_open self (effective_time clock current_time) ->
  measure_distance clock rng self target current_time = (self, Return None).
Proof.
  intros Hrate Hgate.
  assert (Hlt : effective_time clock current_time
                  - last_measurement_time self < 1 / update_rate self).
  { apply Rnot_le_lt. intro Hle. apply Hgate. unfold rate_gate_open. lra. }
  unfold measure_distance. cbv zeta.
  apply is_zero_false in Hrate. rewrite Hrate.
  apply ltb_lt in Hlt. now rewrite Hlt.
Qed.

(** An open gate: the clock is advanced before anything else is looked at. *)
Lemma measure_distance_open :
  update_rate self <> 0 ->
  rate_gate_open self (effective_time clock current_time) ->
  fst (measure_distance clock rng self target current_time) =
  set_last_measurement_time self (effective_time clock current_time).
Proof.
  intros Hrate Hgate. unfold rate_gate_open in Hgate.
  unfold measure_distance. cbv zeta.
  apply is_zero_false in Hrate. rewrite Hrate.
  apply ltb_nlt in Hgate. rewrite Hgate.
  destruct (Float.gtb _ _); [reflexivity|].
  destruct (Float.gtb _ _); [reflexivity|].
  destruct (np_random_normal _ _); reflexivity.
Qed.

End SensorFacts.

(** Distances of the sample targets from the sample sensors. *)
Lemma sqrt_of_square (a d : R) : 0 <= d -> a = d * d -> sqrt a = d.
Proof. intros Hd ->. now apply sqrt_square. Qed.

Lemma far_target_distance (s : UWBSensor.t) :
  UWBSensor.position s = (0, 0, 0) ->
  UWBSensor.true_distance s Samples.far_target = 200.
Proof.
  intros Hp. unfold UWBSensor.true_distance, Samples.far_target.
  rewrite Hp. apply sqrt_of_square; lra.
Qed.

Lemma near_target_distance (s : UWBSensor.t) :
  UWBSensor.position s = (0, 0, 0) ->
  UWBSensor.true_distance s Samples.near_target = 5.
Proof.
  intros Hp. unfold UWBSensor.true_distance, Samples.near_target.
  rewrite Hp. apply sqrt_of_square; lra.
Qed.

(** Run [measure_distance] on a sample sensor at the origin. *)
Ltac run_measure :=
  unfold UWBSensor.measure_distance; cbv zeta;
  repeat first
    [ rewrite true_distance_set_time
    | rewrite far_target_distance by reflexivity
    | rewrite near_target_distance by reflexivity
    | progress unfold UWBSensor.np_random_normal
    | progress cbn [UWBSensor.update_rate UWBSensor.last_measurement_time
                    UWBSensor.max_range UWBSensor.detection_probability
                    UWBSensor.range_noise_std UWBSensor.uniform
                    UWBSensor.gauss UWBSensor.set_last_measurement_time
                    UWBSensor.init UWBSensor.init_default
                    UWBSensor.effective_time
                    Samples.sensor0 Samples.sensor_never
                    Samples.sensor_always Samples.draws_hit
                    Samples.draws_miss Samples.draws_zero
                    fst snd]
    | settle_cmp ].

(** C1, as the code has it: [last_measurement_time] becomes the current
    time exactly when the rate gate lets the call through, whatever the
    range check, the detection trial or the noise draw do afterwards; a
    call stopped by the rate gate leaves the sensor as it was. In
    particular every call that returns a measurement has set it. *)
Theorem rate_clock_advances_iff_gate_open
    (clock : R) (rng : UWBSensor.Draws) (self : UWBSensor.t)
    (target : point) (current_time : option R) :
  UWBSensor.update_rate self <> 0 ->
  let now := UWBSensor.effective_time clock current_time in
  let call :=
    UWBSensor.measure_distance clock rng self target current_time in
  (UWBSensor.rate_gate_open self now ->
     UWBSensor.last_measurement_time (fst call) = now) /\
  (~ UWBSensor.rate_gate_open self now ->
     call = (self, UWBSensor.Return None)) /\
  (forall d, snd call = UWBSensor.Return (Some d) ->
     UWBSensor.last_measurement_time (fst call) = now).
Proof.
  intros Hrate now call.
  assert (Hopen : UWBSensor.rate_gate_open self now ->
                  UWBSensor.last_measurement_time (fst call) = now).
  { intros Hgate. subst call. unfold now.
    rewrite measure_distance_open by assumption. reflexivity. }
  assert (Hshut : ~ UWBSensor.rate_gate_open self now ->
                  call = (self, UWBSensor.Return None)).
  { intros Hgate. subst call. now apply measure_distance_gated. }
  split; [exact Hopen|]. split; [exact Hshut|].
  intros d Hd.
  destruct (Rlt_dec (now - UWBSensor.last_measurement_time self)
                    (1 / UWBSensor.update_rate self)) as [Hlt|Hge].
  - rewrite Hshut in Hd; [discriminate|].
    intros Hgate. now apply Hgate.
  - now apply Hopen.
Qed.

Lemma rate_clock_advances_iff_gate_open_witness :
  UWBSensor.update_rate Samples.sensor0 <> 0 /\
  (UWBSensor.rate_gate_open Samples.sensor0 5 /\
   UWBSensor.last_measurement_time
     (fst (UWBSensor.measure_distance 0 Samples.draws_hit Samples.sensor0
             Samples.far_target (Some 5))) = 5) /\
  (~ UWBSensor.rate_gate_open Samples.sensor0 0.05 /\
   UWBSensor.measure_distance 0 Samples.draws_hit Samples.sensor0
     Samples.near_target (Some 0.05) =
   (Samples.sensor0, UWBSensor.Return None)) /\
  (snd (UWBSensor.measure_distance 0 Samples.draws_hit Samples.sensor0
          Samples.near_target (Some 5)) = UWBSensor.Return (Some 5) /\
   UWBSensor.last_measurement_time
     (fst (UWBSensor.measure_distance 0 Samples.draws_hit Samples.sensor0
             Samples.near_target (Some 5))) = 5).
Proof.
  assert (Hrate : UWBSensor.update_rate Samples.sensor0 <> 0) by (cbn; lra).
  assert (Hopen : UWBSensor.rate_gate_open Samples.sensor0 5).
  { unfold UWBSensor.rate_gate_open. cbn. lra. }
  assert (Hshut : ~ UWBSensor.rate_gate_open Samples.sensor0 0.05).
  { unfold UWBSensor.rate_gate_open. cbn. lra. }
  assert (Hfive : snd (UWBSensor.measure_distance 0 Samples.draws_hit
                         Samples.sensor0 Samples.near_target (Some 5))
                  = UWBSensor.Return (Some 5)).
  { run_measure. cbn [snd]. do 2 f_equal.
    unfold Rmax. destruct (Rle_dec 0 (5 + (0 + 0.1 * 0))); lra. }
  split; [exact Hrate|]. split; [|split]; (split; [assumption|]).
  - exact (proj1 (rate_clock_advances_iff_gate_open 0 Samples.draws_hit
                    Samples.sensor0 Samples.far_target (Some 5) Hrate)
             Hopen).
  - exact (proj1 (proj2 (rate_clock_advances_iff_gate_open 0
                           Samples.draws_hit Samples.sensor0
                           Samples.near_target (Some 0.05) Hrate))
             Hshut).
  - exact (proj2 (proj2 (rate_clock_advances_iff_gate_open 0
                           Samples.draws_hit Samples.sensor0
                           Samples.near_target (Some 5) Hrate))
             5 Hfive).
Defined.

(** C1 as stated fails: a call that returns [None] because the target is
    out of range, and one that returns [None] because the detection trial
    fails, both move [last_measurement_time] from 0 to 5. *)
Lemma rate_clock_moves_on_failed_measurement :
  let out_of_range :=
    UWBSensor.measure_distance 0 Samples.draws_hit Samples.sensor0
      Samples.far_target (Some 5) in
  let missed :=
    UWBSensor.measure_distance 0 Samples.draws_miss Samples.sensor0
      Samples.near_target (Some 5) in
  UWBSensor.last_measurement_time Samples.sensor0 = 0 /\
  UWBSensor.true_distance Samples.sensor0 Samples.far_target >
    UWBSensor.max_range Samples.sensor0 /\
  snd out_of_range = UWBSensor.Return None /\
  UWBSensor.last_measurement_time (fst out_of_range) = 5 /\
  UWBSensor.true_distance Samples.sensor0 Samples.near_target <=
    UWBSensor.max_range Samples.sensor0 /\
  UWBSensor.uniform Samples.draws_miss >
    UWBSensor.detection_probability Samples.sensor0 /\
  snd missed = UWBSensor.Return None /\
  UWBSensor.last_measurement_time (fst missed) = 5 /\
  5 <> UWBSensor.last_measurement_time Samples.sensor0.
Proof.
  cbv zeta.
  repeat split.
  - rewrite far_target_distance by reflexivity. cbn. lra.
  - run_measure. reflexivity.
  - run_measure. reflexivity.
  - rewrite near_target_distance by reflexivity. cbn. lra.
  - cbn. lra.
  - run_measure. reflexivity.
  - run_measure. reflexivity.
  - cbn. lra.
Qed.

(** C8, as the code has it: on a call the rate gate lets through, with the
    target in range and a non-negative noise deviation, a detection
    probability of 0.0 gives [None] for every draw above zero, and a
    detection probability of 1.0 gives a non-negative measurement for every
    draw [np.random.random()] can deliver. *)
Theorem detection_probability_boundary
    (clock : R) (rng : UWBSensor.Draws) (self : UWBSensor.t)
    (target : point) (current_time : option R) :
  UWBSensor.update_rate self <> 0 ->
  UWBSensor.rate_gate_open self
    (UWBSensor.effective_time clock current_time) ->
  UWBSensor.true_distance self target <= UWBSensor.max_range self ->
  0 <= UWBSensor.range_noise_std self ->
  let outcome :=
    snd (UWBSensor.measure_distance clock rng self target current_time) in
  (UWBSensor.detection_probability self = 0 ->
   0 < UWBSensor.uniform rng ->
   outcome = UWBSensor.Return None) /\
  (UWBSensor.detection_probability self = 1 ->
   UWBSensor.uniform_in_range rng ->
   exists d, outcome = UWBSensor.Return (Some d) /\ 0 <= d).
Proof.
  intros Hrate Hgate Hrange Hstd outcome. subst outcome.
  unfold UWBSensor.measure_distance. cbv zeta.
  apply is_zero_false in Hrate. rewrite Hrate.
  apply ltb_nlt in Hgate. rewrite Hgate. rewrite true_distance_set_time.
  apply gtb_le in Hrange.
  cbn [UWBSensor.max_range UWBSensor.set_last_measurement_time
       UWBSensor.detection_probability UWBSensor.range_noise_std].
  rewrite Hrange. split.
  - intros Hp Hu. rewrite Hp.
    replace (Float.gtb (UWBSensor.uniform rng) 0) with true
      by (symmetry; apply gtb_gt; lra).
    reflexivity.
  - intros Hp [Hu0 Hu1]. rewrite Hp.
    replace (Float.gtb (UWBSensor.uniform rng) 1) with false
      by (symmetry; apply gtb_le; lra).
    unfold UWBSensor.np_random_normal.
    replace (Float.ltb (UWBSensor.range_noise_std self) 0) with false
      by (symmetry; apply ltb_ge; lra).
    eexists. split; [reflexivity|]. apply Rmax_l.
Qed.

Lemma detection_probability_boundary_witness :
  (UWBSensor.update_rate Samples.sensor_never <> 0 /\
   UWBSensor.rate_gate_open Samples.sensor_never 5 /\
   UWBSensor.true_distance Samples.sensor_never Samples.near_target <=
     UWBSensor.max_range Samples.sensor_never /\
   0 <= UWBSensor.range_noise_std Samples.sensor_never /\
   UWBSensor.detection_probability Samples.sensor_never = 0 /\
   0 < UWBSensor.uniform Samples.draws_hit /\
   snd (UWBSensor.measure_distance 0 Samples.draws_hit Samples.sensor_never
          Samples.near_target (Some 5)) = UWBSensor.Return None) /\
  (UWBSensor.update_rate Samples.sensor_always <> 0 /\
   UWBSensor.rate_gate_open Samples.sensor_always 5 /\
   UWBSensor.true_distance Samples.sensor_always Samples.near_target <=
     UWBSensor.max_range Samples.sensor_always /\
   0 <= UWBSensor.range_noise_std Samples.sensor_always /\
   UWBSensor.detection_probability Samples.sensor_always = 1 /\
   UWBSensor.uniform_in_range Samples.draws_miss /\
   exists d,
     snd (UWBSensor.measure_distance 0 Samples.draws_miss
            Samples.sensor_always Samples.near_target (Some 5))
       = UWBSensor.Return (Some d) /\ 0 <= d).
Proof.
  assert (Hgate : forall s, UWBSensor.update_rate s = 10 ->
            UWBSensor.last_measurement_time s = 0 ->
            UWBSensor.rate_gate_open s 5).
  { intros s Hr Hl. unfold UWBSensor.rate_gate_open. rewrite Hr, Hl. lra. }
  split.
  - assert (H1 : UWBSensor.update_rate Samples.sensor_never <> 0)
      by (cbn; lra).
    assert (H2 := Hgate Samples.sensor_never eq_refl eq_refl).
    assert (H3 : UWBSensor.true_distance Samples.sensor_never
                   Samples.near_target
                 <= UWBSensor.max_range Samples.sensor_never).
    { rewrite near_target_distance by reflexivity. cbn. lra. }
    assert (H4 : 0 <= UWBSensor.range_noise_std Samples.sensor_never)
      by (cbn; lra).
    assert (H5 : 0 < UWBSensor.uniform Samples.draws_hit) by (cbn; lra).
    repeat split; try assumption.
    exact (proj1 (detection_probability_boundary 0 Samples.draws_hit
                    Samples.sensor_never Samples.near_target (Some 5)
                    H1 H2 H3 H4) eq_refl H5).
  - assert (H1 : UWBSensor.update_rate Samples.sensor_always <> 0)
      by (cbn; lra).
    assert (H2 := Hgate Samples.sensor_always eq_refl eq_refl).
    assert (H3 : UWBSensor.true_distance Samples.sensor_always
                   Samples.near_target
                 <= UWBSensor.max_range Samples.sensor_always).
    { rewrite near_target_distance by reflexivity. cbn. lra. }
    assert (H4 : 0 <= UWBSensor.range_noise_std Samples.sensor_always)
      by (cbn; lra).
    assert (H5 : UWBSensor.uniform_in_range Samples.draws_miss).
    { unfold UWBSensor.uniform_in_range. cbn. lra. }
    split; [exact H1|]. split; [exact H2|]. split; [exact H3|].
    split; [exact H4|]. split; [reflexivity|]. split; [exact H5|].
    exact (proj2 (detection_probability_boundary 0 Samples.draws_miss
                    Samples.sensor_always Samples.near_target (Some 5)
                    H1 H2 H3 H4) eq_refl H5).
Defined.

(** C8 as stated fails: with [detection_probability] 0.0 and the draw 0.0,
    which [np.random.random()] can deliver, the test [0.0 > 0.0] is false
    and the in-range call returns the measurement 5. *)
Lemma zero_draw_detected_at_probability_zero :
  UWBSensor.detection_probability Samples.sensor_never = 0 /\
  UWBSensor.uniform_in_range Samples.draws_zero /\
  UWBSensor.rate_gate_open Samples.sensor_never 5 /\
  UWBSensor.true_distance Samples.sensor_never Samples.near_target <=
    UWBSensor.max_range Samples.sensor_never /\
  snd (UWBSensor.measure_distance 0 Samples.draws_zero Samples.sensor_never
         Samples.near_target (Some 5)) = UWBSensor.Return (Some 5).
Proof.
  split; [reflexivity|]. split.
  { unfold UWBSensor.uniform_in_range. cbn. lra. }
  split.
  { unfold UWBSensor.rate_gate_open. cbn. lra. }
  split.
  { rewrite near_target_distance by reflexivity. cbn. lra. }
  run_measure. cbn [snd]. do 2 f_equal.
  unfold Rmax. destruct (Rle_dec 0 (5 + (0 + 0.1 * 0))); lra.
Qed.

(** C10: a sensor fresh from [__init__] has [last_measurement_time] 0.0,
    so its first call at a time below [1 / update_rate] is stopped by the
    rate gate and returns [None], leaving the sensor unchanged. *)
Theorem fresh_sensor_gated_below_period
    (fresh_id : string) (sensor_id : option string) (position : point)
    (range_noise_std max_range detection_probability update_rate : R)
    (clock : R) (rng : UWBSensor.Draws) (target : point)
    (current_time : option R) :
  update_rate <> 0 ->
  UWBSensor.effective_time clock current_time < 1 / update_rate ->
  let fresh :=
    UWBSensor.init fresh_id sensor_id position range_noise_std max_range
      detection_probability update_rate in
  UWBSensor.last_measurement_time fresh = 0 /\
  UWBSensor.measure_distance clock rng fresh target current_time =
    (fresh, UWBSensor.Return None).
Proof.
  intros Hrate Hlt fresh. split; [reflexivity|].
  apply measure_distance_gated; [exact Hrate|].
  unfold UWBSensor.rate_gate_open. subst fresh. cbn. lra.
Qed.

Lemma fresh_sensor_gated_below_period_witness :
  (10 : R) <> 0 /\
  UWBSensor.effective_time 0 (Some 0.05) < 1 / 10 /\
  UWBSensor.measure_distance 0 Samples.draws_hit Samples.sensor0
    Samples.near_target (Some 0.05) =
  (Samples.sensor0, UWBSensor.Return None).
Proof.
  assert (H1 : (10 : R) <> 0) by lra.
  assert (H2 : UWBSensor.effective_time 0 (Some 0.05) < 1 / 10)
    by (cbn; lra).
  repeat split; [exact H1 | exact H2 |].
  exact (proj2 (fresh_sensor_gated_below_period "uwb_0" None (0, 0, 0)
                  0.1 100 0.95 10 0 Samples.draws_hit Samples.near_target
                  (Some 0.05) H1 H2)).
Defined.

(** ** The linear system of Stage A *)

Section BuildSystem.

Import Trilateration.

Variables (self : t) (distances : list R) (p0 : point) (r0 : R).

(** One pass of the loop body writes row [i-1] and keeps the shapes. *)
Lemma fill_some (A : list point) (b : list R) (i : nat) (pi : point) (ri : R) :
  anchor_positions self !! i = Some pi ->
  distances !! i = Some ri ->
  (i - 1 < length A)%nat -> (i - 1 < length b)%nat ->
  fill self distances p0 r0 (A, b) i =
    Some (<[(i - 1)%nat := row p0 pi]> A,
          <[(i - 1)%nat := rhs p0 r0 pi ri]> b).
Proof.
  intros Ha Hd HA Hb. unfold fill. rewrite Ha, Hd. cbn.
  rewrite !bool_decide_eq_true_2 by assumption. reflexivity.
Qed.

(** Loop invariant: after the loop over distinct indices [1 <= i <= m],
    row [i-1] holds the equation of anchor [i] and the other rows are
    untouched. *)
Lemma for_each_fill (m : nat) (indices : list nat) :
  forall (A : list point) (b : list R),
  length A = m -> length b = m ->
  NoDup indices ->
  (forall i, i ∈ indices ->
     (1 <= i <= m)%nat /\ is_Some (anchor_positions self !! i) /\
     is_Some (distances !! i)) ->
  exists A' b',
    for_each (fill self distances p0 r0) indices (A, b) = Some (A', b') /\
    length A' = m /\ length b' = m /\
    (forall i pi ri, i ∈ indices ->
       anchor_positions self !! i = Some pi -> distances !! i = Some ri ->
       A' !! (i - 1)%nat = Some (row p0 pi) /\
       b' !! (i - 1)%nat = Some (rhs p0 r0 pi ri)) /\
    (forall j, S j ∉ indices -> A' !! j = A !! j /\ b' !! j = b !! j).
Proof.
  induction indices as [|i rest IH]; intros A b HA Hb Hnd Hin.
  - exists A, b. split; [reflexivity|]. split; [exact HA|].
    split; [exact Hb|]. split.
    + intros i pi ri Hi. inversion Hi.
    + intros j _. split; reflexivity.
  - apply NoDup_cons in Hnd as [Hnotin Hnd].
    destruct (Hin i) as ([Hi1 Him] & [pi Hpi] & [ri Hri]); [left|].
    cbn [for_each].
    rewrite (fill_some A b i pi ri) by (assumption || lia). cbn.
    destruct (IH (<[(i - 1)%nat := row p0 pi]> A)
                 (<[(i - 1)%nat := rhs p0 r0 pi ri]> b))
      as (A' & b' & Hrun & HA' & Hb' & Hrows & Hkeep).
    + now rewrite length_insert.
    + now rewrite length_insert.
    + assumption.
    + intros j Hj. apply Hin. now right.
    + exists A', b'. split; [exact Hrun|]. split; [exact HA'|].
      split; [exact Hb'|]. split.
      * intros j pj rj Hj Hpj Hrj.
        apply elem_of_cons in Hj as [-> | Hj]; [|now apply Hrows].
        rewrite Hpi in Hpj. rewrite Hri in Hrj.
        injection Hpj as <-. injection Hrj as <-.
        destruct (Hkeep (i - 1)%nat) as [-> ->].
        { replace (S (i - 1)) with i by lia. assumption. }
        rewrite !list_lookup_insert_eq by lia. split; reflexivity.
      * intros j Hj. apply not_elem_of_cons in Hj as [Hne Hj].
        destruct (Hkeep j Hj) as [-> ->].
        rewrite !list_lookup_insert_ne by lia. split; reflexivity.
Qed.

End BuildSystem.

(** For an object built by [__init__] and a distance list of matching
    length, the system is built without an index error, has
    [num_anchors - 1] rows, and row [i-1] is the equation of anchor [i]
    against anchor 0. *)
Lemma build_system_spec (anchors : list point) (self : Trilateration.t)
    (distances : list R) :
  Trilateration.constructed anchors self ->
  length distances = Trilateration.num_anchors self ->
  exists A b,
    Trilateration.build_system self distances = Some (A, b) /\
    length A = (Trilateration.num_anchors self - 1)%nat /\
    length b = (Trilateration.num_anchors self - 1)%nat /\
    forall i p0 r0 pi ri,
      (1 <= i < Trilateration.num_anchors self)%nat ->
      anchors !! 0%nat = Some p0 -> distances !! 0%nat = Some r0 ->
      anchors !! i = Some pi -> distances !! i = Some ri ->
      A !! (i - 1)%nat = Some (Trilateration.row p0 pi) /\
      b !! (i - 1)%nat = Some (Trilateration.rhs p0 r0 pi ri).
Proof.
  unfold Trilateration.constructed, Trilateration.init.
  intros Hc Hlen.
  destruct (length anchors <? 4)%nat eqn:Hn; [discriminate|].
  apply Nat.ltb_ge in Hn. cbn in Hc. injection Hc as <-.
  cbn [Trilateration.num_anchors Trilateration.anchor_positions] in *.
  unfold Trilateration.build_system.
  cbn [Trilateration.num_anchors Trilateration.anchor_positions].
  destruct (lookup_lt_is_Some_2 anchors 0%nat) as [p0 Hp0]; [lia|].
  destruct (lookup_lt_is_Some_2 distances 0%nat) as [r0 Hr0]; [lia|].
  rewrite Hp0, Hr0. cbn.
  destruct (for_each_fill
              (Trilateration.mk anchors (length anchors)) distances p0 r0
              (length anchors - 1) (seq 1 (length anchors - 1))
              (replicate (length anchors - 1) (0, 0, 0))
              (replicate (length anchors - 1) 0))
    as (A & b & Hrun & HA & Hb & Hrows & _).
  - apply length_replicate.
  - apply length_replicate.
  - apply NoDup_seq.
  - intros i Hi. apply elem_of_seq in Hi. split; [lia|].
    split; apply lookup_lt_is_Some_2; cbn; lia.
  - exists A, b. split; [exact Hrun|]. split; [exact HA|]. split; [exact Hb|].
    intros i q0 s0 pi ri Hi Hq0 Hs0 Hpi Hri.
    injection Hq0 as <-. injection Hs0 as <-.
    apply Hrows; [|assumption|assumption].
    apply elem_of_seq. lia.
Qed.

(** ** Runs of the estimator *)

Lemma trace_bind {A B : Type} (m : Traced A) (f : A -> Traced B) :
  trace (m ≫= f) = trace m ++ trace (f (value m)).
Proof.
  destruct m as [t a]. unfold mbind, Traced_bind, trace, value. cbn.
  destruct (f a). reflexivity.
Qed.

Lemma value_bind {A B : Type} (m : Traced A) (f : A -> Traced B) :
  value (m ≫= f) = value (f (value m)).
Proof.
  destruct m as [t a]. unfold mbind, Traced_bind, trace, value. cbn.
  destruct (f a). reflexivity.
Qed.

Lemma solver_calls_app (t1 t2 : list Event) :
  solver_calls (t1 ++ t2) = solver_calls t1 ++ solver_calls t2.
Proof. unfold solver_calls. apply List.filter_app. Qed.

Section EstimatorFacts.

Import Trilateration.

Variable lstsq : list point -> list R -> option LstsqResult.
Variable minimize : (point -> R) -> point -> option OptimizeResult.
Variables (self : t) (distances : list R).

Lemma lls_mismatch :
  length distances <> num_anchors self ->
  linear_least_squares lstsq self distances =
    ([Log ERROR (MsgExpected (num_anchors self) (length distances))], None).
Proof.
  intros Hne. unfold linear_least_squares.
  apply Nat.eqb_neq in Hne. rewrite Hne. reflexivity.
Qed.

Lemma nonlinear_mismatch (initial_guess : option point) :
  length distances <> num_anchors self ->
  nonlinear_optimization minimize self distances initial_guess =
    ([Log ERROR (MsgExpected (num_anchors self) (length distances))], None).
Proof.
  intros Hne. unfold nonlinear_optimization.
  apply Nat.eqb_neq in Hne. rewrite Hne. reflexivity.
Qed.

Lemma lls_run (A : list point) (b : list R) :
  length distances = num_anchors self ->
  build_system self distances = Some (A, b) ->
  linear_least_squares lstsq self distances =
    match lstsq A b with
    | Some sol =>
        ([CallLstsq A b;
          Log DEBUG (MsgCalculated (lstsq_x sol) (lstsq_residuals sol))],
         Some (lstsq_x sol))
    | None => ([CallLstsq A b; Log ERROR MsgLlsFailed], None)
    end.
Proof.
  intros Hlen Hsys. unfold linear_least_squares.
  apply Nat.eqb_eq in Hlen. rewrite Hlen, Hsys. cbn.
  destruct (lstsq A b); reflexivity.
Qed.

Lemma nonlinear_run (initial_guess : option point) :
  length distances = num_anchors self ->
  nonlinear_optimization minimize self distances initial_guess =
    match minimize (objective self distances) (seed self initial_guess) with
    | Some result =>
        if res_success result
        then (seeding self initial_guess ++
                [CallMinimize (seed self initial_guess);
                 Log DEBUG (MsgOptSuccessful (res_x result) (res_fun result))],
              Some (res_x result))
        else (seeding self initial_guess ++
                [CallMinimize (seed self initial_guess);
                 Log WARNING (MsgOptFailed (res_message result))],
              None)
    | None =>
        (seeding self initial_guess ++
           [CallMinimize (seed self initial_guess); Log ERROR MsgNonlinearFailed],
         None)
    end.
Proof.
  intros Hlen. unfold nonlinear_optimization.
  apply Nat.eqb_eq in Hlen. rewrite Hlen. cbn [negb].
  destruct initial_guess as [g|]; cbn;
    (destruct (minimize _ _) as [result|]; [destruct (res_success result)|]);
    reflexivity.
Qed.

(** What a Stage B run returns, calls and marks. *)
Lemma nonlinear_value (initial_guess : option point) :
  length distances = num_anchors self ->
  value (nonlinear_optimization minimize self distances initial_guess) =
    match minimize (objective self distances) (seed self initial_guess) with
    | Some result =>
        if res_success result then Some (res_x result) else None
    | None => None
    end.
Proof.
  intros Hlen. rewrite nonlinear_run by assumption.
  destruct (minimize _ _) as [result|]; [destruct (res_success result)|];
    reflexivity.
Qed.

Lemma nonlinear_calls (initial_guess : option point) :
  length distances = num_anchors self ->
  solver_calls
    (trace (nonlinear_optimization minimize self distances initial_guess)) =
  seeding self initial_guess ++ [CallMinimize (seed self initial_guess)].
Proof.
  intros Hlen. rewrite nonlinear_run by assumption.
  destruct (minimize _ _) as [result|]; [destruct (res_success result)|];
    destruct initial_guess; reflexivity.
Qed.

Lemma nonlinear_value_converged (initial_guess : option point) :
  length distances = num_anchors self ->
  value (nonlinear_optimization minimize self distances initial_guess) = None
  <-> converged (minimize (objective self distances) (seed self initial_guess))
      = false.
Proof.
  intros Hlen. rewrite nonlinear_value by assumption. unfold converged.
  destruct (minimize _ _) as [result|]; [destruct (res_success result)|];
    split; intros; congruence.
Qed.

(** The combined policy in terms of its three possible stages. *)
Lemma multilateral_trace :
  trace (multilateral_algorithm lstsq minimize self distances) =
  trace (linear_least_squares lstsq self distances) ++
  match value (linear_least_squares lstsq self distances) with
  | Some guess =>
      trace (nonlinear_optimization minimize self distances (Some guess)) ++
      match value (nonlinear_optimization minimize self distances
                     (Some guess)) with
      | Some _ => []
      | None => trace (nonlinear_optimization minimize self distances None)
      end
  | None => trace (nonlinear_optimization minimize self distances None)
  end.
Proof.
  unfold multilateral_algorithm. rewrite trace_bind. f_equal.
  destruct (value (linear_least_squares lstsq self distances)); [|reflexivity].
  rewrite trace_bind. f_equal.
  destruct (value (nonlinear_optimization _ _ _ _)); reflexivity.
Qed.

Lemma multilateral_value :
  value (multilateral_algorithm lstsq minimize self distances) =
  match value (linear_least_squares lstsq self distances) with
  | Some guess =>
      match value (nonlinear_optimization minimize self distances
                     (Some guess)) with
      | Some p => Some p
      | None => value (nonlinear_optimization minimize self distances None)
      end
  | None => value (nonlinear_optimization minimize self distances None)
  end.
Proof.
  unfold multilateral_algorithm. rewrite value_bind.
  destruct (value (linear_least_squares lstsq self distances)); [|reflexivity].
  rewrite value_bind.
  destruct (value (nonlinear_optimization _ _ _ _)); reflexivity.
Qed.

End EstimatorFacts.

(** ** Construction *)

Lemma init_too_few (anchors : list point) :
  (length anchors < 4)%nat ->
  Trilateration.init anchors =
    ([], inl (ValueError
           "At least 4 anchor positions are required for 3D trilateration")).
Proof.
  intros Hn. unfold Trilateration.init.
  apply Nat.ltb_lt in Hn. rewrite Hn. reflexivity.
Qed.

Lemma init_enough (anchors : list point) :
  (4 <= length anchors)%nat ->
  Trilateration.init anchors =
    ([Log INFO (MsgInitialized (length anchors))],
     inr (Trilateration.mk anchors (length anchors))).
Proof.
  intros Hn. unfold Trilateration.init.
  apply Nat.ltb_ge in Hn. rewrite Hn. reflexivity.
Qed.

Lemma constructed_inv (anchors : list point) (self : Trilateration.t) :
  Trilateration.constructed anchors self ->
  (4 <= length anchors)%nat /\
  self = Trilateration.mk anchors (length anchors).
Proof.
  unfold Trilateration.constructed. intros Hc.
  destruct (Nat.lt_ge_cases (length anchors) 4) as [Hlt|Hge].
  - rewrite init_too_few in Hc by assumption. discriminate.
  - rewrite init_enough in Hc by assumption. cbn in Hc.
    injection Hc as <-. split; [assumption|reflexivity].
Qed.

(** C9: [__init__] raises its error (a [ValueError]; the code has no error
    class of its own) exactly when fewer than four anchor positions are
    given, and with exactly four positions it builds the object whatever
    the positions are: no geometric check is made. *)
Theorem init_fails_iff_fewer_than_four (anchors : list point) :
  ((exists msg, value (Trilateration.init anchors) = inl (ValueError msg))
   <-> (length anchors < 4)%nat) /\
  (length anchors = 4%nat ->
   Trilateration.constructed anchors (Trilateration.mk anchors 4)).
Proof.
  split; [split|].
  - intros [msg Hmsg].
    destruct (Nat.lt_ge_cases (length anchors) 4) as [Hlt|Hge];
      [assumption|].
    rewrite init_enough in Hmsg by assumption. discriminate.
  - intros Hlt. rewrite init_too_few by assumption. eexists. reflexivity.
  - intros Hlen. unfold Trilateration.constructed.
    rewrite init_enough by lia. now rewrite Hlen.
Qed.

Lemma init_fails_iff_fewer_than_four_witness :
  (length (take 3 Samples.anchors_room) < 4)%nat /\
  (exists msg,
     value (Trilateration.init (take 3 Samples.anchors_room))
       = inl (ValueError msg)) /\
  length Samples.anchors_coplanar = 4%nat /\
  Trilateration.constructed Samples.anchors_coplanar Samples.coplanar.
Proof.
  assert (H3 : (length (take 3 Samples.anchors_room) < 4)%nat) by (cbn; lia).
  split; [exact H3|]. split.
  - exact (proj2 (proj1 (init_fails_iff_fewer_than_four
                           (take 3 Samples.anchors_room))) H3).
  - split; [reflexivity|].
    exact (proj2 (init_fails_iff_fewer_than_four Samples.anchors_coplanar)
             eq_refl).
Defined.

(** ** Stage A *)

(** The system as lines 54 to 70 write it: for [n >= 4] anchors and [n]
    distances there are [n-1] equations; row [i-1] of the matrix is
    [(2(xi-x0), 2(yi-y0), 2(zi-z0))], entry [i-1] of the right-hand side is
    [(ri^2-r0^2) - (xi^2-x0^2) - (yi^2-y0^2) - (zi^2-z0^2)], and the system
    is handed to the least-squares routine once, whose solution is what
    Stage A returns. *)
Lemma lls_rows_as_written
    (lstsq : list point -> list R -> option LstsqResult)
    (anchors : list point) (self : Trilateration.t) (distances : list R) :
  Trilateration.constructed anchors self ->
  length distances = Trilateration.num_anchors self ->
  let n := Trilateration.num_anchors self in
  let stage_a := Trilateration.linear_least_squares lstsq self distances in
  (4 <= n)%nat /\
  exists A b,
    Trilateration.build_system self distances = Some (A, b) /\
    length A = (n - 1)%nat /\ length b = (n - 1)%nat /\
    (forall i x0 y0 z0 r0 xi yi zi ri,
       (1 <= i < n)%nat ->
       anchors !! 0%nat = Some (x0, y0, z0) ->
       distances !! 0%nat = Some r0 ->
       anchors !! i = Some (xi, yi, zi) ->
       distances !! i = Some ri ->
       A !! (i - 1)%nat = Some (2 * (xi - x0), 2 * (yi - y0), 2 * (zi - z0)) /\
       b !! (i - 1)%nat =
         Some ((ri ^ 2 - r0 ^ 2) - (xi ^ 2 - x0 ^ 2) - (yi ^ 2 - y0 ^ 2)
                 - (zi ^ 2 - z0 ^ 2))) /\
    solver_calls (trace stage_a) = [CallLstsq A b] /\
    value stage_a = option_map lstsq_x (lstsq A b).
Proof.
  intros Hc Hlen n stage_a.
  destruct (constructed_inv _ _ Hc) as [Hn Hself].
  split; [subst n self; exact Hn|].
  destruct (build_system_spec anchors self distances Hc Hlen)
    as (A & b & Hsys & HA & Hb & Hrows).
  exists A, b. split; [exact Hsys|]. split; [exact HA|]. split; [exact Hb|].
  split.
  - intros i x0 y0 z0 r0 xi yi zi ri Hi H0 Hr0 Hpi Hri.
    exact (Hrows i _ _ _ _ Hi H0 Hr0 Hpi Hri).
  - subst stage_a. rewrite (lls_run lstsq self distances A b Hlen Hsys).
    destruct (lstsq A b); split; reflexivity.
Qed.

(** *** The equations at noiseless distances *)

Lemma norm_sq (p : point) : norm p ^ 2 = dot p p.
Proof.
  destruct p as [[x y] z]. unfold norm, dot.
  rewrite pow2_sqrt; [ring|]. nra.
Qed.

(** With exact distances the right-hand side of line 70 is the scalar
    product of the row with the mirror image [-p] of the target. *)
Lemma rhs_exact (p0 pi p : point) :
  Trilateration.rhs p0 (norm (psub p0 p)) pi (norm (psub pi p)) =
  dot (Trilateration.row p0 pi) (popp p).
Proof.
  destruct p0 as [[x0 y0] z0], pi as [[xi yi] zi], p as [[x y] z].
  unfold Trilateration.rhs. rewrite !norm_sq.
  unfold Trilateration.row, psub, dot, popp. ring.
Qed.

(** Every equation Stage A builds from noiseless distances to a target
    [p] is satisfied by [-p]. *)
Lemma lls_equations_hold_at_mirror_image
    (anchors : list point) (self : Trilateration.t) (p : point)
    (A : list point) (b : list R) :
  Trilateration.constructed anchors self ->
  Trilateration.build_system self (exact_distances anchors p)
    = Some (A, b) ->
  solves A b (popp p).
Proof.
  intros Hc Hsys.
  destruct (constructed_inv _ _ Hc) as [Hn Hself].
  assert (Hlen : length (exact_distances anchors p) =
                 Trilateration.num_anchors self).
  { subst self. unfold exact_distances. cbn. now rewrite length_map. }
  destruct (build_system_spec anchors self _ Hc Hlen)
    as (A' & b' & Hsys' & HA & Hb & Hrows).
  rewrite Hsys in Hsys'. injection Hsys' as <- <-.
  apply Forall2_same_length_lookup_2; [congruence|].
  intros j rowj rhsj HAj Hbj.
  assert (Hj : (j < Trilateration.num_anchors self - 1)%nat).
  { rewrite <- HA. now apply lookup_lt_Some with rowj. }
  subst self. cbn [Trilateration.num_anchors] in *.
  destruct (lookup_lt_is_Some_2 anchors 0%nat) as [p0 Hp0]; [lia|].
  destruct (lookup_lt_is_Some_2 anchors (S j)) as [pi Hpi]; [lia|].
  destruct (Hrows (S j) p0 (norm (psub p0 p)) pi (norm (psub pi p)))
    as [Hrow Hrhs]; try assumption; [lia| | |].
  - unfold exact_distances. rewrite list_lookup_fmap_Some. eauto.
  - unfold exact_distances. rewrite list_lookup_fmap_Some. eauto.
  - replace (S j - 1)%nat with j in * by lia.
    rewrite HAj in Hrow. rewrite Hbj in Hrhs.
    injection Hrow as ->. injection Hrhs as ->. symmetry. apply rhs_exact.
Qed.

(** *** The two sample systems at noiseless distances *)

Lemma list_of_three {X : Type} (l : list X) (a b c : X) :
  length l = 3%nat ->
  l !! 0%nat = Some a -> l !! 1%nat = Some b -> l !! 2%nat = Some c ->
  l = [a; b; c].
Proof.
  destruct l as [|a' [|b' [|c' [|d l]]]]; try discriminate.
  cbn. intros _ Ha Hb Hc. congruence.
Qed.

(** Rows and right-hand sides of a four-anchor system at the noiseless
    distances to [p], spelled out. *)
Lemma four_anchor_system (p0 p1 p2 p3 p : point) :
  let anchors := [p0; p1; p2; p3] in
  Trilateration.build_system (Trilateration.mk anchors 4)
    (exact_distances anchors p) =
  Some ([Trilateration.row p0 p1; Trilateration.row p0 p2;
         Trilateration.row p0 p3],
        [dot (Trilateration.row p0 p1) (popp p);
         dot (Trilateration.row p0 p2) (popp p);
         dot (Trilateration.row p0 p3) (popp p)]).
Proof.
  intros anchors.
  assert (Hc : Trilateration.constructed anchors (Trilateration.mk anchors 4))
    by reflexivity.
  destruct (build_system_spec anchors _ (exact_distances anchors p)
              Hc eq_refl) as (A & b & Hsys & HA & Hb & Hrows).
  rewrite Hsys. cbn [Trilateration.num_anchors] in *.
  destruct (Hrows 1%nat p0 _ p1 _ ltac:(lia) eq_refl eq_refl eq_refl eq_refl)
    as [HA0 Hb0].
  destruct (Hrows 2%nat p0 _ p2 _ ltac:(lia) eq_refl eq_refl eq_refl eq_refl)
    as [HA1 Hb1].
  destruct (Hrows 3%nat p0 _ p3 _ ltac:(lia) eq_refl eq_refl eq_refl eq_refl)
    as [HA2 Hb2].
  rewrite rhs_exact in Hb0, Hb1, Hb2.
  rewrite (list_of_three A _ _ _ HA HA0 HA1 HA2).
  rewrite (list_of_three b _ _ _ Hb Hb0 Hb1 Hb2).
  reflexivity.
Qed.

Lemma coplanar_system :
  Trilateration.build_system Samples.coplanar
    Samples.coplanar_distances =
  Some ([(10, 0, 0); (10, 10, 0); (0, 10, 0)], [-25; -50; -25]).
Proof.
  unfold Samples.coplanar, Samples.coplanar_distances,
    Samples.anchors_coplanar.
  rewrite four_anchor_system.
  unfold Trilateration.row, dot, popp, Samples.true_pos.
  repeat f_equal; lra.
Qed.

Lemma room_system :
  Trilateration.build_system Samples.room
    Samples.room_distances =
  Some ([(10, 0, 0); (10, 10, 0); (0, 10, 5)], [-25; -50; -30]).
Proof.
  unfold Samples.room, Samples.room_distances, Samples.anchors_room.
  rewrite four_anchor_system.
  unfold Trilateration.row, dot, popp, Samples.true_pos.
  repeat f_equal; lra.
Qed.

(** The coplanar system has the exact solutions [(-2.5, -2.5, z)]; the one
    of least norm is [coplanar_lls], which numpy documents as the value of
    [lstsq] for a rank-deficient matrix. *)
Lemma coplanar_lls_is_minimum_norm_solution :
  let A := [(10, 0, 0); (10, 10, 0); (0, 10, 0)] in
  let b := [-25; -50; -25] in
  solves A b Samples.coplanar_lls /\
  forall p, solves A b p ->
    dot Samples.coplanar_lls Samples.coplanar_lls <= dot p p.
Proof.
  cbv zeta. split.
  - unfold solves, Samples.coplanar_lls.
    repeat constructor; unfold dot; lra.
  - intros [[x y] z] Hp. unfold solves in Hp.
    inversion Hp as [|? ? ? ? H1 Hp1]; subst.
    inversion Hp1 as [|? ? ? ? H2 Hp2]; subst.
    inversion Hp2 as [|? ? ? ? H3 _]; subst.
    unfold dot, Samples.coplanar_lls in *. nra.
Qed.

(** On the room sample at noiseless distances the system of Stage A has exactly
    one solution, the mirror image [(-2.5, -2.5, -1)] of the target. *)
Lemma room_system_solved_only_by_mirror_image :
  let A := [(10, 0, 0); (10, 10, 0); (0, 10, 5)] in
  let b := [-25; -50; -30] in
  forall p, solves A b p <-> p = Samples.room_lls.
Proof.
  cbv zeta. unfold Samples.room_lls. intros [[x y] z]. split.
  - intros Hp. unfold solves in Hp.
    inversion Hp as [|? ? ? ? H1 Hp1]; subst.
    inversion Hp1 as [|? ? ? ? H2 Hp2]; subst.
    inversion Hp2 as [|? ? ? ? H3 _]; subst.
    unfold dot in *. repeat f_equal; lra.
  - intros Hp. injection Hp as -> -> ->.
    unfold solves. repeat constructor; unfold dot; lra.
Qed.

(** *** The sign of the right-hand side *)

(** Subtracting the two squared-distance equations leaves the linear
    equation with the row of line 66 to 68 on the left and the negative of
    the right-hand side of line 70 opposite it. *)
Lemma difference_equation_linear (p0 : point) (r0 : R) (pi : point)
    (ri : R) (x : point) :
  difference_equation p0 r0 pi ri x <->
  dot (Trilateration.row p0 pi) x = - Trilateration.rhs p0 r0 pi ri.
Proof.
  destruct p0 as [[x0 y0] z0], pi as [[xi yi] zi], x as [[x1 x2] x3].
  unfold difference_equation, Trilateration.row, Trilateration.rhs, dot,
    psub.
  split; intros H; nra.
Qed.

Lemma range_equations_difference (p0 : point) (r0 : R) (pi : point)
    (ri : R) (x : point) :
  range_equation p0 r0 x -> range_equation pi ri x ->
  difference_equation p0 r0 pi ri x.
Proof.
  unfold range_equation, difference_equation. intros -> ->. reflexivity.
Qed.

Lemma room_ranges :
  Forall2 (fun anchor r => range_equation anchor r Samples.true_pos)
    Samples.anchors_room Samples.room_distances.
Proof.
  unfold Samples.room_distances, exact_distances, Samples.anchors_room.
  cbn [map]. repeat constructor; unfold range_equation;
    rewrite norm_sq; unfold dot, psub, Samples.true_pos; ring.
Qed.

(** C6, a defect of line 70. The equations Stage A builds are not the
    ones subtracting the squared-distance equation of anchor 0 from that
    of anchor [i] gives: that difference is [A x = - b], the right-hand
    side of line 70 has the opposite sign. On the room sample with the
    exact distances to the target [(2.5, 2.5, 1)] the code builds
    [b = (-25, -50, -30)] where the subtraction gives [(25, 50, 30)]; the
    target satisfies every squared-distance equation and the subtracted
    system, but not the system of the code, and a least-squares routine
    that solves that system makes Stage A return [(-2.5, -2.5, -1)]
    instead of the coordinates of the target. *)
Theorem stage_a_right_hand_side_has_opposite_sign
    (lstsq : list point -> list R -> option LstsqResult)
    (sol : LstsqResult) :
  let A := [(10, 0, 0); (10, 10, 0); (0, 10, 5)] in
  let b := [-25; -50; -30] in
  let stage_a :=
    Trilateration.linear_least_squares lstsq Samples.room
      Samples.room_distances in
  lstsq A b = Some sol ->
  solves A b (lstsq_x sol) ->
  (forall p0 r0 pi ri x,
     difference_equation p0 r0 pi ri x <->
     dot (Trilateration.row p0 pi) x = - Trilateration.rhs p0 r0 pi ri) /\
  Forall2 (fun anchor r => range_equation anchor r Samples.true_pos)
    Samples.anchors_room Samples.room_distances /\
  Trilateration.build_system Samples.room Samples.room_distances
    = Some (A, b) /\
  solves A [25; 50; 30] Samples.true_pos /\
  ~ solves A b Samples.true_pos /\
  solver_calls (trace stage_a) = [CallLstsq A b] /\
  value stage_a = Some (-2.5, -2.5, -1).
Proof.
  intros A b stage_a Hsol Hexact.
  split; [exact difference_equation_linear|].
  split; [exact room_ranges|].
  split; [exact room_system|].
  split; [|split].
  - unfold solves, Samples.true_pos. subst A.
    repeat constructor; unfold dot; lra.
  - intros Htarget.
    apply room_system_solved_only_by_mirror_image in Htarget.
    unfold Samples.true_pos, Samples.room_lls in Htarget.
    injection Htarget as H1 _ _. lra.
  - apply room_system_solved_only_by_mirror_image in Hexact.
    subst stage_a.
    assert (Hlen : length Samples.room_distances =
                   Trilateration.num_anchors Samples.room) by reflexivity.
    rewrite (lls_run lstsq _ _ _ _ Hlen room_system).
    fold A b. rewrite Hsol, Hexact. split; reflexivity.
Qed.

Lemma stage_a_right_hand_side_has_opposite_sign_witness :
  Trilateration.build_system Samples.room Samples.room_distances
    = Some ([(10, 0, 0); (10, 10, 0); (0, 10, 5)], [-25; -50; -30]) /\
  ~ solves [(10, 0, 0); (10, 10, 0); (0, 10, 5)] [-25; -50; -30]
      Samples.true_pos /\
  value (Trilateration.linear_least_squares
           (Samples.lstsq_returns (-2.5, -2.5, -1) 3) Samples.room
           Samples.room_distances) = Some (-2.5, -2.5, -1).
Proof.
  assert (Hexact : solves [(10, 0, 0); (10, 10, 0); (0, 10, 5)]
                     [-25; -50; -30] (-2.5, -2.5, -1))
    by (unfold solves; repeat constructor; unfold dot; lra).
  destruct (stage_a_right_hand_side_has_opposite_sign
              (Samples.lstsq_returns (-2.5, -2.5, -1) 3)
              (mkLstsq (-2.5, -2.5, -1) [] 3 []) eq_refl Hexact)
    as (_ & _ & Hsys & _ & Hnot & _ & Hvalue).
  split; [exact Hsys|]. split; [exact Hnot|]. exact Hvalue.
Defined.

(** *** The objective at the target *)

Lemma norm_psub_sym (p q : point) : norm (psub p q) = norm (psub q p).
Proof.
  destruct p as [[px py] pz], q as [[qx qy] qz]. unfold norm, psub.
  f_equal. ring.
Qed.

Lemma fold_left_zero_terms (g : nat -> R) (indices : list nat) (acc : R) :
  (forall i, i ∈ indices -> g i = 0) ->
  fold_left (fun error_sum i => error_sum + g i) indices acc = acc.
Proof.
  revert acc. induction indices as [|i rest IH]; intros acc Hzero;
    [reflexivity|].
  cbn [fold_left]. rewrite IH.
  - rewrite (Hzero i) by left. ring.
  - intros j Hj. apply Hzero. now right.
Qed.

(** At noiseless distances the objective of Stage B vanishes at the
    target. *)
Lemma objective_zero_at_target (anchors : list point)
    (self : Trilateration.t) (p : point) :
  Trilateration.constructed anchors self ->
  Trilateration.objective self (exact_distances anchors p) p = 0.
Proof.
  intros Hc. destruct (constructed_inv _ _ Hc) as [_ ->].
  unfold Trilateration.objective.
  cbn [Trilateration.num_anchors Trilateration.anchor_positions].
  apply (fold_left_zero_terms
           (fun i => (norm (psub p (nth i anchors (0, 0, 0)))
                      - nth i (exact_distances anchors p) 0) ^ 2)).
  intros i Hi. apply elem_of_seq in Hi.
  unfold exact_distances.
  rewrite (nth_indep _ 0 (norm (psub (0, 0, 0) p)))
    by (rewrite length_map; lia).
  rewrite (map_nth (fun anchor => norm (psub anchor p))).
  rewrite (norm_psub_sym p). ring.
Qed.

(** ** The combined policy *)

(** Membership of an event in a trace given by its elements. *)
Ltac in_trace :=
  repeat first [ rewrite elem_of_app | rewrite elem_of_cons
               | rewrite elem_of_nil ];
  intuition (try discriminate; try congruence).

Section PolicyFacts.

Import Trilateration.

Variable lstsq : list point -> list R -> option LstsqResult.
Variable minimize : (point -> R) -> point -> option OptimizeResult.
Variables (self : t) (distances : list R).
Hypothesis Hlen : length distances = num_anchors self.

Lemma seed_centroid_in_nonlinear (initial_guess : option point) :
  SeedCentroid (centroid (anchor_positions self)) ∈
    trace (nonlinear_optimization minimize self distances initial_guess)
  <-> initial_guess = None.
Proof.
  rewrite nonlinear_run by assumption.
  destruct (minimize _ _) as [result|]; [destruct (res_success result)|];
    destruct initial_guess; cbn; in_trace.
Qed.

Lemma seed_centroid_not_in_lls :
  SeedCentroid (centroid (anchor_positions self)) ∉
    trace (linear_least_squares lstsq self distances).
Proof.
  unfold linear_least_squares.
  apply Nat.eqb_eq in Hlen. rewrite Hlen. cbn [negb].
  destruct (build_system self distances) as [[A b]|]; cbn;
    [destruct (lstsq A b); cbn|]; in_trace.
Qed.

(** What the combined policy calls and returns, by the outcome of the
    least-squares routine and of the optimizer run seeded with it. *)
Lemma multilateral_policy (A : list point) (b : list R) :
  build_system self distances = Some (A, b) ->
  let run := multilateral_algorithm lstsq minimize self distances in
  let f := objective self distances in
  let c := centroid (anchor_positions self) in
  solver_calls (trace run) !! 0%nat = Some (CallLstsq A b) /\
  (forall sol, lstsq A b = Some sol ->
     solver_calls (trace run) !! 1%nat = Some (CallMinimize (lstsq_x sol)) /\
     (forall result,
        minimize f (lstsq_x sol) = Some result ->
        res_success result = true ->
        value run = Some (res_x result))) /\
  (SeedCentroid c ∈ trace run <->
     lstsq A b = None \/
     exists sol, lstsq A b = Some sol /\
                 converged (minimize f (lstsq_x sol)) = false).
Proof.
  intros Hsys run f c. subst run f c.
  rewrite multilateral_trace, multilateral_value.
  rewrite (lls_run lstsq self distances A b Hlen Hsys).
  destruct (lstsq A b) as [sol|] eqn:Hsol.
  - cbn [value trace fst snd].
    pose proof (nonlinear_value_converged minimize self distances
                  (Some (lstsq_x sol)) Hlen) as Hconv.
    pose proof (nonlinear_calls minimize self distances
                  (Some (lstsq_x sol)) Hlen) as Hcalls.
    pose proof (nonlinear_value minimize self distances
                  (Some (lstsq_x sol)) Hlen) as Hval.
    cbn [seed seeding] in Hconv, Hcalls, Hval.
    split; [reflexivity|]. split.
    + intros sol' Hsol'. injection Hsol' as <-. split.
      * rewrite !solver_calls_app, Hcalls. reflexivity.
      * intros result Hres Hok. rewrite Hval, Hres, Hok. reflexivity.
    + destruct (value (nonlinear_optimization minimize self distances
                         (Some (lstsq_x sol)))) as [p|] eqn:Hopt.
      * assert (Hc : converged (minimize (objective self distances)
                                  (lstsq_x sol)) <> false).
        { intros Hf. apply Hconv in Hf. discriminate. }
        rewrite app_nil_r. rewrite !elem_of_app.
        rewrite (seed_centroid_in_nonlinear (Some (lstsq_x sol))).
        split.
        -- intros [Hin | Hin]; [|discriminate].
           revert Hin. in_trace.
        -- intros [Hnone | (sol' & Hsol' & Hf)]; [discriminate|].
           injection Hsol' as <-. contradiction.
      * rewrite !elem_of_app.
        rewrite (seed_centroid_in_nonlinear None). split.
        -- intros _. right. exists sol. split; [reflexivity|].
           now apply Hconv.
        -- intros _. right. right. reflexivity.
  - cbn [value trace fst snd]. split; [reflexivity|]. split.
    + intros sol Hsol'. discriminate.
    + rewrite elem_of_app. rewrite (seed_centroid_in_nonlinear None).
      split; intros _; [left|right]; reflexivity.
Qed.

End PolicyFacts.

(** *** Runs on the samples *)

Lemma room_constructed :
  Trilateration.constructed Samples.anchors_room Samples.room.
Proof. reflexivity. Qed.

Lemma room_distances_length :
  length Samples.room_distances = Trilateration.num_anchors Samples.room.
Proof. reflexivity. Qed.

Lemma coplanar_distances_length :
  length Samples.coplanar_distances =
  Trilateration.num_anchors Samples.coplanar.
Proof. reflexivity. Qed.

(** An optimizer that stops without success makes every Stage B run on
    the room sample return [None]. *)
Lemma room_stalled_runs (initial_guess : option point) :
  value (Trilateration.nonlinear_optimization Samples.minimize_stalls
           Samples.room Samples.room_distances initial_guess) = None.
Proof. now apply nonlinear_value_converged. Qed.

(** Stage A on the room sample with the exact solution of its system. *)
Lemma room_stage_a :
  Trilateration.linear_least_squares
    (Samples.lstsq_returns Samples.room_lls 3) Samples.room
    Samples.room_distances =
  ([CallLstsq [(10, 0, 0); (10, 10, 0); (0, 10, 5)] [-25; -50; -30];
    Log DEBUG (MsgCalculated Samples.room_lls [])],
   Some Samples.room_lls).
Proof.
  now rewrite (lls_run _ _ _ _ _ room_distances_length room_system).
Qed.

(** C3, as the code has it: for a distance list of the right length the
    combined policy calls the least-squares routine first; when that
    returns a solution, the optimizer is called next with this solution as
    its seed, and if this run reports success its point is returned; the
    centroid seed is used exactly when the least-squares routine raised or
    the run seeded from its solution did not report success. *)
Theorem multilateral_seeding_policy
    (lstsq : list point -> list R -> option LstsqResult)
    (minimize : (point -> R) -> point -> option OptimizeResult)
    (anchors : list point) (self : Trilateration.t) (distances : list R) :
  Trilateration.constructed anchors self ->
  length distances = Trilateration.num_anchors self ->
  let run :=
    Trilateration.multilateral_algorithm lstsq minimize self distances in
  let f := Trilateration.objective self distances in
  let c := centroid (Trilateration.anchor_positions self) in
  exists A b,
    Trilateration.build_system self distances = Some (A, b) /\
    solver_calls (trace run) !! 0%nat = Some (CallLstsq A b) /\
    (forall sol, lstsq A b = Some sol ->
       solver_calls (trace run) !! 1%nat = Some (CallMinimize (lstsq_x sol)) /\
       (forall result,
          minimize f (lstsq_x sol) = Some result ->
          res_success result = true ->
          value run = Some (res_x result))) /\
    (SeedCentroid c ∈ trace run <->
       lstsq A b = None \/
       exists sol, lstsq A b = Some sol /\
                   converged (minimize f (lstsq_x sol)) = false).
Proof.
  intros Hc Hlen run f c.
  destruct (build_system_spec anchors self distances Hc Hlen)
    as (A & b & Hsys & _).
  exists A, b. split; [exact Hsys|].
  exact (multilateral_policy lstsq minimize self distances Hlen A b Hsys).
Qed.

Lemma multilateral_seeding_policy_witness :
  Trilateration.constructed Samples.anchors_room Samples.room /\
  length Samples.room_distances = Trilateration.num_anchors Samples.room /\
  (exists A b,
     Trilateration.build_system Samples.room Samples.room_distances
       = Some (A, b) /\
     solver_calls
       (trace (Trilateration.multilateral_algorithm
                 (Samples.lstsq_returns Samples.room_lls 3)
                 (Samples.minimize_finds Samples.true_pos)
                 Samples.room Samples.room_distances)) !! 1%nat
       = Some (CallMinimize Samples.room_lls) /\
     value (Trilateration.multilateral_algorithm
              (Samples.lstsq_returns Samples.room_lls 3)
              (Samples.minimize_finds Samples.true_pos)
              Samples.room Samples.room_distances)
       = Some Samples.true_pos) /\
  SeedCentroid (centroid Samples.anchors_room) ∈
    trace (Trilateration.multilateral_algorithm Samples.lstsq_raises
             (Samples.minimize_finds Samples.true_pos)
             Samples.room Samples.room_distances).
Proof.
  split; [exact room_constructed|]. split; [exact room_distances_length|].
  split.
  - destruct (multilateral_seeding_policy
                (Samples.lstsq_returns Samples.room_lls 3)
                (Samples.minimize_finds Samples.true_pos)
                Samples.anchors_room Samples.room Samples.room_distances
                room_constructed room_distances_length)
      as (A & b & Hsys & _ & Hseeded & _).
    exists A, b. split; [exact Hsys|].
    destruct (Hseeded (mkLstsq Samples.room_lls [] 3 []) eq_refl)
      as [Hcall Hret].
    split; [exact Hcall|]. exact (Hret _ eq_refl eq_refl).
  - destruct (multilateral_seeding_policy
                Samples.lstsq_raises
                (Samples.minimize_finds Samples.true_pos)
                Samples.anchors_room Samples.room Samples.room_distances
                room_constructed room_distances_length)
      as (A & b & _ & _ & _ & Hcentroid).
    apply Hcentroid. left. reflexivity.
Defined.

(** C3 as stated fails: on the room sample the least-squares routine
    delivers the solution of its system, so Stage A has not failed; the
    optimizer seeded with it stops without success, and the policy runs
    the optimizer again from the centroid. *)
Lemma centroid_seed_used_after_stage_a_success :
  let lstsq := Samples.lstsq_returns Samples.room_lls 3 in
  let c := centroid Samples.anchors_room in
  let run :=
    Trilateration.multilateral_algorithm lstsq Samples.minimize_stalls
      Samples.room Samples.room_distances in
  length Samples.room_distances = Trilateration.num_anchors Samples.room /\
  value (Trilateration.linear_least_squares lstsq Samples.room
           Samples.room_distances) = Some Samples.room_lls /\
  SeedCentroid c ∈ trace run /\
  solver_calls (trace run) =
    [CallLstsq [(10, 0, 0); (10, 10, 0); (0, 10, 5)] [-25; -50; -30];
     CallMinimize Samples.room_lls; SeedCentroid c; CallMinimize c].
Proof.
  intros lstsq c run.
  assert (Htrace : solver_calls (trace run) =
            [CallLstsq [(10, 0, 0); (10, 10, 0); (0, 10, 5)] [-25; -50; -30];
             CallMinimize Samples.room_lls; SeedCentroid c; CallMinimize c]).
  { subst run lstsq. rewrite multilateral_trace, room_stage_a.
    cbn [value trace fst snd].
    rewrite !(nonlinear_run Samples.minimize_stalls _ _ _
                room_distances_length).
    reflexivity. }
  split; [exact room_distances_length|]. split; [|split].
  - subst lstsq. now rewrite room_stage_a.
  - apply (multilateral_policy lstsq Samples.minimize_stalls _ _
             room_distances_length _ _ room_system).
    right. eexists. split; reflexivity.
  - exact Htrace.
Qed.

(** The dispatch of [estimate_position] on the three method names. *)
Lemma estimate_position_lls lstsq minimize self distances :
  Trilateration.estimate_position lstsq minimize self distances "lls" =
  Trilateration.linear_least_squares lstsq self distances.
Proof. reflexivity. Qed.

Lemma estimate_position_nonlinear lstsq minimize self distances :
  Trilateration.estimate_position lstsq minimize self distances "nonlinear" =
  Trilateration.nonlinear_optimization minimize self distances None.
Proof. reflexivity. Qed.

Lemma estimate_position_multi lstsq minimize self distances :
  Trilateration.estimate_position lstsq minimize self distances "multi" =
  Trilateration.multilateral_algorithm lstsq minimize self distances.
Proof. reflexivity. Qed.

(** ** Stage B without convergence *)

Section RunFacts.

Import Trilateration.

Variable lstsq : list point -> list R -> option LstsqResult.
Variable minimize : (point -> R) -> point -> option OptimizeResult.
Variables (self : t) (distances : list R).

(** A point Stage A returns is the solution of the system it built. *)
Lemma lls_value_inv (p : point) :
  value (linear_least_squares lstsq self distances) = Some p ->
  length distances = num_anchors self /\
  exists A b sol,
    build_system self distances = Some (A, b) /\
    lstsq A b = Some sol /\ p = lstsq_x sol.
Proof.
  unfold linear_least_squares.
  destruct (length distances =? num_anchors self)%nat eqn:Hlen;
    [|discriminate].
  apply Nat.eqb_eq in Hlen. cbn [negb].
  destruct (build_system self distances) as [[A b]|]; [|discriminate].
  destruct (lstsq A b) as [sol|] eqn:Hsol; [|discriminate].
  cbn. intros [= <-]. split; [exact Hlen|]. now exists A, b, sol.
Qed.

(** Stage A never runs the optimizer. *)
Lemma lls_trace_no_minimize (x0 : point) :
  CallMinimize x0 ∉ trace (linear_least_squares lstsq self distances).
Proof.
  unfold linear_least_squares.
  destruct (negb (length distances =? num_anchors self)%nat); cbn;
    [in_trace|].
  destruct (build_system self distances) as [[A b]|]; cbn;
    [destruct (lstsq A b); cbn|]; in_trace.
Qed.

(** A Stage B run starts the optimizer once, from its seed. *)
Lemma nonlinear_trace_minimize (initial_guess : option point) (x0 : point) :
  length distances = num_anchors self ->
  CallMinimize x0 ∈
    trace (nonlinear_optimization minimize self distances initial_guess)
  <-> x0 = seed self initial_guess.
Proof.
  intros Hlen. rewrite nonlinear_run by assumption.
  destruct (minimize _ _) as [result|]; [destruct (res_success result)|];
    destruct initial_guess; cbn; in_trace.
Qed.

(** The optimizer runs of the combined policy: from the Stage A solution
    when there is one, and from the centroid when Stage A failed or the
    seeded run did not report success. *)
Lemma multilateral_trace_minimize (x0 : point) :
  length distances = num_anchors self ->
  CallMinimize x0 ∈
    trace (multilateral_algorithm lstsq minimize self distances)
  <->
  match value (linear_least_squares lstsq self distances) with
  | Some guess =>
      x0 = guess \/
      (converged (minimize (objective self distances) guess) = false /\
       x0 = centroid (anchor_positions self))
  | None => x0 = centroid (anchor_positions self)
  end.
Proof.
  intros Hlen. rewrite multilateral_trace.
  pose proof (lls_trace_no_minimize x0) as Hlls.
  pose proof (nonlinear_trace_minimize None x0 Hlen) as Hcentroid.
  cbn [seed] in Hcentroid.
  destruct (value (linear_least_squares lstsq self distances)) as [guess|].
  - pose proof (nonlinear_trace_minimize (Some guess) x0 Hlen) as Hseeded.
    pose proof (nonlinear_value_converged minimize self distances
                  (Some guess) Hlen) as Hconv.
    cbn [seed] in Hseeded, Hconv.
    destruct (value (nonlinear_optimization minimize self distances
                       (Some guess))) as [p|].
    + rewrite !elem_of_app, elem_of_nil, Hseeded.
      split; [tauto|]. intros [Hx|[Hfail _]]; [tauto|].
      apply Hconv in Hfail. discriminate.
    + rewrite !elem_of_app, Hseeded, Hcentroid.
      pose proof (proj1 Hconv eq_refl). tauto.
  - rewrite elem_of_app, Hcentroid. tauto.
Qed.

End RunFacts.

(** C2, as the code has it. A Stage B run whose optimizer returns without
    reporting success logs a warning, drops the iterate and returns
    [None]. In the combined policy, when the run seeded with the Stage A
    solution does not report success, the optimizer is started once more,
    from the centroid, and what that run gives is the result. The
    nonlinear method and the combined policy return [None] exactly when
    none of the optimizer runs they made reported success. *)
Theorem nonconvergence_returns_none
    (lstsq : list point -> list R -> option LstsqResult)
    (minimize : (point -> R) -> point -> option OptimizeResult)
    (self : Trilateration.t) (distances : list R) :
  length distances = Trilateration.num_anchors self ->
  let f := Trilateration.objective self distances in
  let c := centroid (Trilateration.anchor_positions self) in
  let estimate :=
    Trilateration.estimate_position lstsq minimize self distances in
  (forall initial_guess result,
     minimize f (Trilateration.seed self initial_guess) = Some result ->
     res_success result = false ->
     Trilateration.nonlinear_optimization minimize self distances
       initial_guess =
     (Trilateration.seeding self initial_guess ++
        [CallMinimize (Trilateration.seed self initial_guess);
         Log WARNING (MsgOptFailed (res_message result))],
      None)) /\
  (forall guess,
     value (Trilateration.linear_least_squares lstsq self distances)
       = Some guess ->
     converged (minimize f guess) = false ->
     (exists A b,
        Trilateration.build_system self distances = Some (A, b) /\
        solver_calls (trace (estimate "multi"%string)) =
          [CallLstsq A b; CallMinimize guess; SeedCentroid c;
           CallMinimize c]) /\
     value (estimate "multi"%string) =
       value (Trilateration.nonlinear_optimization minimize self distances
                None)) /\
  (forall method,
     method = "nonlinear"%string \/ method = "multi"%string ->
     value (estimate method) = None <->
     forall x0,
       CallMinimize x0 ∈ trace (estimate method) ->
       converged (minimize f x0) = false).
Proof.
  intros Hlen f c estimate. subst estimate. split; [|split].
  - intros g result Hres Hfail.
    rewrite nonlinear_run by assumption. fold f. now rewrite Hres, Hfail.
  - intros guess Hguess Hfail.
    pose proof (proj2 (nonlinear_value_converged minimize self distances
                         (Some guess) Hlen) Hfail) as Hseeded.
    rewrite estimate_position_multi, multilateral_trace, multilateral_value.
    rewrite Hguess, Hseeded. split; [|reflexivity].
    destruct (lls_value_inv lstsq self distances guess Hguess)
      as (_ & A & b & sol & Hsys & Hsol & ->).
    exists A, b. split; [exact Hsys|].
    rewrite !solver_calls_app, !nonlinear_calls by assumption.
    rewrite (lls_run lstsq self distances A b Hlen Hsys), Hsol.
    reflexivity.
  - intros method [-> | ->].
    + rewrite estimate_position_nonlinear.
      rewrite (nonlinear_value_converged minimize self distances None Hlen).
      cbn [Trilateration.seed]. fold c f. split.
      * intros Hfail x0 Hx0.
        apply (nonlinear_trace_minimize minimize self distances None x0
                 Hlen) in Hx0. now subst x0.
      * intros Hall. apply Hall.
        now apply (nonlinear_trace_minimize minimize self distances None c
                     Hlen).
    + rewrite estimate_position_multi, multilateral_value.
      assert (Hruns := fun x0 =>
                multilateral_trace_minimize lstsq minimize self distances
                  x0 Hlen).
      pose proof (nonlinear_value_converged minimize self distances None
                    Hlen) as Hcentroid.
      cbn [Trilateration.seed] in Hcentroid. fold c f in Hcentroid, Hruns.
      destruct (value (Trilateration.linear_least_squares lstsq self
                         distances)) as [guess|].
      * pose proof (nonlinear_value_converged minimize self distances
                      (Some guess) Hlen) as Hseeded.
        cbn [Trilateration.seed] in Hseeded. fold f in Hseeded.
        destruct (value (Trilateration.nonlinear_optimization minimize self
                           distances (Some guess))) as [p|].
        -- split; [discriminate|]. intros Hall.
           assert (Hfail : converged (minimize f guess) = false)
             by (apply Hall, Hruns; now left).
           apply Hseeded in Hfail. discriminate.
        -- pose proof (proj1 Hseeded eq_refl) as Hfail.
           rewrite Hcentroid. split.
           ++ intros Hc x0 Hx0. apply Hruns in Hx0.
              destruct Hx0 as [-> | [_ ->]]; assumption.
           ++ intros Hall. apply Hall, Hruns. right. now split.
      * rewrite Hcentroid. split.
        -- intros Hc x0 Hx0. apply Hruns in Hx0. now subst x0.
        -- intros Hall. now apply Hall, Hruns.
Qed.

Lemma nonconvergence_returns_none_witness :
  let c := centroid Samples.anchors_room in
  let estimate :=
    Trilateration.estimate_position
      (Samples.lstsq_returns Samples.room_lls 3) Samples.minimize_stalls
      Samples.room Samples.room_distances in
  length Samples.room_distances = Trilateration.num_anchors Samples.room /\
  solver_calls (trace (estimate "multi"%string)) =
    [CallLstsq [(10, 0, 0); (10, 10, 0); (0, 10, 5)] [-25; -50; -30];
     CallMinimize Samples.room_lls; SeedCentroid c; CallMinimize c] /\
  value (estimate "multi"%string) = None.
Proof.
  intros c estimate.
  pose proof (nonconvergence_returns_none
                (Samples.lstsq_returns Samples.room_lls 3)
                Samples.minimize_stalls Samples.room Samples.room_distances
                room_distances_length) as (_ & Hretry & Hnone).
  split; [exact room_distances_length|]. split.
  - destruct (Hretry Samples.room_lls) as [(A & b & Hsys & Hcalls) _].
    + now rewrite room_stage_a.
    + reflexivity.
    + rewrite room_system in Hsys. injection Hsys as <- <-. exact Hcalls.
  - apply (Hnone "multi"%string); [now right|]. reflexivity.
Defined.

(** C2 as stated fails: on the room sample the optimizer runs from the
    centroid, stops there without meeting its tolerance and hands back that
    iterate; the caller of the nonlinear method and of the combined policy
    gets [None]. *)
Lemma best_iterate_dropped_on_nonconvergence :
  let f := Trilateration.objective Samples.room Samples.room_distances in
  let c := centroid Samples.anchors_room in
  let estimate :=
    Trilateration.estimate_position
      (Samples.lstsq_returns Samples.room_lls 3) Samples.minimize_stalls
      Samples.room Samples.room_distances in
  length Samples.room_distances = Trilateration.num_anchors Samples.room /\
  (exists result,
     Samples.minimize_stalls f c = Some result /\
     res_success result = false /\ res_x result = c) /\
  estimate "nonlinear"%string =
    ([SeedCentroid c; CallMinimize c;
      Log WARNING (MsgOptFailed "ABNORMAL_TERMINATION_IN_LNSRCH")], None) /\
  value (estimate "multi"%string) = None.
Proof.
  intros f c estimate.
  split; [exact room_distances_length|]. split.
  { eexists. split; [reflexivity|]. split; reflexivity. }
  split.
  - subst estimate. rewrite estimate_position_nonlinear.
    now rewrite (nonlinear_run _ _ _ _ room_distances_length).
  - subst estimate. rewrite estimate_position_multi, multilateral_value.
    rewrite room_stage_a. cbn [value snd].
    now rewrite !room_stalled_runs.
Qed.

(** ** Distance count mismatch *)

(** C4, as the code has it: when the number of distances differs from the
    number of anchors, every method returns [None], the value also returned
    for every other failure, after logging the expected and the actual
    count; neither the least-squares routine nor the optimizer is called.
    The combined policy makes the check, and logs it, twice. *)
Theorem count_mismatch_returns_none
    (lstsq : list point -> list R -> option LstsqResult)
    (minimize : (point -> R) -> point -> option OptimizeResult)
    (self : Trilateration.t) (distances : list R) (method : string) :
  length distances <> Trilateration.num_anchors self ->
  let run :=
    Trilateration.estimate_position lstsq minimize self distances method in
  let complaint :=
    Log ERROR (MsgExpected (Trilateration.num_anchors self)
                 (length distances)) in
  value run = None /\
  solver_calls (trace run) = [] /\
  (method = "lls"%string \/ method = "nonlinear"%string ->
   trace run = [complaint]) /\
  (method = "multi"%string -> trace run = [complaint; complaint]).
Proof.
  intros Hne run complaint. subst run complaint.
  unfold Trilateration.estimate_position.
  destruct (String.eqb_spec method "lls") as [->|Hlls].
  { rewrite lls_mismatch by assumption.
    repeat split; try reflexivity. intros; discriminate. }
  destruct (String.eqb_spec method "nonlinear") as [->|Hnl].
  { rewrite nonlinear_mismatch by assumption.
    repeat split; try reflexivity. intros; discriminate. }
  destruct (String.eqb_spec method "multi") as [->|Hmulti].
  { unfold Trilateration.multilateral_algorithm.
    rewrite lls_mismatch by assumption. cbn.
    rewrite nonlinear_mismatch by assumption.
    repeat split; try reflexivity. intros [?|?]; discriminate. }
  cbn. repeat split; try reflexivity.
  - intros [?|?]; contradiction.
  - intros; contradiction.
Qed.

Lemma count_mismatch_returns_none_witness :
  length (take 3 Samples.room_distances) <>
    Trilateration.num_anchors Samples.room /\
  value (Trilateration.estimate_position
           (Samples.lstsq_returns Samples.room_lls 3)
           (Samples.minimize_finds Samples.true_pos)
           Samples.room (take 3 Samples.room_distances) "multi") = None /\
  trace (Trilateration.estimate_position
           (Samples.lstsq_returns Samples.room_lls 3)
           (Samples.minimize_finds Samples.true_pos)
           Samples.room (take 3 Samples.room_distances) "multi") =
    [Log ERROR (MsgExpected 4 3); Log ERROR (MsgExpected 4 3)] /\
  trace (Trilateration.estimate_position
           (Samples.lstsq_returns Samples.room_lls 3)
           (Samples.minimize_finds Samples.true_pos)
           Samples.room (take 3 Samples.room_distances) "lls") =
    [Log ERROR (MsgExpected 4 3)].
Proof.
  assert (Hne : length (take 3 Samples.room_distances) <>
                Trilateration.num_anchors Samples.room) by (cbn; lia).
  split; [exact Hne|].
  destruct (count_mismatch_returns_none
              (Samples.lstsq_returns Samples.room_lls 3)
              (Samples.minimize_finds Samples.true_pos)
              Samples.room (take 3 Samples.room_distances) "multi" Hne)
    as (Hval & _ & _ & Hmulti).
  destruct (count_mismatch_returns_none
              (Samples.lstsq_returns Samples.room_lls 3)
              (Samples.minimize_finds Samples.true_pos)
              Samples.room (take 3 Samples.room_distances) "lls" Hne)
    as (_ & _ & Hlls & _).
  split; [exact Hval|]. split; [exact (Hmulti eq_refl)|].
  exact (Hlls (or_introl eq_refl)).
Defined.

(** C4 as stated fails: the caller of the combined policy gets the same
    [None] for three distances against four anchors as for four distances
    on which the optimizer does not converge, and as for an unknown method
    name; the mismatch is not a distinct error. *)
Lemma count_mismatch_not_distinct :
  let estimate :=
    Trilateration.estimate_position
      (Samples.lstsq_returns Samples.room_lls 3) Samples.minimize_stalls
      Samples.room in
  let three := take 3 Samples.room_distances in
  length three <> Trilateration.num_anchors Samples.room /\
  length Samples.room_distances = Trilateration.num_anchors Samples.room /\
  value (estimate three "multi"%string) = None /\
  value (estimate Samples.room_distances "multi"%string) = None /\
  value (estimate Samples.room_distances "trilateration"%string) = None /\
  value (estimate three "multi"%string) =
    value (estimate Samples.room_distances "multi"%string).
Proof.
  intros estimate three.
  assert (Hne : length three <> Trilateration.num_anchors Samples.room)
    by (cbn; lia).
  assert (H3 : value (estimate three "multi"%string) = None).
  { subst estimate. rewrite estimate_position_multi, multilateral_value.
    rewrite lls_mismatch by assumption. cbn [value snd].
    now rewrite nonlinear_mismatch by assumption. }
  assert (H4 : value (estimate Samples.room_distances "multi"%string) = None).
  { subst estimate. rewrite estimate_position_multi, multilateral_value.
    rewrite room_stage_a. cbn [value snd]. now rewrite !room_stalled_runs. }
  split; [exact Hne|]. split; [exact room_distances_length|].
  split; [exact H3|]. split; [exact H4|]. split; [reflexivity|].
  now rewrite H3, H4.
Qed.

(** ** Coplanar anchors *)

(** Coplanar anchors at height [z] leave the third column of the matrix
    at zero. *)
Lemma coplanar_third_column (anchors : list point) (self : Trilateration.t)
    (distances : list R) (z : R) (A : list point) (b : list R) :
  Trilateration.constructed anchors self ->
  length distances = Trilateration.num_anchors self ->
  Forall (fun p => snd p = z) anchors ->
  Trilateration.build_system self distances = Some (A, b) ->
  Forall (fun row => snd row = 0) A.
Proof.
  intros Hc Hlen Hz Hsys.
  destruct (constructed_inv _ _ Hc) as [Hn Hself].
  destruct (build_system_spec anchors self distances Hc Hlen)
    as (A' & b' & Hsys' & HA & Hb & Hrows).
  rewrite Hsys in Hsys'. injection Hsys' as <- <-.
  subst self. cbn [Trilateration.num_anchors] in *.
  apply Forall_lookup. intros j rowj HAj.
  assert (Hj : (j < length anchors - 1)%nat).
  { rewrite <- HA. now apply lookup_lt_Some with rowj. }
  destruct (lookup_lt_is_Some_2 anchors 0%nat) as [p0 Hp0]; [lia|].
  destruct (lookup_lt_is_Some_2 anchors (S j)) as [pi Hpi]; [lia|].
  destruct (lookup_lt_is_Some_2 distances 0%nat) as [r0 Hr0]; [lia|].
  destruct (lookup_lt_is_Some_2 distances (S j)) as [ri Hri]; [lia|].
  destruct (Hrows (S j) p0 r0 pi ri) as [Hrow _]; try assumption; [lia|].
  replace (S j - 1)%nat with j in Hrow by lia.
  pose proof (eq_trans (eq_sym HAj) Hrow) as Heq. injection Heq as ->.
  pose proof (proj1 (Forall_lookup _ _) Hz _ _ Hp0) as Hz0.
  pose proof (proj1 (Forall_lookup _ _) Hz _ _ Hpi) as Hzi.
  destruct p0 as [[x0 y0] z0], pi as [[xi yi] zi]. cbn in *. subst. ring.
Qed.

(** C5, as the code has it: for four anchors at one height the estimate
    is [None] or a point and no exception reaches the caller, but Stage A
    is not checked for rank: the matrix has a zero third column, and
    whatever solution the least-squares routine returns for it seeds the
    optimizer; if that run reports success its point is returned and the
    centroid is never used. The centroid seeds the optimizer only after
    the least-squares routine raised or the seeded run failed. *)
Theorem coplanar_stage_a_result_is_used
    (lstsq : list point -> list R -> option LstsqResult)
    (minimize : (point -> R) -> point -> option OptimizeResult)
    (anchors : list point) (z : R) (distances : list R) :
  length anchors = 4%nat ->
  Forall (fun p => snd p = z) anchors ->
  length distances = 4%nat ->
  let self := Trilateration.mk anchors 4 in
  let run :=
    Trilateration.estimate_position lstsq minimize self distances "multi" in
  let f := Trilateration.objective self distances in
  let c := centroid anchors in
  Trilateration.constructed anchors self /\
  exists A b,
    Trilateration.build_system self distances = Some (A, b) /\
    Forall (fun row => snd row = 0) A /\
    solver_calls (trace run) !! 0%nat = Some (CallLstsq A b) /\
    (forall sol, lstsq A b = Some sol ->
       solver_calls (trace run) !! 1%nat = Some (CallMinimize (lstsq_x sol)) /\
       (forall result,
          minimize f (lstsq_x sol) = Some result ->
          res_success result = true ->
          value run = Some (res_x result) /\ SeedCentroid c ∉ trace run)) /\
    (SeedCentroid c ∈ trace run <->
       lstsq A b = None \/
       exists sol, lstsq A b = Some sol /\
                   converged (minimize f (lstsq_x sol)) = false).
Proof.
  intros Hn Hz Hlen self run f c.
  assert (Hc : Trilateration.constructed anchors self).
  { unfold Trilateration.constructed. rewrite init_enough by lia.
    subst self. now rewrite Hn. }
  split; [exact Hc|].
  assert (Hlen' : length distances = Trilateration.num_anchors self)
    by exact Hlen.
  destruct (build_system_spec anchors self distances Hc Hlen')
    as (A & b & Hsys & _).
  exists A, b. split; [exact Hsys|]. split.
  { exact (coplanar_third_column anchors self distances z A b
             Hc Hlen' Hz Hsys). }
  subst run. rewrite estimate_position_multi.
  destruct (multilateral_policy lstsq minimize self distances Hlen' A b Hsys)
    as (Hfirst & Hseeded & Hcentroid).
  split; [exact Hfirst|]. split; [|exact Hcentroid].
  intros sol Hsol. destruct (Hseeded sol Hsol) as [Hcall Hret].
  split; [exact Hcall|].
  intros result Hres Hok. split; [exact (Hret result Hres Hok)|].
  intros Hin. apply Hcentroid in Hin.
  destruct Hin as [Hnone | (sol' & Hsol' & Hfail)]; [congruence|].
  rewrite Hsol in Hsol'. injection Hsol' as <-.
  fold f in Hfail. rewrite Hres in Hfail. cbn in Hfail. congruence.
Qed.

Lemma coplanar_stage_a_result_is_used_witness :
  length Samples.anchors_coplanar = 4%nat /\
  Forall (fun p => snd p = 2.5) Samples.anchors_coplanar /\
  length Samples.coplanar_distances = 4%nat /\
  exists A b,
    Trilateration.build_system Samples.coplanar Samples.coplanar_distances
      = Some (A, b) /\
    Forall (fun row => snd row = 0) A /\
    solver_calls
      (trace (Trilateration.estimate_position
                (Samples.lstsq_returns Samples.coplanar_lls 2)
                (Samples.minimize_finds Samples.true_pos)
                Samples.coplanar Samples.coplanar_distances "multi"))
      !! 1%nat = Some (CallMinimize Samples.coplanar_lls) /\
    value (Trilateration.estimate_position
             (Samples.lstsq_returns Samples.coplanar_lls 2)
             (Samples.minimize_finds Samples.true_pos)
             Samples.coplanar Samples.coplanar_distances "multi")
      = Some Samples.true_pos.
Proof.
  assert (Hz : Forall (fun p : point => snd p = 2.5) Samples.anchors_coplanar).
  { repeat constructor. }
  split; [reflexivity|]. split; [exact Hz|]. split; [reflexivity|].
  destruct (coplanar_stage_a_result_is_used
              (Samples.lstsq_returns Samples.coplanar_lls 2)
              (Samples.minimize_finds Samples.true_pos)
              Samples.anchors_coplanar 2.5 Samples.coplanar_distances
              eq_refl Hz eq_refl)
    as (_ & A & b & Hsys & Hcol & _ & Hseeded & _).
  exists A, b. split; [exact Hsys|]. split; [exact Hcol|].
  destruct (Hseeded (mkLstsq Samples.coplanar_lls [] 2 []) eq_refl)
    as [Hcall Hret].
  split; [exact Hcall|]. exact (proj1 (Hret _ eq_refl eq_refl)).
Defined.

(** C5 as stated fails: on the four coplanar room corners with noiseless
    distances, the least-squares routine answers the rank-deficient system
    with its minimum-norm solution; Stage A hands it on as a result, the
    optimizer is seeded with it, and the estimate comes from that run: the
    centroid is never used and no failure is reported. *)
Lemma coplanar_stage_a_not_treated_as_failed :
  let A := [(10, 0, 0); (10, 10, 0); (0, 10, 0)] in
  let b := [-25; -50; -25] in
  let lstsq := Samples.lstsq_returns Samples.coplanar_lls 2 in
  let run :=
    Trilateration.estimate_position lstsq
      (Samples.minimize_finds Samples.true_pos)
      Samples.coplanar Samples.coplanar_distances "multi" in
  Forall (fun p => snd p = 2.5) Samples.anchors_coplanar /\
  Trilateration.build_system Samples.coplanar Samples.coplanar_distances
    = Some (A, b) /\
  value (Trilateration.linear_least_squares lstsq Samples.coplanar
           Samples.coplanar_distances) = Some Samples.coplanar_lls /\
  solver_calls (trace run) =
    [CallLstsq A b; CallMinimize Samples.coplanar_lls] /\
  (SeedCentroid (centroid Samples.anchors_coplanar) ∉ trace run) /\
  value run = Some Samples.true_pos.
Proof.
  intros A b lstsq run.
  pose proof coplanar_distances_length as Hlen.
  pose proof coplanar_system as Hsys.
  split; [repeat constructor|]. split; [exact Hsys|].
  assert (Htrace : trace run =
            [CallLstsq A b;
             Log DEBUG (MsgCalculated Samples.coplanar_lls []);
             CallMinimize Samples.coplanar_lls;
             Log DEBUG (MsgOptSuccessful Samples.true_pos
                          (Trilateration.objective Samples.coplanar
                             Samples.coplanar_distances Samples.true_pos))]).
  { subst run. rewrite estimate_position_multi, multilateral_trace.
    rewrite (lls_run lstsq _ _ A b Hlen Hsys).
    cbn [Samples.lstsq_returns lstsq value trace fst snd lstsq_x
         lstsq_residuals].
    rewrite !(nonlinear_run (Samples.minimize_finds Samples.true_pos)
                _ _ _ Hlen).
    reflexivity. }
  split; [|split; [|split]].
  - rewrite (lls_run lstsq _ _ A b Hlen Hsys). reflexivity.
  - rewrite Htrace. reflexivity.
  - rewrite Htrace. in_trace.
  - subst run. rewrite estimate_position_multi, multilateral_value.
    rewrite (lls_run lstsq _ _ A b Hlen Hsys).
    cbn [Samples.lstsq_returns lstsq value trace fst snd lstsq_x].
    rewrite !(nonlinear_value (Samples.minimize_finds Samples.true_pos)
                _ _ _ Hlen).
    reflexivity.
Qed.

(** ** Noiseless recovery: what Stage A contributes *)

(** With a least-squares routine that solves a uniquely solvable system
    exactly, the linear method on the room sample at noiseless distances returns
    the mirror image of the target, and the combined policy seeds the
    optimizer with it. *)
Lemma noiseless_stage_a_returns_mirror_image
    (lstsq : list point -> list R -> option LstsqResult)
    (minimize : (point -> R) -> point -> option OptimizeResult) :
  (forall A b, (exists p, solves A b p) ->
     exists sol, lstsq A b = Some sol /\ solves A b (lstsq_x sol)) ->
  let d := Samples.room_distances in
  value (Trilateration.estimate_position lstsq minimize Samples.room d "lls")
    = Some Samples.room_lls /\
  solver_calls
    (trace (Trilateration.estimate_position lstsq minimize Samples.room d
              "multi")) !! 1%nat
    = Some (CallMinimize Samples.room_lls).
Proof.
  intros Hexact d.
  pose proof room_distances_length as Hlen.
  pose proof room_system as Hsys. fold d in Hsys, Hlen.
  destruct (Hexact [(10, 0, 0); (10, 10, 0); (0, 10, 5)] [-25; -50; -30])
    as (sol & Hsol & Hsolves).
  { exists Samples.room_lls.
    now apply room_system_solved_only_by_mirror_image. }
  apply room_system_solved_only_by_mirror_image in Hsolves.
  split.
  - rewrite estimate_position_lls.
    rewrite (lls_run lstsq _ _ _ _ Hlen Hsys), Hsol. cbn. now f_equal.
  - rewrite estimate_position_multi.
    destruct (multilateral_policy lstsq minimize _ _ Hlen _ _ Hsys)
      as (_ & Hseeded & _).
    destruct (Hseeded sol Hsol) as [Hcall _]. now rewrite <- Hsolves.
Qed.

(** * Further properties of the code *)

(** ** One call of [measure_distance] *)

Lemma true_distance_nonneg (self : UWBSensor.t) (target : point) :
  0 <= UWBSensor.true_distance self target.
Proof.
  unfold UWBSensor.true_distance.
  destruct target as [[tx ty] tz], (UWBSensor.position self) as [[px py] pz].
  apply sqrt_pos.
Qed.

(** The outcome of a call whose rate gate is open, spelled out. *)
Lemma measure_distance_open_outcome
    (clock : R) (rng : UWBSensor.Draws) (self : UWBSensor.t)
    (target : point) (current_time : option R) :
  UWBSensor.update_rate self <> 0 ->
  UWBSensor.rate_gate_open self
    (UWBSensor.effective_time clock current_time) ->
  snd (UWBSensor.measure_distance clock rng self target current_time) =
    if Float.gtb (UWBSensor.true_distance self target)
                 (UWBSensor.max_range self)
    then UWBSensor.Return None
    else if Float.gtb (UWBSensor.uniform rng)
                      (UWBSensor.detection_probability self)
    then UWBSensor.Return None
    else if Float.ltb (UWBSensor.range_noise_std self) 0
    then UWBSensor.Raise (ValueError "scale < 0")
    else UWBSensor.Return
           (Some (Rmax 0 (UWBSensor.true_distance self target
                          + (0 + UWBSensor.range_noise_std self
                                 * UWBSensor.gauss rng)))).
Proof.
  intros Hrate Hgate.
  unfold UWBSensor.measure_distance. cbv zeta.
  apply is_zero_false in Hrate. rewrite Hrate.
  apply ltb_nlt in Hgate. rewrite Hgate. clear Hrate Hgate.
  rewrite true_distance_set_time.
  cbn [UWBSensor.max_range UWBSensor.set_last_measurement_time
       UWBSensor.detection_probability UWBSensor.range_noise_std].
  destruct (Float.gtb (UWBSensor.true_distance self target)
                      (UWBSensor.max_range self)); [reflexivity|].
  destruct (Float.gtb (UWBSensor.uniform rng)
                      (UWBSensor.detection_probability self)); [reflexivity|].
  unfold UWBSensor.np_random_normal.
  destruct (Float.ltb (UWBSensor.range_noise_std self) 0); reflexivity.
Qed.

(** Whatever a call does, the sensor afterwards is the sensor before with
    at most its clock moved to the time of the call. *)
Lemma measure_distance_state
    (clock : R) (rng : UWBSensor.Draws) (self : UWBSensor.t)
    (target : point) (current_time : option R) :
  let after :=
    fst (UWBSensor.measure_distance clock rng self target current_time) in
  after = self \/
  after = UWBSensor.set_last_measurement_time self
            (UWBSensor.effective_time clock current_time).
Proof.
  unfold UWBSensor.measure_distance. cbv zeta.
  destruct (Float.is_zero (UWBSensor.update_rate self)); [now left|].
  destruct (Float.ltb (UWBSensor.effective_time clock current_time
                       - UWBSensor.last_measurement_time self)
                      (1 / UWBSensor.update_rate self)); [now left|].
  repeat match goal with
         | |- context [if ?c then _ else _] => destruct c
         | |- context [match ?c with inl _ => _ | inr _ => _ end] =>
             destruct c
         end; now right.
Qed.

(** A returned measurement means that all three gates were passed. *)
Lemma measurement_inv
    (clock : R) (rng : UWBSensor.Draws) (self : UWBSensor.t)
    (target : point) (current_time : option R) (d : R) :
  snd (UWBSensor.measure_distance clock rng self target current_time)
    = UWBSensor.Return (Some d) ->
  UWBSensor.update_rate self <> 0 /\
  UWBSensor.rate_gate_open self
    (UWBSensor.effective_time clock current_time) /\
  UWBSensor.true_distance self target <= UWBSensor.max_range self /\
  UWBSensor.uniform rng <= UWBSensor.detection_probability self /\
  0 <= UWBSensor.range_noise_std self /\
  d = Rmax 0 (UWBSensor.true_distance self target
              + (0 + UWBSensor.range_noise_std self * UWBSensor.gauss rng)).
Proof.
  unfold UWBSensor.measure_distance. cbv zeta.
  destruct (Float.is_zero (UWBSensor.update_rate self)) eqn:Hzero;
    [discriminate|].
  destruct (Float.ltb (UWBSensor.effective_time clock current_time
                       - UWBSensor.last_measurement_time self)
                      (1 / UWBSensor.update_rate self)) eqn:Hgate;
    [discriminate|].
  rewrite true_distance_set_time.
  cbn [UWBSensor.max_range UWBSensor.set_last_measurement_time
       UWBSensor.detection_probability UWBSensor.range_noise_std].
  destruct (Float.gtb (UWBSensor.true_distance self target)
                      (UWBSensor.max_range self)) eqn:Hrange;
    [discriminate|].
  destruct (Float.gtb (UWBSensor.uniform rng)
                      (UWBSensor.detection_probability self)) eqn:Hdetect;
    [discriminate|].
  unfold UWBSensor.np_random_normal.
  destruct (Float.ltb (UWBSensor.range_noise_std self) 0) eqn:Hstd;
    [discriminate|].
  cbn [snd]. intros Hd. injection Hd as <-.
  apply is_zero_false in Hzero. apply ltb_nlt in Hgate.
  apply gtb_le in Hrange. apply gtb_le in Hdetect. apply ltb_ge in Hstd.
  repeat split; assumption.
Qed.

(** X1: a measurement that is returned is never negative. *)
Theorem measurement_nonnegative
    (clock : R) (rng : UWBSensor.Draws) (self : UWBSensor.t)
    (target : point) (current_time : option R) (d : R) :
  snd (UWBSensor.measure_distance clock rng self target current_time)
    = UWBSensor.Return (Some d) ->
  0 <= d.
Proof.
  intros Hd. apply measurement_inv in Hd.
  destruct Hd as (_ & _ & _ & _ & _ & ->). apply Rmax_l.
Qed.

Lemma sample_measurement_five :
  snd (UWBSensor.measure_distance 0 Samples.draws_hit Samples.sensor0
         Samples.near_target (Some 5)) = UWBSensor.Return (Some 5).
Proof.
  run_measure. cbn [snd]. do 2 f_equal.
  unfold Rmax. destruct (Rle_dec 0 (5 + (0 + 0.1 * 0))); lra.
Qed.

Lemma measurement_nonnegative_witness :
  snd (UWBSensor.measure_distance 0 Samples.draws_hit Samples.sensor0
         Samples.near_target (Some 5)) = UWBSensor.Return (Some 5) /\
  0 <= 5.
Proof.
  split; [exact sample_measurement_five|].
  exact (measurement_nonnegative 0 Samples.draws_hit Samples.sensor0
           Samples.near_target (Some 5) 5 sample_measurement_five).
Defined.

(** X2: with a non-zero update rate and a non-negative noise deviation, a
    call returns the measurement [d] exactly when the rate gate is open,
    the target is within [max_range], the uniform draw does not exceed
    [detection_probability], and [d] is the true distance plus the noise,
    clamped at zero. *)
Theorem measurement_iff_gates_pass
    (clock : R) (rng : UWBSensor.Draws) (self : UWBSensor.t)
    (target : point) (current_time : option R) (d : R) :
  UWBSensor.update_rate self <> 0 ->
  0 <= UWBSensor.range_noise_std self ->
  snd (UWBSensor.measure_distance clock rng self target current_time)
    = UWBSensor.Return (Some d)
  <->
  UWBSensor.rate_gate_open self
    (UWBSensor.effective_time clock current_time) /\
  UWBSensor.true_distance self target <= UWBSensor.max_range self /\
  UWBSensor.uniform rng <= UWBSensor.detection_probability self /\
  d = Rmax 0 (UWBSensor.true_distance self target
              + UWBSensor.range_noise_std self * UWBSensor.gauss rng).
Proof.
  intros Hrate Hstd. split.
  - intros Hd. apply measurement_inv in Hd.
    destruct Hd as (_ & Hgate & Hrange & Hdetect & _ & ->).
    repeat split; try assumption. f_equal. ring.
  - intros (Hgate & Hrange & Hdetect & ->).
    rewrite measure_distance_open_outcome by assumption.
    apply gtb_le in Hrange. apply gtb_le in Hdetect. apply ltb_ge in Hstd.
    rewrite Hrange, Hdetect, Hstd. do 3 f_equal. ring.
Qed.

Lemma sensor0_open_at_five : UWBSensor.rate_gate_open Samples.sensor0 5.
Proof. unfold UWBSensor.rate_gate_open. cbn. lra. Qed.

Lemma measurement_iff_gates_pass_witness :
  UWBSensor.update_rate Samples.sensor0 <> 0 /\
  0 <= UWBSensor.range_noise_std Samples.sensor0 /\
  UWBSensor.rate_gate_open Samples.sensor0 5 /\
  UWBSensor.true_distance Samples.sensor0 Samples.near_target
    <= UWBSensor.max_range Samples.sensor0 /\
  UWBSensor.uniform Samples.draws_hit
    <= UWBSensor.detection_probability Samples.sensor0.
Proof.
  assert (Hrate : UWBSensor.update_rate Samples.sensor0 <> 0) by (cbn; lra).
  assert (Hstd : 0 <= UWBSensor.range_noise_std Samples.sensor0)
    by (cbn; lra).
  split; [exact Hrate|]. split; [exact Hstd|].
  destruct (proj1 (measurement_iff_gates_pass 0 Samples.draws_hit
                     Samples.sensor0 Samples.near_target (Some 5) 5
                     Hrate Hstd) sample_measurement_five)
    as (Hgate & Hrange & Hdetect & _).
  split; [exact Hgate|]. split; [exact Hrange | exact Hdetect].
Defined.

(** X3: no call changes the configuration of a sensor. Its identifier,
    position, noise deviation, range, detection probability and update rate
    are the same afterwards, and its clock is either what it was or the
    time of the call. *)
Theorem configuration_never_changes
    (clock : R) (rng : UWBSensor.Draws) (self : UWBSensor.t)
    (target : point) (current_time : option R) :
  let after :=
    fst (UWBSensor.measure_distance clock rng self target current_time) in
  UWBSensor.sensor_id after = UWBSensor.sensor_id self /\
  UWBSensor.position after = UWBSensor.position self /\
  UWBSensor.range_noise_std after = UWBSensor.range_noise_std self /\
  UWBSensor.max_range after = UWBSensor.max_range self /\
  UWBSensor.detection_probability after
    = UWBSensor.detection_probability self /\
  UWBSensor.update_rate after = UWBSensor.update_rate self /\
  (UWBSensor.last_measurement_time after
     = UWBSensor.last_measurement_time self \/
   UWBSensor.last_measurement_time after
     = UWBSensor.effective_time clock current_time).
Proof.
  intros after.
  destruct (measure_distance_state clock rng self target current_time)
    as [Hsame | Hset]; fold after in Hsame || fold after in Hset.
  - rewrite Hsame. repeat split; try reflexivity. now left.
  - rewrite Hset. repeat split; try reflexivity. now right.
Qed.

(** X4: two calls in a row. After a call at [t1] that passed the rate
    gate, whatever it returned, a call at [t2] with [t2 - t1] below the
    period [1 / update_rate] returns [None] and changes nothing, and a call
    at [t2] with [t2 - t1] not below the period passes the gate again and
    sets the clock to [t2]. *)
Theorem second_call_gated_within_period
    (clock : R) (rng1 rng2 : UWBSensor.Draws) (self : UWBSensor.t)
    (target1 target2 : point) (t1 t2 : R) :
  UWBSensor.update_rate self <> 0 ->
  UWBSensor.rate_gate_open self t1 ->
  let first :=
    fst (UWBSensor.measure_distance clock rng1 self target1 (Some t1)) in
  let second :=
    UWBSensor.measure_distance clock rng2 first target2 (Some t2) in
  (t2 - t1 < 1 / UWBSensor.update_rate self ->
   second = (first, UWBSensor.Return None)) /\
  (~ t2 - t1 < 1 / UWBSensor.update_rate self ->
   UWBSensor.last_measurement_time (fst second) = t2).
Proof.
  intros Hrate Hgate first second.
  assert (Hfirst : first = UWBSensor.set_last_measurement_time self t1).
  { subst first.
    now rewrite (measure_distance_open clock rng1 self target1 (Some t1)). }
  subst second. rewrite Hfirst. split; intros Hlt.
  - apply measure_distance_gated; [exact Hrate|].
    unfold UWBSensor.rate_gate_open. cbn. tauto.
  - rewrite measure_distance_open; [reflexivity | exact Hrate |].
    unfold UWBSensor.rate_gate_open. cbn. exact Hlt.
Qed.

Lemma second_call_gated_within_period_witness :
  UWBSensor.update_rate Samples.sensor0 <> 0 /\
  UWBSensor.rate_gate_open Samples.sensor0 5 /\
  (5.05 - 5 < 1 / UWBSensor.update_rate Samples.sensor0 /\
   snd (UWBSensor.measure_distance 0 Samples.draws_hit
          (fst (UWBSensor.measure_distance 0 Samples.draws_hit
                  Samples.sensor0 Samples.near_target (Some 5)))
          Samples.near_target (Some 5.05)) = UWBSensor.Return None) /\
  (~ 5.1 - 5 < 1 / UWBSensor.update_rate Samples.sensor0 /\
   UWBSensor.last_measurement_time
     (fst (UWBSensor.measure_distance 0 Samples.draws_hit
             (fst (UWBSensor.measure_distance 0 Samples.draws_hit
                     Samples.sensor0 Samples.near_target (Some 5)))
             Samples.near_target (Some 5.1))) = 5.1).
Proof.
  assert (Hrate : UWBSensor.update_rate Samples.sensor0 <> 0) by (cbn; lra).
  assert (Hsoon : 5.05 - 5 < 1 / UWBSensor.update_rate Samples.sensor0)
    by (cbn; lra).
  assert (Hlate : ~ 5.1 - 5 < 1 / UWBSensor.update_rate Samples.sensor0)
    by (cbn; lra).
  split; [exact Hrate|]. split; [exact sensor0_open_at_five|].
  split; (split; [assumption|]).
  - exact (f_equal snd
             (proj1 (second_call_gated_within_period 0 Samples.draws_hit
                       Samples.draws_hit Samples.sensor0 Samples.near_target
                       Samples.near_target 5 5.05 Hrate sensor0_open_at_five)
                Hsoon)).
  - exact (proj2 (second_call_gated_within_period 0 Samples.draws_hit
                    Samples.draws_hit Samples.sensor0 Samples.near_target
                    Samples.near_target 5 5.1 Hrate sensor0_open_at_five)
             Hlate).
Defined.

(** X5: a sensor without noise returns the true distance. With
    [range_noise_std] zero, a call that passes the rate gate, the range
    check and the detection trial returns the Euclidean distance between
    sensor and target, whatever the normal draw is. *)
Theorem noise_free_measurement_is_exact
    (clock : R) (rng : UWBSensor.Draws) (self : UWBSensor.t)
    (target : point) (current_time : option R) :
  UWBSensor.update_rate self <> 0 ->
  UWBSensor.range_noise_std self = 0 ->
  UWBSensor.rate_gate_open self
    (UWBSensor.effective_time clock current_time) ->
  UWBSensor.true_distance self target <= UWBSensor.max_range self ->
  UWBSensor.uniform rng <= UWBSensor.detection_probability self ->
  snd (UWBSensor.measure_distance clock rng self target current_time) =
    UWBSensor.Return (Some (UWBSensor.true_distance self target)).
Proof.
  intros Hrate Hstd Hgate Hrange Hdetect.
  rewrite measure_distance_open_outcome by assumption.
  apply gtb_le in Hrange. apply gtb_le in Hdetect.
  rewrite Hrange, Hdetect, Hstd.
  replace (Float.ltb 0 0) with false by (symmetry; apply ltb_ge; lra).
  do 2 f_equal. rewrite Rmax_right; [ring|].
  pose proof (true_distance_nonneg self target). lra.
Qed.

Lemma noise_free_measurement_is_exact_witness :
  UWBSensor.update_rate NetworkSamples.sensor_b <> 0 /\
  UWBSensor.range_noise_std NetworkSamples.sensor_b = 0 /\
  UWBSensor.rate_gate_open NetworkSamples.sensor_b 5 /\
  UWBSensor.true_distance NetworkSamples.sensor_b Samples.near_target
    <= UWBSensor.max_range NetworkSamples.sensor_b /\
  UWBSensor.uniform Samples.draws_miss
    <= UWBSensor.detection_probability NetworkSamples.sensor_b /\
  snd (UWBSensor.measure_distance 0 Samples.draws_miss
         NetworkSamples.sensor_b Samples.near_target (Some 5)) =
    UWBSensor.Return
      (Some (UWBSensor.true_distance NetworkSamples.sensor_b
               Samples.near_target)).
Proof.
  assert (H1 : UWBSensor.update_rate NetworkSamples.sensor_b <> 0)
    by (cbn; lra).
  assert (H2 : UWBSensor.range_noise_std NetworkSamples.sensor_b = 0)
    by reflexivity.
  assert (H3 : UWBSensor.rate_gate_open NetworkSamples.sensor_b 5).
  { unfold UWBSensor.rate_gate_open. cbn. lra. }
  assert (H4 : UWBSensor.true_distance NetworkSamples.sensor_b
                 Samples.near_target
               <= UWBSensor.max_range NetworkSamples.sensor_b).
  { rewrite near_target_distance by reflexivity. cbn. lra. }
  assert (H5 : UWBSensor.uniform Samples.draws_miss
               <= UWBSensor.detection_probability NetworkSamples.sensor_b)
    by (cbn; lra).
  repeat (split; [assumption|]).
  exact (noise_free_measurement_is_exact 0 Samples.draws_miss
           NetworkSamples.sensor_b Samples.near_target (Some 5)
           H1 H2 H3 H4 H5).
Defined.

(** X6: when a call raises. It raises [ZeroDivisionError] exactly when
    [update_rate] is zero, and then the sensor is unchanged. Whenever it
    raises a [ValueError], the rate is not zero, the call has passed the
    rate gate, the range check and the detection trial, the noise
    deviation is negative, and the clock has already been set to the time
    of the call. *)
Theorem measure_distance_raises_iff
    (clock : R) (rng : UWBSensor.Draws) (self : UWBSensor.t)
    (target : point) (current_time : option R) :
  let now := UWBSensor.effective_time clock current_time in
  let call :=
    UWBSensor.measure_distance clock rng self target current_time in
  (snd call = UWBSensor.Raise ZeroDivisionError
   <-> UWBSensor.update_rate self = 0) /\
  (UWBSensor.update_rate self = 0 -> fst call = self) /\
  (forall msg, snd call = UWBSensor.Raise (ValueError msg) ->
     UWBSensor.update_rate self <> 0 /\
     UWBSensor.rate_gate_open self now /\
     UWBSensor.true_distance self target <= UWBSensor.max_range self /\
     UWBSensor.uniform rng <= UWBSensor.detection_probability self /\
     UWBSensor.range_noise_std self < 0 /\
     UWBSensor.last_measurement_time (fst call) = now).
Proof.
  intros now call. subst now call.
  unfold UWBSensor.measure_distance, UWBSensor.rate_gate_open. cbv zeta.
  destruct (Float.is_zero (UWBSensor.update_rate self)) eqn:Hzero.
  { apply is_zero_true in Hzero. cbn [fst snd].
    repeat split; try tauto; try discriminate. }
  apply is_zero_false in Hzero.
  destruct (Float.ltb (UWBSensor.effective_time clock current_time
                       - UWBSensor.last_measurement_time self)
                      (1 / UWBSensor.update_rate self)) eqn:Hgate.
  { cbn [fst snd]. repeat split; try tauto; try discriminate. }
  apply ltb_nlt in Hgate.
  rewrite true_distance_set_time.
  cbn [UWBSensor.max_range UWBSensor.set_last_measurement_time
       UWBSensor.detection_probability UWBSensor.range_noise_std].
  destruct (Float.gtb (UWBSensor.true_distance self target)
                      (UWBSensor.max_range self)) eqn:Hrange.
  { cbn [fst snd]. repeat split; try tauto; try discriminate. }
  apply gtb_le in Hrange.
  destruct (Float.gtb (UWBSensor.uniform rng)
                      (UWBSensor.detection_probability self)) eqn:Hdraw.
  { cbn [fst snd]. repeat split; try tauto; try discriminate. }
  apply gtb_le in Hdraw.
  unfold UWBSensor.np_random_normal.
  destruct (Float.ltb (UWBSensor.range_noise_std self) 0) eqn:Hstd;
    cbn [fst snd].
  - apply ltb_lt in Hstd.
    repeat split; try tauto; try discriminate; assumption.
  - repeat split; try tauto; try discriminate.
Qed.

Lemma measure_distance_raises_iff_witness :
  UWBSensor.update_rate NetworkSamples.sensor_fragile = 0 /\
  UWBSensor.measure_distance 0 Samples.draws_hit
    NetworkSamples.sensor_fragile Samples.near_target (Some 5) =
  (NetworkSamples.sensor_fragile, UWBSensor.Raise ZeroDivisionError).
Proof.
  assert (Hzero : UWBSensor.update_rate NetworkSamples.sensor_fragile = 0)
    by reflexivity.
  destruct (measure_distance_raises_iff 0 Samples.draws_hit
              NetworkSamples.sensor_fragile Samples.near_target (Some 5))
    as (Hdiv & Hsame & _).
  split; [exact Hzero|].
  apply injective_projections; cbn [fst snd].
  - exact (Hsame Hzero).
  - exact (proj2 Hdiv Hzero).
Defined.

(** X7: clamping at zero never adds error. A returned measurement differs
    from the true distance by no more than the size of the noise term. *)
Theorem clamp_never_adds_error
    (clock : R) (rng : UWBSensor.Draws) (self : UWBSensor.t)
    (target : point) (current_time : option R) (d : R) :
  snd (UWBSensor.measure_distance clock rng self target current_time)
    = UWBSensor.Return (Some d) ->
  Rabs (d - UWBSensor.true_distance self target)
    <= Rabs (UWBSensor.range_noise_std self * UWBSensor.gauss rng).
Proof.
  intros Hd. apply measurement_inv in Hd.
  destruct Hd as (_ & _ & _ & _ & _ & ->).
  pose proof (true_distance_nonneg self target) as Hpos.
  set (dist := UWBSensor.true_distance self target) in *.
  set (noise := UWBSensor.range_noise_std self * UWBSensor.gauss rng).
  unfold Rmax. destruct (Rle_dec 0 (dist + (0 + noise))) as [Hle|Hgt].
  - replace (dist + (0 + noise) - dist) with noise by ring. lra.
  - unfold Rabs.
    destruct (Rcase_abs (0 - dist)), (Rcase_abs noise); lra.
Qed.

Lemma clamp_never_adds_error_witness :
  snd (UWBSensor.measure_distance 0 Samples.draws_hit Samples.sensor0
         Samples.near_target (Some 5)) = UWBSensor.Return (Some 5) /\
  Rabs (5 - UWBSensor.true_distance Samples.sensor0 Samples.near_target)
    <= Rabs (UWBSensor.range_noise_std Samples.sensor0
             * UWBSensor.gauss Samples.draws_hit).
Proof.
  split; [exact sample_measurement_five|].
  exact (clamp_never_adds_error 0 Samples.draws_hit Samples.sensor0
           Samples.near_target (Some 5) 5 sample_measurement_five).
Defined.

(** ** Dictionaries *)

Section DictFacts.

Context {V : Type}.
Implicit Types (d : Dict.t V) (k : string) (v : V).

Lemma dict_get_set_eq d k v : Dict.get (Dict.set d k v) k = Some v.
Proof.
  induction d as [|[k' v'] rest IH]; cbn.
  - now rewrite String.eqb_refl.
  - destruct (String.eqb_spec k' k) as [->|Hne]; cbn.
    + now rewrite String.eqb_refl.
    + apply String.eqb_neq in Hne. now rewrite Hne.
Qed.

Lemma dict_get_set_ne d k k' v :
  k <> k' -> Dict.get (Dict.set d k v) k' = Dict.get d k'.
Proof.
  intros Hne. induction d as [|[k0 v0] rest IH]; cbn.
  - apply String.eqb_neq in Hne. now rewrite Hne.
  - destruct (String.eqb_spec k0 k) as [->|Hk0]; cbn.
    + apply String.eqb_neq in Hne. now rewrite Hne.
    + now rewrite IH.
Qed.

Lemma dict_get_None d k : Dict.get d k = None <-> k ∉ Dict.keys d.
Proof.
  induction d as [|[k' v'] rest IH]; cbn.
  - split; [intros _; apply not_elem_of_nil | reflexivity].
  - rewrite not_elem_of_cons.
    destruct (String.eqb_spec k' k) as [->|Hne].
    + split; [discriminate | intros [Hk _]; now contradiction Hk].
    + rewrite IH. split; [intros Hk; split; [congruence | exact Hk] | tauto].
Qed.

Lemma dict_get_Some_elem d k v : Dict.get d k = Some v -> (k, v) ∈ d.
Proof.
  induction d as [|[k' v'] rest IH]; cbn; [discriminate|].
  destruct (String.eqb_spec k' k) as [->|Hne].
  - intros [= ->]. left.
  - intros Hk. right. now apply IH.
Qed.

Lemma dict_elem_get d k v : Dict.wf d -> (k, v) ∈ d -> Dict.get d k = Some v.
Proof.
  unfold Dict.wf. induction d as [|[k' v'] rest IH]; cbn; intros Hwf Hin.
  - inversion Hin.
  - apply NoDup_cons in Hwf as [Hnotin Hwf].
    apply elem_of_cons in Hin as [[= -> ->] | Hin].
    + now rewrite String.eqb_refl.
    + destruct (String.eqb_spec k' k) as [->|Hne]; [|now apply IH].
      contradiction Hnotin. apply (list_elem_of_fmap_2 fst) in Hin.
      exact Hin.
Qed.

Lemma dict_keys_set d k v :
  Dict.keys (Dict.set d k v) =
  if Dict.mem d k then Dict.keys d else Dict.keys d ++ [k].
Proof.
  unfold Dict.mem, Dict.keys.
  induction d as [|[k' v'] rest IH]; cbn; [reflexivity|].
  destruct (String.eqb_spec k' k) as [->|Hne]; cbn; [reflexivity|].
  rewrite IH. now destruct (Dict.get rest k).
Qed.

Lemma dict_wf_set d k v : Dict.wf d -> Dict.wf (Dict.set d k v).
Proof.
  unfold Dict.wf. rewrite dict_keys_set. unfold Dict.mem.
  destruct (Dict.get d k) eqn:Hget; [tauto|].
  intros Hwf. apply NoDup_app. split; [exact Hwf|]. split.
  - intros k' Hk' Hin. apply list_elem_of_singleton in Hin as ->.
    now apply dict_get_None in Hget.
  - apply NoDup_singleton.
Qed.

Lemma dict_keys_del_subset d k k' :
  k' ∈ Dict.keys (Dict.del d k) -> k' ∈ Dict.keys d.
Proof.
  induction d as [|[k0 v0] rest IH]; cbn; [tauto|].
  destruct (String.eqb_spec k0 k) as [->|Hne]; cbn.
  - intros Hin. now right.
  - rewrite !elem_of_cons. intros [->|Hin]; [now left | right; now apply IH].
Qed.

Lemma dict_wf_del d k : Dict.wf d -> Dict.wf (Dict.del d k).
Proof.
  unfold Dict.wf. induction d as [|[k0 v0] rest IH]; cbn; [tauto|].
  intros Hwf. apply NoDup_cons in Hwf as [Hnotin Hwf].
  destruct (String.eqb_spec k0 k) as [->|Hne]; cbn; [exact Hwf|].
  apply NoDup_cons. split; [|now apply IH].
  intros Hin. apply Hnotin. now apply dict_keys_del_subset in Hin.
Qed.

Lemma dict_get_del_eq d k : Dict.wf d -> Dict.get (Dict.del d k) k = None.
Proof.
  unfold Dict.wf. induction d as [|[k0 v0] rest IH]; cbn; [reflexivity|].
  intros Hwf. apply NoDup_cons in Hwf as [Hnotin Hwf].
  destruct (String.eqb_spec k0 k) as [->|Hne]; cbn.
  - now apply dict_get_None.
  - apply String.eqb_neq in Hne. rewrite Hne. now apply IH.
Qed.

Lemma dict_get_del_ne d k k' :
  k <> k' -> Dict.get (Dict.del d k) k' = Dict.get d k'.
Proof.
  intros Hne. induction d as [|[k0 v0] rest IH]; cbn; [reflexivity|].
  destruct (String.eqb_spec k0 k) as [->|Hk0]; cbn.
  - apply String.eqb_neq in Hne. now rewrite Hne.
  - now rewrite IH.
Qed.

Lemma dict_del_absent d k : Dict.get d k = None -> Dict.del d k = d.
Proof.
  induction d as [|[k0 v0] rest IH]; cbn; [reflexivity|].
  destruct (String.eqb_spec k0 k) as [->|Hk0]; [discriminate|].
  intros Hget. now rewrite IH.
Qed.

Lemma dict_del_set_fresh d k v :
  Dict.get d k = None -> Dict.del (Dict.set d k v) k = d.
Proof.
  induction d as [|[k0 v0] rest IH]; cbn.
  - now rewrite String.eqb_refl.
  - destruct (String.eqb_spec k0 k) as [->|Hk0]; [discriminate|].
    intros Hget. cbn. apply String.eqb_neq in Hk0. rewrite Hk0.
    now rewrite IH.
Qed.

End DictFacts.

(** ** Adding, removing and listing sensors *)

(** X8: [add_sensor] files the sensor under its own identifier and returns
    that identifier. Looking the identifier up afterwards gives the sensor,
    every other identifier is as before, an identifier already present
    keeps its place and has its sensor replaced, a new one goes to the end,
    and the keys stay distinct. *)
Theorem add_sensor_stores_under_own_id
    (self : UWBSensorNetwork.t) (sensor : UWBSensor.t) :
  let id := UWBSensor.sensor_id sensor in
  let after := fst (UWBSensorNetwork.add_sensor self sensor) in
  snd (UWBSensorNetwork.add_sensor self sensor) = id /\
  Dict.get (UWBSensorNetwork.sensors after) id = Some sensor /\
  (forall k, k <> id ->
     Dict.get (UWBSensorNetwork.sensors after) k =
     Dict.get (UWBSensorNetwork.sensors self) k) /\
  Dict.keys (UWBSensorNetwork.sensors after) =
    (if Dict.mem (UWBSensorNetwork.sensors self) id
     then Dict.keys (UWBSensorNetwork.sensors self)
     else Dict.keys (UWBSensorNetwork.sensors self) ++ [id]) /\
  (Dict.wf (UWBSensorNetwork.sensors self) ->
   Dict.wf (UWBSensorNetwork.sensors after)).
Proof.
  intros id after. subst id after. cbn.
  split; [reflexivity|]. split; [apply dict_get_set_eq|].
  split; [|split].
  - intros k Hk. apply dict_get_set_ne. congruence.
  - apply dict_keys_set.
  - apply dict_wf_set.
Qed.

Lemma pair_network_wf :
  Dict.wf (UWBSensorNetwork.sensors NetworkSamples.pair_network).
Proof.
  unfold Dict.wf. cbn. apply NoDup_cons. split.
  - rewrite list_elem_of_singleton. discriminate.
  - apply NoDup_singleton.
Qed.

Lemma add_sensor_stores_under_own_id_witness :
  Dict.wf (UWBSensorNetwork.sensors NetworkSamples.pair_network) /\
  Dict.wf (UWBSensorNetwork.sensors
             (fst (UWBSensorNetwork.add_sensor NetworkSamples.pair_network
                     NetworkSamples.sensor_fragile))) /\
  Dict.get (UWBSensorNetwork.sensors
              (fst (UWBSensorNetwork.add_sensor NetworkSamples.pair_network
                      NetworkSamples.sensor_fragile))) "a"
    = Some NetworkSamples.sensor_a.
Proof.
  destruct (add_sensor_stores_under_own_id NetworkSamples.pair_network
              NetworkSamples.sensor_fragile)
    as (_ & _ & Hother & _ & Hwf).
  split; [exact pair_network_wf|]. split; [exact (Hwf pair_network_wf)|].
  rewrite (Hother "a"%string); [reflexivity | discriminate].
Defined.

(** X9: [remove_sensor] answers whether the identifier was present. If it
    was, the identifier is gone afterwards; every other identifier is as
    before and the keys stay distinct; if it was not, the network is
    unchanged. *)
Theorem remove_sensor_reports_presence
    (self : UWBSensorNetwork.t) (sensor_id : string) :
  Dict.wf (UWBSensorNetwork.sensors self) ->
  let after := fst (UWBSensorNetwork.remove_sensor self sensor_id) in
  let removed := snd (UWBSensorNetwork.remove_sensor self sensor_id) in
  (removed = true <->
   exists sensor,
     Dict.get (UWBSensorNetwork.sensors self) sensor_id = Some sensor) /\
  Dict.get (UWBSensorNetwork.sensors after) sensor_id = None /\
  (forall k, k <> sensor_id ->
     Dict.get (UWBSensorNetwork.sensors after) k =
     Dict.get (UWBSensorNetwork.sensors self) k) /\
  Dict.wf (UWBSensorNetwork.sensors after) /\
  (removed = false -> after = self).
Proof.
  intros Hwf after removed. subst after removed.
  unfold UWBSensorNetwork.remove_sensor, Dict.mem.
  destruct (Dict.get (UWBSensorNetwork.sensors self) sensor_id)
    as [sensor|] eqn:Hget; cbn [fst snd UWBSensorNetwork.sensors].
  - split; [split; [eauto | reflexivity]|].
    split; [now apply dict_get_del_eq|].
    split; [intros k Hk; apply dict_get_del_ne; congruence|].
    split; [now apply dict_wf_del | discriminate].
  - split; [split; [discriminate | intros [sensor Hs]; discriminate]|].
    split; [exact Hget|]. split; [reflexivity|].
    split; [exact Hwf | reflexivity].
Qed.

Lemma remove_sensor_reports_presence_witness :
  Dict.wf (UWBSensorNetwork.sensors NetworkSamples.pair_network) /\
  snd (UWBSensorNetwork.remove_sensor NetworkSamples.pair_network "a")
    = true /\
  Dict.get (UWBSensorNetwork.sensors
              (fst (UWBSensorNetwork.remove_sensor
                      NetworkSamples.pair_network "a"))) "a" = None /\
  fst (UWBSensorNetwork.remove_sensor NetworkSamples.pair_network "z")
    = NetworkSamples.pair_network.
Proof.
  destruct (remove_sensor_reports_presence NetworkSamples.pair_network "a"
              pair_network_wf) as (Hpresent & Hgone & _).
  destruct (remove_sensor_reports_presence NetworkSamples.pair_network "z"
              pair_network_wf) as (_ & _ & _ & _ & Hsame).
  split; [exact pair_network_wf|]. split.
  - apply Hpresent. eexists. reflexivity.
  - split; [exact Hgone|]. apply Hsame. reflexivity.
Defined.

(** X10: adding a sensor under an identifier the network does not have and
    removing that identifier again gives back the network as it was, and
    the removal reports success. *)
Theorem add_then_remove_restores
    (self : UWBSensorNetwork.t) (sensor : UWBSensor.t) :
  Dict.get (UWBSensorNetwork.sensors self) (UWBSensor.sensor_id sensor)
    = None ->
  UWBSensorNetwork.remove_sensor
    (fst (UWBSensorNetwork.add_sensor self sensor))
    (snd (UWBSensorNetwork.add_sensor self sensor)) = (self, true).
Proof.
  intros Hfresh. destruct self as [entries]. cbn in *.
  unfold UWBSensorNetwork.remove_sensor, Dict.mem.
  cbn [UWBSensorNetwork.sensors].
  rewrite dict_get_set_eq. now rewrite dict_del_set_fresh.
Qed.

Lemma add_then_remove_restores_witness :
  Dict.get (UWBSensorNetwork.sensors NetworkSamples.pair_network)
    (UWBSensor.sensor_id NetworkSamples.sensor_fragile) = None /\
  UWBSensorNetwork.remove_sensor
    (fst (UWBSensorNetwork.add_sensor NetworkSamples.pair_network
            NetworkSamples.sensor_fragile)) "c"
    = (NetworkSamples.pair_network, true).
Proof.
  assert (Hfresh : Dict.get
                     (UWBSensorNetwork.sensors NetworkSamples.pair_network)
                     (UWBSensor.sensor_id NetworkSamples.sensor_fragile)
                   = None) by reflexivity.
  split; [exact Hfresh|].
  exact (add_then_remove_restores NetworkSamples.pair_network
           NetworkSamples.sensor_fragile Hfresh).
Defined.

(** [get_sensor_positions] has the keys of the network, in the same
    order, and maps each to the position of its sensor. *)
Theorem get_sensor_positions_pointwise (self : UWBSensorNetwork.t) :
  Dict.keys (UWBSensorNetwork.get_sensor_positions self) =
    Dict.keys (UWBSensorNetwork.sensors self) /\
  forall k,
    Dict.get (UWBSensorNetwork.get_sensor_positions self) k =
    option_map UWBSensor.position
      (Dict.get (UWBSensorNetwork.sensors self) k).
Proof.
  destruct self as [entries]. unfold UWBSensorNetwork.get_sensor_positions.
  cbn [UWBSensorNetwork.sensors]. split.
  - unfold Dict.keys. rewrite map_map. reflexivity.
  - intros k. induction entries as [|[k' s] rest IH]; cbn; [reflexivity|].
    destruct (String.eqb k' k); [reflexivity | exact IH].
Qed.

(** ** Polling the network *)

Section PollFacts.

Import UWBSensorNetwork.

Variables (clock : R) (rng : string -> UWBSensor.Draws).
Variables (tag : point) (now : R).

Lemma measure_loop_cons (entry : string * UWBSensor.t)
    (rest : Dict.t UWBSensor.t) (acc : Dict.t R) :
  measure_loop clock rng tag now (entry :: rest) acc =
  match snd (polled clock rng tag now entry) with
  | UWBSensor.Raise e => (updated clock rng tag now entry :: rest, inl e)
  | UWBSensor.Return _ =>
      (updated clock rng tag now entry ::
         fst (measure_loop clock rng tag now rest
                (recorded clock rng tag now acc entry)),
       snd (measure_loop clock rng tag now rest
              (recorded clock rng tag now acc entry)))
  end.
Proof.
  destruct entry as [id sensor]. cbn [measure_loop].
  unfold updated, recorded, polled. cbn [fst snd].
  destruct (UWBSensor.measure_distance clock (rng id) sensor tag (Some now))
    as [sensor' [e|distance]]; cbn [fst snd]; [reflexivity|].
  destruct (measure_loop clock rng tag now rest _). reflexivity.
Qed.

(** A poll in which no call raises visits every entry. *)
Lemma measure_loop_no_raise (entries : Dict.t UWBSensor.t) :
  forall acc,
  Forall (returns clock rng tag now) entries ->
  measure_loop clock rng tag now entries acc =
    (map (updated clock rng tag now) entries,
     inr (fold_left (recorded clock rng tag now) entries acc)).
Proof.
  induction entries as [|entry rest IH]; intros acc Hall; [reflexivity|].
  apply Forall_cons in Hall as [[v Hv] Hrest].
  rewrite measure_loop_cons, Hv. rewrite (IH _ Hrest). reflexivity.
Qed.

(** A poll that returns has raised nowhere. *)
Lemma measure_loop_inr (entries : Dict.t UWBSensor.t) :
  forall acc entries' m,
  measure_loop clock rng tag now entries acc = (entries', inr m) ->
  Forall (returns clock rng tag now) entries.
Proof.
  induction entries as [|entry rest IH]; intros acc entries' m Hrun;
    [constructor|].
  rewrite measure_loop_cons in Hrun.
  destruct (snd (polled clock rng tag now entry)) as [e|v] eqn:Hv;
    [discriminate|].
  constructor; [now exists v|].
  injection Hrun as _ Hm.
  apply (IH (recorded clock rng tag now acc entry)
            (fst (measure_loop clock rng tag now rest
                    (recorded clock rng tag now acc entry))) m).
  now apply injective_projections.
Qed.

(** The first call that raises ends the poll. *)
Lemma measure_loop_raise (pre : Dict.t UWBSensor.t)
    (entry : string * UWBSensor.t) (post : Dict.t UWBSensor.t)
    (e : Exception) :
  forall acc,
  Forall (returns clock rng tag now) pre ->
  snd (polled clock rng tag now entry) = UWBSensor.Raise e ->
  measure_loop clock rng tag now (pre ++ entry :: post) acc =
    (map (updated clock rng tag now) pre ++ updated clock rng tag now entry :: post, inl e).
Proof.
  induction pre as [|first rest IH]; intros acc Hpre Hraise.
  - cbn [app map]. now rewrite measure_loop_cons, Hraise.
  - apply Forall_cons in Hpre as [[v Hv] Hrest].
    cbn [app map]. rewrite measure_loop_cons, Hv.
    now rewrite (IH _ Hrest Hraise).
Qed.

(** Whatever happens, the entries keep their keys and order, and each
    sensor is as before or has its clock at the time of the poll. *)
Lemma measure_loop_frame (entries : Dict.t UWBSensor.t) :
  forall acc,
  Forall2
    (fun before after =>
       fst after = fst before /\
       (snd after = snd before \/
        snd after = UWBSensor.set_last_measurement_time (snd before) now))
    entries (fst (measure_loop clock rng tag now entries acc)).
Proof.
  induction entries as [|entry rest IH]; intros acc; [constructor|].
  rewrite measure_loop_cons.
  assert (Hentry : fst (updated clock rng tag now entry) = fst entry /\
            (snd (updated clock rng tag now entry) = snd entry \/
             snd (updated clock rng tag now entry) =
               UWBSensor.set_last_measurement_time (snd entry) now)).
  { split; [reflexivity|].
    exact (measure_distance_state clock (rng (fst entry)) (snd entry) tag
             (Some now)). }
  destruct (snd (polled clock rng tag now entry)) as [e|v]; cbn [fst].
  - constructor; [exact Hentry|].
    clear. induction rest; constructor; [tauto | assumption].
  - constructor; [exact Hentry | apply IH].
Qed.

(** Where a measurement found in the result comes from. *)
Lemma recorded_origin (entries : Dict.t UWBSensor.t) :
  forall acc id d,
  Dict.get (fold_left (recorded clock rng tag now) entries acc) id = Some d ->
  Dict.get acc id = Some d \/
  exists sensor,
    (id, sensor) ∈ entries /\
    snd (polled clock rng tag now (id, sensor))
      = UWBSensor.Return (Some d).
Proof.
  induction entries as [|[k s] rest IH]; intros acc id d Hget;
    [now left|].
  cbn [fold_left] in Hget. apply IH in Hget as [Hacc | (s' & Hin & Hd)].
  - unfold recorded in Hacc. cbn [fst] in Hacc.
    destruct (snd (polled clock rng tag now (k, s))) as [e|[d'|]] eqn:Hk;
      try (now left).
    destruct (String.eqb_spec k id) as [->|Hne].
    + rewrite dict_get_set_eq in Hacc. injection Hacc as ->.
      right. exists s. split; [left | exact Hk].
    + rewrite dict_get_set_ne in Hacc by assumption. now left.
  - right. exists s'. split; [now right | exact Hd].
Qed.

(** With distinct keys, what the result holds for an identifier. *)
Lemma recorded_lookup (entries : Dict.t UWBSensor.t) :
  forall acc id,
  Dict.wf entries ->
  Dict.get (fold_left (recorded clock rng tag now) entries acc) id =
    match Dict.get entries id with
    | Some sensor =>
        match snd (polled clock rng tag now (id, sensor)) with
        | UWBSensor.Return (Some d) => Some d
        | _ => Dict.get acc id
        end
    | None => Dict.get acc id
    end.
Proof.
  unfold Dict.wf.
  induction entries as [|[k s] rest IH]; intros acc id Hwf; [reflexivity|].
  cbn [Dict.keys map fst] in Hwf.
  apply NoDup_cons in Hwf as [Hnotin Hwf].
  cbn [fold_left Dict.get]. rewrite (IH _ _ Hwf).
  destruct (String.eqb_spec k id) as [->|Hne].
  - apply dict_get_None in Hnotin. rewrite Hnotin.
    unfold recorded. cbn [fst].
    destruct (snd (polled clock rng tag now (id, s))) as [e|[d|]];
      try reflexivity.
    apply dict_get_set_eq.
  - assert (Hkeep : Dict.get (recorded clock rng tag now acc (k, s)) id =
                    Dict.get acc id).
    { unfold recorded. cbn [fst].
      destruct (snd (polled clock rng tag now (k, s))) as [e|[d|]];
        try reflexivity.
      now apply dict_get_set_ne. }
    rewrite Hkeep. reflexivity.
Qed.

Lemma updated_lookup (entries : Dict.t UWBSensor.t) (id : string) :
  Dict.get (map (updated clock rng tag now) entries) id =
  option_map (fun sensor => fst (polled clock rng tag now (id, sensor)))
    (Dict.get entries id).
Proof.
  induction entries as [|[k s] rest IH]; [reflexivity|].
  cbn [map Dict.get]. unfold updated at 1. cbn [fst snd].
  destruct (String.eqb_spec k id) as [->|Hne]; [reflexivity | exact IH].
Qed.

(** A poll at which every sensor is stopped by its rate gate. *)
Lemma measure_loop_all_gated (entries : Dict.t UWBSensor.t) :
  forall acc,
  Forall (fun entry =>
            UWBSensor.update_rate (snd entry) <> 0 /\
            ~ UWBSensor.rate_gate_open (snd entry) now) entries ->
  measure_loop clock rng tag now entries acc = (entries, inr acc).
Proof.
  induction entries as [|[k s] rest IH]; intros acc Hall; [reflexivity|].
  apply Forall_cons in Hall as [[Hrate Hgate] Hrest]. cbn [snd] in *.
  rewrite measure_loop_cons. unfold updated, recorded, polled. cbn [fst snd].
  rewrite (measure_distance_gated clock (rng k) s tag (Some now) Hrate Hgate).
  cbn [fst snd]. now rewrite (IH _ Hrest).
Qed.

End PollFacts.

Lemma measure_distances_unfold
    (clock : R) (rng : string -> UWBSensor.Draws)
    (self : UWBSensorNetwork.t) (tag : point) (current_time : option R) :
  UWBSensorNetwork.measure_distances clock rng self tag current_time =
  (UWBSensorNetwork.mk
     (fst (UWBSensorNetwork.measure_loop clock rng tag
             (UWBSensor.effective_time clock current_time)
             (UWBSensorNetwork.sensors self) [])),
   snd (UWBSensorNetwork.measure_loop clock rng tag
          (UWBSensor.effective_time clock current_time)
          (UWBSensorNetwork.sensors self) [])).
Proof.
  unfold UWBSensorNetwork.measure_distances. cbv zeta.
  now destruct (UWBSensorNetwork.measure_loop _ _ _ _ _ _).
Qed.

(** X11: a poll is the sensors' own calls, one per sensor, all at the same
    time. When [measure_distances] returns, the dictionary holds for each
    identifier of the network exactly what that sensor's [measure_distance]
    returned at the time of the poll, and nothing for other identifiers;
    each sensor is left as its own call leaves it. *)
Theorem poll_is_pointwise
    (clock : R) (rng : string -> UWBSensor.Draws)
    (self : UWBSensorNetwork.t) (tag : point) (current_time : option R)
    (m : Dict.t R) :
  Dict.wf (UWBSensorNetwork.sensors self) ->
  let now := UWBSensor.effective_time clock current_time in
  let call :=
    UWBSensorNetwork.measure_distances clock rng self tag current_time in
  snd call = inr m ->
  forall id,
    match Dict.get (UWBSensorNetwork.sensors self) id with
    | Some sensor =>
        let own :=
          UWBSensor.measure_distance clock (rng id) sensor tag (Some now) in
        snd own = UWBSensor.Return (Dict.get m id) /\
        Dict.get (UWBSensorNetwork.sensors (fst call)) id = Some (fst own)
    | None =>
        Dict.get m id = None /\
        Dict.get (UWBSensorNetwork.sensors (fst call)) id = None
    end.
Proof.
  intros Hwf now call Hm id. subst call.
  rewrite measure_distances_unfold in *. cbn [fst snd] in *. fold now in Hm |- *.
  assert (Hall : Forall (UWBSensorNetwork.returns clock rng tag now)
                   (UWBSensorNetwork.sensors self)).
  { eapply measure_loop_inr. apply injective_projections; cbn [fst snd];
      [reflexivity | exact Hm]. }
  rewrite (measure_loop_no_raise clock rng tag now _ [] Hall) in *.
  cbn [fst snd UWBSensorNetwork.sensors] in *. injection Hm as <-.
  rewrite updated_lookup, recorded_lookup by assumption.
  destruct (Dict.get (UWBSensorNetwork.sensors self) id) as [sensor|] eqn:Hget;
    cbn [option_map]; [|split; reflexivity].
  split; [|reflexivity].
  apply dict_get_Some_elem in Hget.
  destruct (proj1 (Forall_forall _ _) Hall _ Hget) as [v Hv].
  unfold UWBSensorNetwork.polled in *. cbn [fst snd] in *.
  rewrite Hv. now destruct v.
Qed.

(** The sample pair of sensors polled at time 5 for the near target. *)
Lemma sensor_a_call :
  UWBSensor.measure_distance 0 Samples.draws_hit NetworkSamples.sensor_a
    Samples.near_target (Some 5) =
  (UWBSensor.set_last_measurement_time NetworkSamples.sensor_a 5,
   UWBSensor.Return (Some 5)).
Proof.
  unfold NetworkSamples.sensor_a. run_measure. do 3 f_equal.
  unfold Rmax. destruct (Rle_dec 0 (5 + (0 + 0.1 * 0))); lra.
Qed.

Lemma sensor_b_call :
  UWBSensor.measure_distance 0 Samples.draws_hit NetworkSamples.sensor_b
    Samples.near_target (Some 5) =
  (UWBSensor.set_last_measurement_time NetworkSamples.sensor_b 5,
   UWBSensor.Return (Some 5)).
Proof.
  unfold NetworkSamples.sensor_b. run_measure. do 3 f_equal.
  unfold Rmax. destruct (Rle_dec 0 (5 + (0 + 0 * 0))); lra.
Qed.

Lemma pair_poll :
  UWBSensorNetwork.measure_distances 0 NetworkSamples.same_draws
    NetworkSamples.pair_network Samples.near_target (Some 5) =
  (UWBSensorNetwork.mk
     [("a"%string,
       UWBSensor.set_last_measurement_time NetworkSamples.sensor_a 5);
      ("b"%string,
       UWBSensor.set_last_measurement_time NetworkSamples.sensor_b 5)],
   inr [("a"%string, 5); ("b"%string, 5)]).
Proof.
  unfold UWBSensorNetwork.measure_distances, NetworkSamples.pair_network,
    NetworkSamples.same_draws.
  cbn [UWBSensorNetwork.measure_loop UWBSensor.effective_time
       UWBSensorNetwork.sensors].
  rewrite sensor_a_call, sensor_b_call. reflexivity.
Qed.

Lemma poll_is_pointwise_witness :
  Dict.wf (UWBSensorNetwork.sensors NetworkSamples.pair_network) /\
  snd (UWBSensorNetwork.measure_distances 0 NetworkSamples.same_draws
         NetworkSamples.pair_network Samples.near_target (Some 5))
    = inr [("a"%string, 5); ("b"%string, 5)] /\
  snd (UWBSensor.measure_distance 0 Samples.draws_hit
         NetworkSamples.sensor_b Samples.near_target (Some 5))
    = UWBSensor.Return (Some 5) /\
  Dict.get [("a"%string, 5); ("b"%string, 5)] "z" = None.
Proof.
  assert (Hm : snd (UWBSensorNetwork.measure_distances 0
                      NetworkSamples.same_draws NetworkSamples.pair_network
                      Samples.near_target (Some 5))
               = inr [("a"%string, 5); ("b"%string, 5)])
    by now rewrite pair_poll.
  split; [exact pair_network_wf|]. split; [exact Hm|].
  pose proof (poll_is_pointwise 0 NetworkSamples.same_draws
                NetworkSamples.pair_network Samples.near_target (Some 5)
                _ pair_network_wf Hm) as Hpoint.
  split.
  - exact (proj1 (Hpoint "b"%string)).
  - exact (proj1 (Hpoint "z"%string)).
Defined.

(** X12: what a poll never does. Whether it returns or raises, the network
    afterwards has the same identifiers in the same order, and each sensor
    is as before or has only its clock moved to the time of the poll. When
    it returns, every identifier in the dictionary belongs to a sensor of
    the network, every distance was returned by that sensor's own call, and
    no distance is negative. *)
Theorem poll_keeps_network_and_reports_known_sensors
    (clock : R) (rng : string -> UWBSensor.Draws)
    (self : UWBSensorNetwork.t) (tag : point) (current_time : option R) :
  let now := UWBSensor.effective_time clock current_time in
  let call :=
    UWBSensorNetwork.measure_distances clock rng self tag current_time in
  Forall2
    (fun before after =>
       fst after = fst before /\
       (snd after = snd before \/
        snd after = UWBSensor.set_last_measurement_time (snd before) now))
    (UWBSensorNetwork.sensors self)
    (UWBSensorNetwork.sensors (fst call)) /\
  forall m id d,
    snd call = inr m ->
    Dict.get m id = Some d ->
    0 <= d /\
    exists sensor,
      (id, sensor) ∈ UWBSensorNetwork.sensors self /\
      snd (UWBSensor.measure_distance clock (rng id) sensor tag (Some now))
        = UWBSensor.Return (Some d).
Proof.
  intros now call. subst call. rewrite measure_distances_unfold.
  cbn [fst snd UWBSensorNetwork.sensors]. fold now. split.
  - apply measure_loop_frame.
  - intros m id d Hm Hd.
    assert (Hall : Forall (UWBSensorNetwork.returns clock rng tag now)
                     (UWBSensorNetwork.sensors self)).
    { eapply measure_loop_inr. apply injective_projections; cbn [fst snd];
        [reflexivity | exact Hm]. }
    rewrite (measure_loop_no_raise clock rng tag now _ [] Hall) in Hm.
    cbn [snd] in Hm. injection Hm as <-.
    apply recorded_origin in Hd as [Hd | (sensor & Hin & Hd)];
      [discriminate|].
    unfold UWBSensorNetwork.polled in Hd. cbn [fst snd] in Hd.
    split; [|now exists sensor].
    apply measurement_inv in Hd.
    destruct Hd as (_ & _ & _ & _ & _ & ->). apply Rmax_l.
Qed.

Lemma poll_keeps_network_and_reports_known_sensors_witness :
  snd (UWBSensorNetwork.measure_distances 0 NetworkSamples.same_draws
         NetworkSamples.pair_network Samples.near_target (Some 5))
    = inr [("a"%string, 5); ("b"%string, 5)] /\
  Dict.get [("a"%string, 5); ("b"%string, 5)] "b" = Some 5 /\
  0 <= 5 /\
  exists sensor,
    (("b"%string, sensor) ∈
       UWBSensorNetwork.sensors NetworkSamples.pair_network) /\
    snd (UWBSensor.measure_distance 0 Samples.draws_hit sensor
           Samples.near_target (Some 5)) = UWBSensor.Return (Some 5).
Proof.
  assert (Hm : snd (UWBSensorNetwork.measure_distances 0
                      NetworkSamples.same_draws NetworkSamples.pair_network
                      Samples.near_target (Some 5))
               = inr [("a"%string, 5); ("b"%string, 5)])
    by now rewrite pair_poll.
  split; [exact Hm|]. split; [reflexivity|].
  exact (proj2 (poll_keeps_network_and_reports_known_sensors 0
                  NetworkSamples.same_draws NetworkSamples.pair_network
                  Samples.near_target (Some 5))
           _ "b"%string 5 Hm eq_refl).
Defined.

(** X13: polling again too soon. After a poll at [t1] that returned and
    at which every sensor passed its rate gate, a second poll at [t2] with
    [t2 - t1] below every sensor's period returns an empty dictionary and
    changes nothing, for any target and any random draws. *)
Theorem repoll_within_period_is_empty
    (clock : R) (rng1 rng2 : string -> UWBSensor.Draws)
    (self : UWBSensorNetwork.t) (tag1 tag2 : point) (t1 t2 : R)
    (m : Dict.t R) :
  Forall (fun entry =>
            UWBSensor.update_rate (snd entry) <> 0 /\
            UWBSensor.rate_gate_open (snd entry) t1 /\
            t2 - t1 < 1 / UWBSensor.update_rate (snd entry))
         (UWBSensorNetwork.sensors self) ->
  let first :=
    UWBSensorNetwork.measure_distances clock rng1 self tag1 (Some t1) in
  snd first = inr m ->
  UWBSensorNetwork.measure_distances clock rng2 (fst first) tag2 (Some t2)
    = (fst first, inr []).
Proof.
  intros Hall first. subst first.
  rewrite (measure_distances_unfold clock rng1).
  cbn [fst snd UWBSensor.effective_time]. intros Hm.
  assert (Hreturns : Forall (UWBSensorNetwork.returns clock rng1 tag1 t1)
                       (UWBSensorNetwork.sensors self)).
  { apply (measure_loop_inr clock rng1 tag1 t1 _ []
             (fst (UWBSensorNetwork.measure_loop clock rng1 tag1 t1
                     (UWBSensorNetwork.sensors self) [])) m).
    now apply injective_projections. }
  rewrite (measure_loop_no_raise clock rng1 tag1 t1 _ [] Hreturns).
  cbn [fst snd].
  rewrite measure_distances_unfold.
  cbn [fst snd UWBSensor.effective_time UWBSensorNetwork.sensors].
  rewrite measure_loop_all_gated; [reflexivity|].
  apply Forall_fmap. eapply Forall_impl; [exact Hall|].
  intros [id sensor] (Hrate & Hgate & Hsoon). cbn [snd] in *.
  unfold compose, UWBSensorNetwork.updated, UWBSensorNetwork.polled.
  cbn [fst snd].
  rewrite (measure_distance_open clock (rng1 id) sensor tag1 (Some t1)
             Hrate Hgate).
  cbn [UWBSensor.update_rate UWBSensor.set_last_measurement_time
       UWBSensor.effective_time].
  split; [exact Hrate|].
  unfold UWBSensor.rate_gate_open. cbn. tauto.
Qed.

Lemma repoll_within_period_is_empty_witness :
  Forall (fun entry =>
            UWBSensor.update_rate (snd entry) <> 0 /\
            UWBSensor.rate_gate_open (snd entry) 5 /\
            5.05 - 5 < 1 / UWBSensor.update_rate (snd entry))
         (UWBSensorNetwork.sensors NetworkSamples.pair_network) /\
  snd (UWBSensorNetwork.measure_distances 0 NetworkSamples.same_draws
         NetworkSamples.pair_network Samples.near_target (Some 5))
    = inr [("a"%string, 5); ("b"%string, 5)] /\
  snd (UWBSensorNetwork.measure_distances 0 NetworkSamples.same_draws
         (fst (UWBSensorNetwork.measure_distances 0
                 NetworkSamples.same_draws NetworkSamples.pair_network
                 Samples.near_target (Some 5)))
         Samples.far_target (Some 5.05)) = inr [].
Proof.
  assert (Hall : Forall (fun entry =>
            UWBSensor.update_rate (snd entry) <> 0 /\
            UWBSensor.rate_gate_open (snd entry) 5 /\
            5.05 - 5 < 1 / UWBSensor.update_rate (snd entry))
         (UWBSensorNetwork.sensors NetworkSamples.pair_network)).
  { repeat constructor; unfold UWBSensor.rate_gate_open; cbn; lra. }
  assert (Hm : snd (UWBSensorNetwork.measure_distances 0
                      NetworkSamples.same_draws NetworkSamples.pair_network
                      Samples.near_target (Some 5))
               = inr [("a"%string, 5); ("b"%string, 5)])
    by now rewrite pair_poll.
  split; [exact Hall|]. split; [exact Hm|].
  exact (f_equal snd
           (repoll_within_period_is_empty 0
              NetworkSamples.same_draws NetworkSamples.same_draws
              NetworkSamples.pair_network Samples.near_target
              Samples.far_target 5 5.05 _ Hall Hm)).
Defined.

(** X14: a poll stops at the first sensor whose call raises. The
    exception is the poll's outcome, no dictionary is returned, the sensors
    before it in insertion order have been polled and keep their updates,
    and the sensors after it are untouched. *)
Theorem poll_raises_at_first_failure
    (clock : R) (rng : string -> UWBSensor.Draws) (tag : point)
    (current_time : option R)
    (before : Dict.t UWBSensor.t) (id : string) (sensor : UWBSensor.t)
    (after : Dict.t UWBSensor.t) (e : Exception) :
  let now := UWBSensor.effective_time clock current_time in
  Forall (UWBSensorNetwork.returns clock rng tag now) before ->
  snd (UWBSensor.measure_distance clock (rng id) sensor tag (Some now))
    = UWBSensor.Raise e ->
  UWBSensorNetwork.measure_distances clock rng
    (UWBSensorNetwork.mk (before ++ (id, sensor) :: after)) tag current_time
  = (UWBSensorNetwork.mk
       (map (UWBSensorNetwork.updated clock rng tag now) before
        ++ (id, fst (UWBSensor.measure_distance clock (rng id) sensor tag
                       (Some now))) :: after),
     inl e).
Proof.
  intros now Hbefore Hraise.
  rewrite measure_distances_unfold. cbn [UWBSensorNetwork.sensors]. fold now.
  now rewrite (measure_loop_raise clock rng tag now before (id, sensor)
                 after e [] Hbefore Hraise).
Qed.

Lemma poll_raises_at_first_failure_witness :
  Forall (UWBSensorNetwork.returns 0 NetworkSamples.same_draws
            Samples.near_target 5)
    [("a"%string, NetworkSamples.sensor_a)] /\
  snd (UWBSensor.measure_distance 0 Samples.draws_hit
         NetworkSamples.sensor_fragile Samples.near_target (Some 5))
    = UWBSensor.Raise ZeroDivisionError /\
  snd (UWBSensorNetwork.measure_distances 0 NetworkSamples.same_draws
         (UWBSensorNetwork.mk
            ([("a"%string, NetworkSamples.sensor_a)]
             ++ ("c"%string, NetworkSamples.sensor_fragile)
             :: [("b"%string, NetworkSamples.sensor_b)]))
         Samples.near_target (Some 5)) = inl ZeroDivisionError.
Proof.
  assert (Hbefore : Forall (UWBSensorNetwork.returns 0
                              NetworkSamples.same_draws
                              Samples.near_target 5)
                      [("a"%string, NetworkSamples.sensor_a)]).
  { repeat constructor. unfold UWBSensorNetwork.returns,
      UWBSensorNetwork.polled, NetworkSamples.same_draws. cbn [fst snd].
    rewrite sensor_a_call. now eexists. }
  assert (Hraise : snd (UWBSensor.measure_distance 0 Samples.draws_hit
                          NetworkSamples.sensor_fragile Samples.near_target
                          (Some 5)) = UWBSensor.Raise ZeroDivisionError).
  { unfold NetworkSamples.sensor_fragile. run_measure. reflexivity. }
  split; [exact Hbefore|]. split; [exact Hraise|].
  exact (f_equal snd
           (poll_raises_at_first_failure 0 NetworkSamples.same_draws
              Samples.near_target (Some 5)
              [("a"%string, NetworkSamples.sensor_a)] "c"
              NetworkSamples.sensor_fragile
              [("b"%string, NetworkSamples.sensor_b)] ZeroDivisionError
              Hbefore Hraise)).
Defined.

(** ** Grid layouts *)

Lemma fold_left_invariant {S X : Type} (I : S -> Prop) (f : S -> X -> S)
    (l : list X) :
  (forall s x, I s -> I (f s x)) ->
  forall s, I s -> I (fold_left f l s).
Proof.
  intros Hstep. induction l as [|x rest IH]; intros s Hs; [exact Hs|].
  cbn. apply IH. now apply Hstep.
Qed.

Lemma grid_count_at_least_two (extent grid_size : R) :
  (2 <= UWBSensorNetwork.grid_count extent grid_size)%nat.
Proof. unfold UWBSensorNetwork.grid_count. lia. Qed.

Lemma clamp_bounds (hi x : R) :
  0 <= hi -> 0 <= UWBSensorNetwork.clamp hi x <= hi.
Proof.
  intros Hhi. unfold UWBSensorNetwork.clamp, Rmin, Rmax.
  destruct (Rle_dec 0 x); destruct (Rle_dec hi _); lra.
Qed.

Lemma dict_set_Forall {V : Type} (Q : V -> Prop) (d : Dict.t V)
    (k : string) (v : V) :
  Forall (fun entry => Q (snd entry)) d -> Q v ->
  Forall (fun entry => Q (snd entry)) (Dict.set d k v).
Proof.
  intros Hd Hv. induction d as [|[k' v'] rest IH]; cbn.
  - now repeat constructor.
  - apply Forall_cons in Hd as [Hv' Hrest].
    destruct (String.eqb k' k); constructor; auto.
Qed.

(** The layout is the network of the final state. *)
Lemma create_grid_layout_unfold (fresh : nat -> string)
    (width length height grid_size z_height : R)
    (sensor_properties : option UWBSensorNetwork.SensorProperties) :
  grid_size <> 0 ->
  UWBSensorNetwork.create_grid_layout fresh width length height grid_size
    z_height sensor_properties =
  inr (fst (UWBSensorNetwork.grid_state fresh
              (default UWBSensorNetwork.no_properties sensor_properties)
              width length grid_size z_height)).
Proof.
  intros Hgrid.
  unfold UWBSensorNetwork.create_grid_layout, UWBSensorNetwork.grid_state.
  apply is_zero_false in Hgrid. now rewrite Hgrid.
Qed.

(** An invariant of the state that every placement keeps is kept by the
    whole construction. *)
Lemma grid_invariant (I : UWBSensorNetwork.t * nat -> Prop)
    (fresh : nat -> string)
    (properties : UWBSensorNetwork.SensorProperties)
    (width length grid_size z_height : R) :
  (forall i j state, I state ->
     I (UWBSensorNetwork.place fresh properties
          (UWBSensorNetwork.cell_position width length grid_size z_height
             i j) state)) ->
  (forall state, I state ->
     I (UWBSensorNetwork.place fresh properties
          (width / 2, length / 2, z_height) state)) ->
  I (UWBSensorNetwork.init, 0%nat) ->
  I (UWBSensorNetwork.grid_state fresh properties width length grid_size
       z_height).
Proof.
  intros Hcell Hcentre Hstate. unfold UWBSensorNetwork.grid_state. cbv zeta.
  match goal with
  | |- I (if _ then _ ?perimeter else _) =>
      assert (Hperimeter : I perimeter)
  end.
  { apply fold_left_invariant; [|exact Hstate].
    intros s i Hs. apply fold_left_invariant; [|exact Hs].
    intros s' j Hs'. unfold UWBSensorNetwork.grid_cell.
    destruct (UWBSensorNetwork.on_perimeter _ _ i j);
      [now apply Hcell | exact Hs']. }
  destruct (_ && _); [now apply Hcentre | exact Hperimeter].
Qed.

(** X15: every sensor of a grid layout lies inside the area. For a
    non-negative [width] and [length] and a non-zero [grid_size], each
    sensor of the layout is at height [z_height] with [0 <= x <= width]
    and [0 <= y <= length], whatever the sensor properties. *)
Theorem grid_layout_within_bounds (fresh : nat -> string)
    (width length height grid_size z_height : R)
    (sensor_properties : option UWBSensorNetwork.SensorProperties) :
  grid_size <> 0 -> 0 <= width -> 0 <= length ->
  exists network,
    UWBSensorNetwork.create_grid_layout fresh width length height
      grid_size z_height sensor_properties = inr network /\
    forall id sensor,
      (id, sensor) ∈ UWBSensorNetwork.sensors network ->
      exists x y,
        UWBSensor.position sensor = (x, y, z_height) /\
        0 <= x <= width /\ 0 <= y <= length.
Proof.
  intros Hgrid Hwidth Hlength.
  rewrite create_grid_layout_unfold by assumption.
  eexists. split; [reflexivity|].
  set (inside := fun sensor : UWBSensor.t =>
         exists x y,
           UWBSensor.position sensor = (x, y, z_height) /\
           0 <= x <= width /\ 0 <= y <= length).
  assert (Hplace : forall x y state,
            0 <= x <= width -> 0 <= y <= length ->
            Forall (fun entry => inside (snd entry))
                   (UWBSensorNetwork.sensors (fst state)) ->
            Forall (fun entry => inside (snd entry))
                   (UWBSensorNetwork.sensors
                      (fst (UWBSensorNetwork.place fresh
                              (default UWBSensorNetwork.no_properties
                                 sensor_properties)
                              (x, y, z_height) state)))).
  { intros x y [network k] Hx Hy Hall. cbn.
    apply dict_set_Forall; [exact Hall|].
    exists x, y. split; [reflexivity|]. split; assumption. }
  intros id sensor Hin.
  refine (proj1 (Forall_forall (fun entry => inside (snd entry)) _) _
            (id, sensor) Hin).
  apply (grid_invariant
           (fun state => Forall (fun entry => inside (snd entry))
                           (UWBSensorNetwork.sensors (fst state)))).
  - intros i j state Hstate. unfold UWBSensorNetwork.cell_position.
    apply Hplace;
      [now apply clamp_bounds | now apply clamp_bounds | exact Hstate].
  - intros state Hstate. apply Hplace; [lra | lra | exact Hstate].
  - constructor.
Qed.

Lemma grid_layout_within_bounds_witness :
  (10 : R) <> 0 /\ 0 <= 20 /\ 0 <= 20 /\
  exists network,
    UWBSensorNetwork.create_grid_layout NetworkSamples.numbered 20 20 5 10 3
      None = inr network /\
    forall id sensor,
      (id, sensor) ∈ UWBSensorNetwork.sensors network ->
      exists x y,
        UWBSensor.position sensor = (x, y, 3) /\
        0 <= x <= 20 /\ 0 <= y <= 20.
Proof.
  assert (H1 : (10 : R) <> 0) by lra.
  assert (H2 : 0 <= 20) by lra.
  split; [exact H1|]. split; [exact H2|]. split; [exact H2|].
  exact (grid_layout_within_bounds NetworkSamples.numbered 20 20 5 10 3
           None H1 H2 H2).
Defined.

(** *** How many sensors are constructed *)

Lemma filter_all_true {X : Type} (f : X -> bool) (l : list X) :
  (forall x, In x l -> f x = true) -> List.filter f l = l.
Proof.
  induction l as [|x rest IH]; intros Hall; [reflexivity|].
  cbn. rewrite (Hall x) by now left.
  f_equal. apply IH. intros y Hy. apply Hall. now right.
Qed.

Lemma filter_all_false {X : Type} (f : X -> bool) (l : list X) :
  (forall x, In x l -> f x = false) -> List.filter f l = [].
Proof.
  induction l as [|x rest IH]; intros Hall; [reflexivity|].
  cbn. rewrite (Hall x) by now left.
  apply IH. intros y Hy. apply Hall. now right.
Qed.

Lemma list_sum_cons (n : nat) (l : list nat) :
  list_sum (n :: l) = (n + list_sum l)%nat.
Proof. reflexivity. Qed.

Lemma list_sum_constant (c : nat -> nat) (k : nat) (l : list nat) :
  (forall i, In i l -> c i = k) ->
  list_sum (map c l) = (k * length l)%nat.
Proof.
  induction l as [|i rest IH]; intros Hall; [cbn; lia|].
  cbn [map Datatypes.length]. rewrite list_sum_cons.
  rewrite (Hall i) by now left.
  rewrite IH by (intros j Hj; apply Hall; now right). lia.
Qed.

(** The indices of a loop of at least two rounds: the first, those in
    between, the last. *)
Lemma seq_ends (m : nat) : seq 0 (S (S m)) = 0%nat :: seq 1 m ++ [S m].
Proof.
  replace (S (S m)) with (1 + (m + 1))%nat by lia.
  rewrite seq_app. cbn [seq app]. f_equal.
  rewrite seq_app. cbn. reflexivity.
Qed.

(** Sensors per row: a full row at the first and the last [i], the two
    ends of the row otherwise. *)
Lemma row_count (nx ny i : nat) :
  (2 <= ny)%nat ->
  length (List.filter (UWBSensorNetwork.on_perimeter nx ny i) (seq 0 ny)) =
  if ((i =? 0) || (i =? nx - 1))%nat then ny else 2%nat.
Proof.
  intros Hny. unfold UWBSensorNetwork.on_perimeter.
  destruct ((i =? 0) || (i =? nx - 1))%nat eqn:Hrow.
  - rewrite filter_all_true; [now rewrite length_seq|].
    intros j _. reflexivity.
  - destruct ny as [|[|m]]; try lia.
    rewrite seq_ends. cbn [orb List.filter Nat.eqb].
    rewrite List.filter_app. cbn [List.filter].
    replace (S m =? S (S m) - 1)%nat with true
      by (symmetry; apply Nat.eqb_eq; lia).
    rewrite filter_all_false; [reflexivity|].
    intros j Hj. apply in_seq in Hj.
    destruct j as [|j]; [lia|]. cbn [Nat.eqb].
    apply Nat.eqb_neq. lia.
Qed.

Lemma perimeter_count (nx ny : nat) :
  (2 <= nx)%nat -> (2 <= ny)%nat ->
  list_sum
    (map (fun i =>
            length (List.filter (UWBSensorNetwork.on_perimeter nx ny i)
                      (seq 0 ny)))
       (seq 0 nx)) = (2 * nx + 2 * ny - 4)%nat.
Proof.
  intros Hnx Hny.
  rewrite (map_ext _ (fun i => if ((i =? 0) || (i =? nx - 1))%nat
                               then ny else 2%nat))
    by (intros i; now apply row_count).
  destruct nx as [|[|m]]; try lia.
  rewrite seq_ends. cbn [map]. rewrite map_app. cbn [map Nat.eqb orb].
  rewrite list_sum_cons, list_sum_app, list_sum_cons.
  rewrite (list_sum_constant _ 2).
  - rewrite length_seq. cbn. rewrite Nat.eqb_refl. lia.
  - intros i Hi. apply in_seq in Hi.
    replace (i =? 0)%nat with false by (symmetry; apply Nat.eqb_neq; lia).
    replace (i =? S (S m) - 1)%nat with false
      by (symmetry; apply Nat.eqb_neq; lia).
    reflexivity.
Qed.

Section GridCount.

Variables (fresh : nat -> string).
Variable properties : UWBSensorNetwork.SensorProperties.
Variables (width length grid_size z_height : R) (nx ny : nat).

Lemma place_count (position : point) (state : UWBSensorNetwork.t * nat) :
  snd (UWBSensorNetwork.place fresh properties position state)
  = S (snd state).
Proof. now destruct state. Qed.

Lemma row_constructed (i : nat) (js : list nat) :
  forall state,
  snd (fold_left
         (UWBSensorNetwork.grid_cell fresh properties width length grid_size
            z_height nx ny i) js state)
  = (snd state
     + Datatypes.length (List.filter (UWBSensorNetwork.on_perimeter nx ny i) js))%nat.
Proof.
  induction js as [|j rest IH]; intros state; cbn [fold_left List.filter].
  - cbn. lia.
  - rewrite IH. unfold UWBSensorNetwork.grid_cell.
    destruct (UWBSensorNetwork.on_perimeter nx ny i j).
    + rewrite place_count. cbn [Datatypes.length]. lia.
    + lia.
Qed.

Lemma rows_constructed (rows : list nat) :
  forall state,
  snd (fold_left
         (fun state i =>
            fold_left
              (UWBSensorNetwork.grid_cell fresh properties width length
                 grid_size z_height nx ny i)
              (seq 0 ny) state)
         rows state)
  = (snd state
     + list_sum
         (map (fun i =>
                 Datatypes.length
                   (List.filter (UWBSensorNetwork.on_perimeter nx ny i)
                      (seq 0 ny)))
            rows))%nat.
Proof.
  induction rows as [|i rest IH]; intros state; cbn [fold_left map].
  - cbn. lia.
  - rewrite list_sum_cons, IH, row_constructed. lia.
Qed.

End GridCount.

(** The number of sensors the construction has built when it returns. *)
Lemma grid_state_count (fresh : nat -> string)
    (properties : UWBSensorNetwork.SensorProperties)
    (width length grid_size z_height : R) :
  snd (UWBSensorNetwork.grid_state fresh properties width length grid_size
         z_height) =
  (2 * UWBSensorNetwork.grid_count width grid_size
   + 2 * UWBSensorNetwork.grid_count length grid_size - 4
   + (if Float.gtb width (3 * grid_size) && Float.gtb length (3 * grid_size)
      then 1 else 0))%nat.
Proof.
  unfold UWBSensorNetwork.grid_state. cbv zeta.
  destruct (_ && _); rewrite ?place_count, rows_constructed, perimeter_count;
    try apply grid_count_at_least_two; cbn [snd]; lia.
Qed.

Lemma make_sensor_id (fresh_id : string) (position : point)
    (properties : UWBSensorNetwork.SensorProperties) :
  UWBSensor.sensor_id
    (UWBSensorNetwork.make_sensor fresh_id position properties) =
  match UWBSensorNetwork.prop_sensor_id properties with
  | Some s => if String.eqb s EmptyString then fresh_id else s
  | None => fresh_id
  end.
Proof. reflexivity. Qed.

(** X16: how many sensors a grid layout has. When every generated
    identifier is new and the sensor properties fix no identifier, the
    layout has [2 nx + 2 ny - 4] perimeter sensors, with
    [nx = max(2, int(width / grid_size) + 1)] and [ny] likewise, and one
    more at the centre exactly when [width] and [length] both exceed three
    grid cells; the identifiers are the generated ones in order of
    construction, and there are never fewer than four sensors. *)
Theorem grid_layout_sensor_count (fresh : nat -> string)
    (width length height grid_size z_height : R)
    (sensor_properties : option UWBSensorNetwork.SensorProperties) :
  grid_size <> 0 ->
  (forall a b, fresh a = fresh b -> a = b) ->
  (forall s,
     UWBSensorNetwork.prop_sensor_id
       (default UWBSensorNetwork.no_properties sensor_properties) = Some s ->
     s = EmptyString) ->
  let nx := UWBSensorNetwork.grid_count width grid_size in
  let ny := UWBSensorNetwork.grid_count length grid_size in
  let n :=
    (2 * nx + 2 * ny - 4
     + (if Float.gtb width (3 * grid_size)
           && Float.gtb length (3 * grid_size)
        then 1 else 0))%nat in
  exists network,
    UWBSensorNetwork.create_grid_layout fresh width length height
      grid_size z_height sensor_properties = inr network /\
    Dict.keys (UWBSensorNetwork.sensors network) = map fresh (seq 0 n) /\
    Datatypes.length (UWBSensorNetwork.sensors network) = n /\
    (4 <= n)%nat.
Proof.
  intros Hgrid Hinj Hid nx ny n.
  rewrite create_grid_layout_unfold by assumption.
  eexists. split; [reflexivity|].
  set (properties :=
         default UWBSensorNetwork.no_properties sensor_properties) in *.
  assert (Hplace : forall position state,
            Dict.keys (UWBSensorNetwork.sensors (fst state))
              = map fresh (seq 0 (snd state)) ->
            Dict.keys
              (UWBSensorNetwork.sensors
                 (fst (UWBSensorNetwork.place fresh properties position
                         state)))
              = map fresh
                  (seq 0 (snd (UWBSensorNetwork.place fresh properties
                                 position state)))).
  { intros position [network k] Hkeys. cbn [fst snd] in *.
    unfold UWBSensorNetwork.place, UWBSensorNetwork.add_sensor.
    cbn [fst snd UWBSensorNetwork.sensors].
    assert (Hown : UWBSensor.sensor_id
                     (UWBSensorNetwork.make_sensor (fresh k) position
                        properties) = fresh k).
    { rewrite make_sensor_id.
      destruct (UWBSensorNetwork.prop_sensor_id properties) as [s|] eqn:Hs;
        [|reflexivity].
      now rewrite (Hid s eq_refl). }
    rewrite Hown, dict_keys_set. unfold Dict.mem.
    assert (Hnew : Dict.get (UWBSensorNetwork.sensors network) (fresh k)
                   = None).
    { apply dict_get_None. rewrite Hkeys. intros Hin.
      apply list_elem_of_fmap in Hin as (j & Hj & Hin).
      apply Hinj in Hj. subst j.
      apply list_elem_of_In, in_seq in Hin. lia. }
    rewrite Hnew, Hkeys, seq_S, map_app. reflexivity. }
  assert (Hkeys : Dict.keys
                    (UWBSensorNetwork.sensors
                       (fst (UWBSensorNetwork.grid_state fresh properties
                               width length grid_size z_height)))
                  = map fresh
                      (seq 0 (snd (UWBSensorNetwork.grid_state fresh
                                     properties width length grid_size
                                     z_height)))).
  { apply (grid_invariant
             (fun state =>
                Dict.keys (UWBSensorNetwork.sensors (fst state))
                = map fresh (seq 0 (snd state)))).
    - intros i j state. apply Hplace.
    - intros state. apply Hplace.
    - reflexivity. }
  rewrite grid_state_count in Hkeys. fold nx ny n in Hkeys.
  split; [exact Hkeys|]. split.
  - rewrite <- (length_map fst). unfold Dict.keys in Hkeys. rewrite Hkeys.
    now rewrite length_map, length_seq.
  - pose proof (grid_count_at_least_two width grid_size).
    pose proof (grid_count_at_least_two length grid_size).
    subst n nx ny. lia.
Qed.

Lemma tally_injective (a b : nat) :
  NetworkSamples.tally a = NetworkSamples.tally b -> a = b.
Proof.
  revert b. induction a as [|a IH]; intros [|b]; cbn; try discriminate;
    [reflexivity|].
  intros [= Heq]. f_equal. now apply IH.
Qed.

Lemma numbered_injective (a b : nat) :
  NetworkSamples.numbered a = NetworkSamples.numbered b -> a = b.
Proof.
  unfold NetworkSamples.numbered. cbn. intros [= Heq].
  now apply tally_injective.
Qed.

(** A 20 m by 20 m area with the default 10 m grid: three by three cells,
    eight of them on the perimeter, no centre sensor. *)
Lemma grid_count_20_10 : UWBSensorNetwork.grid_count 20 10 = 3%nat.
Proof.
  unfold UWBSensorNetwork.grid_count, UWBSensorNetwork.py_int.
  destruct (Rle_dec 0 (20 / 10)) as [_|Hneg]; [|lra].
  rewrite <- (Int_part_spec (20 / 10) 2) by (cbn; lra). reflexivity.
Qed.

Lemma grid_layout_sensor_count_witness :
  (10 : R) <> 0 /\
  (forall a b,
     NetworkSamples.numbered a = NetworkSamples.numbered b -> a = b) /\
  exists network,
    UWBSensorNetwork.create_grid_layout NetworkSamples.numbered 20 20 5 10 3
      None = inr network /\
    Datatypes.length (UWBSensorNetwork.sensors network) = 8%nat /\
    Dict.keys (UWBSensorNetwork.sensors network)
      = map NetworkSamples.numbered (seq 0 8).
Proof.
  assert (H1 : (10 : R) <> 0) by lra.
  split; [exact H1|]. split; [exact numbered_injective|].
  destruct (grid_layout_sensor_count NetworkSamples.numbered 20 20 5 10 3
              None H1 numbered_injective)
    as (network & Hrun & Hkeys & Hlen & _).
  { cbn. discriminate. }
  rewrite grid_count_20_10 in Hkeys, Hlen.
  replace (Float.gtb 20 (3 * 10)) with false in Hkeys, Hlen
    by (symmetry; apply gtb_le; lra).
  exists network. split; [exact Hrun|]. split; [exact Hlen | exact Hkeys].
Defined.

(** X17: a fixed identifier collapses the layout. When the sensor
    properties carry a non-empty [sensor_id], every constructed sensor is
    filed under that one identifier, each replacing the one before, and the
    layout that is returned has exactly one sensor. *)
Theorem grid_layout_with_fixed_id_has_one_sensor (fresh : nat -> string)
    (width length height grid_size z_height : R)
    (properties : UWBSensorNetwork.SensorProperties) (s : string) :
  grid_size <> 0 ->
  UWBSensorNetwork.prop_sensor_id properties = Some s ->
  s <> EmptyString ->
  exists network sensor,
    UWBSensorNetwork.create_grid_layout fresh width length height
      grid_size z_height (Some properties) = inr network /\
    UWBSensorNetwork.sensors network = [(s, sensor)].
Proof.
  intros Hgrid Hs Hne.
  rewrite create_grid_layout_unfold by assumption. cbn [default].
  set (final := UWBSensorNetwork.grid_state fresh properties width length
                  grid_size z_height).
  assert (Hfinal : (snd final = 0%nat /\
                    UWBSensorNetwork.sensors (fst final) = []) \/
                   exists sensor,
                     UWBSensorNetwork.sensors (fst final) = [(s, sensor)]).
  { assert (Hplace : forall position state,
              (snd state = 0%nat /\
               UWBSensorNetwork.sensors (fst state) = []) \/
              (exists sensor,
                 UWBSensorNetwork.sensors (fst state) = [(s, sensor)]) ->
              (snd (UWBSensorNetwork.place fresh properties position state)
                 = 0%nat /\
               UWBSensorNetwork.sensors
                 (fst (UWBSensorNetwork.place fresh properties position
                         state)) = []) \/
              (exists sensor,
                 UWBSensorNetwork.sensors
                   (fst (UWBSensorNetwork.place fresh properties position
                           state)) = [(s, sensor)])).
    { intros position [network k] Hstate. right.
      unfold UWBSensorNetwork.place, UWBSensorNetwork.add_sensor.
      cbn [fst snd UWBSensorNetwork.sensors] in *.
      rewrite make_sensor_id, Hs.
      apply String.eqb_neq in Hne. rewrite Hne.
      destruct Hstate as [[_ ->] | [sensor ->]]; cbn.
      - now eexists.
      - rewrite String.eqb_refl. now eexists. }
    apply (grid_invariant
             (fun state =>
                (snd state = 0%nat /\
                 UWBSensorNetwork.sensors (fst state) = []) \/
                exists sensor,
                  UWBSensorNetwork.sensors (fst state) = [(s, sensor)])).
    - intros i j state. apply Hplace.
    - intros state. apply Hplace.
    - left. split; reflexivity. }
  destruct Hfinal as [[Hzero _] | [sensor Hone]].
  - subst final. rewrite grid_state_count in Hzero.
    pose proof (grid_count_at_least_two width grid_size).
    pose proof (grid_count_at_least_two length grid_size). lia.
  - exists (fst final), sensor. split; [reflexivity | exact Hone].
Qed.

Lemma grid_layout_with_fixed_id_has_one_sensor_witness :
  (10 : R) <> 0 /\
  exists network sensor,
    UWBSensorNetwork.create_grid_layout NetworkSamples.numbered 20 20 5 10 3
      (Some (UWBSensorNetwork.mkProperties (Some "anchor"%string)
               None None None None)) = inr network /\
    UWBSensorNetwork.sensors network = [("anchor"%string, sensor)].
Proof.
  assert (H1 : (10 : R) <> 0) by lra.
  split; [exact H1|].
  apply (grid_layout_with_fixed_id_has_one_sensor NetworkSamples.numbered
           20 20 5 10 3
           (UWBSensorNetwork.mkProperties (Some "anchor"%string)
              None None None None) "anchor" H1 eq_refl).
  discriminate.
Defined.

(** ** The position error *)

Lemma norm_nonneg (v : point) : 0 <= norm v.
Proof. destruct v as [[x y] z]. apply sqrt_pos. Qed.

Lemma norm_zero (v : point) : norm v = 0 <-> v = (0, 0, 0).
Proof.
  destruct v as [[x y] z]. unfold norm. split.
  - intros Hzero. apply sqrt_eq_0 in Hzero; [|nra].
    pose proof (pow2_ge_0 x). pose proof (pow2_ge_0 y).
    pose proof (pow2_ge_0 z).
    assert (Hx : x * x = 0) by nra.
    assert (Hy : y * y = 0) by nra.
    assert (Hz : z * z = 0) by nra.
    apply Rmult_integral in Hx, Hy, Hz.
    replace x with 0 by (destruct Hx; congruence).
    replace y with 0 by (destruct Hy; congruence).
    replace z with 0 by (destruct Hz; congruence). reflexivity.
  - intros [= -> -> ->]. replace (0 ^ 2 + 0 ^ 2 + 0 ^ 2) with 0 by ring.
    apply sqrt_0.
Qed.

(** The triangle inequality for [np.linalg.norm] on differences. *)
Lemma norm_triangle (p q r : point) :
  norm (psub p r) <= norm (psub p q) + norm (psub q r).
Proof.
  pose proof (norm_nonneg (psub p r)) as Hc.
  pose proof (norm_nonneg (psub p q)) as Ha.
  pose proof (norm_nonneg (psub q r)) as Hb.
  pose proof (norm_sq (psub p r)) as Hc2.
  pose proof (norm_sq (psub p q)) as Ha2.
  pose proof (norm_sq (psub q r)) as Hb2.
  destruct p as [[p1 p2] p3], q as [[q1 q2] q3], r as [[r1 r2] r3].
  unfold psub, dot in *.
  set (a := norm (p1 - q1, p2 - q2, p3 - q3)) in *.
  set (b := norm (q1 - r1, q2 - r2, q3 - r3)) in *.
  set (c := norm (p1 - r1, p2 - r2, p3 - r3)) in *.
  set (u1 := p1 - q1) in *. set (u2 := p2 - q2) in *.
  set (u3 := p3 - q3) in *.
  set (v1 := q1 - r1) in *. set (v2 := q2 - r2) in *.
  set (v3 := q3 - r3) in *.
  replace (p1 - r1) with (u1 + v1) in Hc2 by (unfold u1, v1; ring).
  replace (p2 - r2) with (u2 + v2) in Hc2 by (unfold u2, v2; ring).
  replace (p3 - r3) with (u3 + v3) in Hc2 by (unfold u3, v3; ring).
  assert (Hcs : (u1 * v1 + u2 * v2 + u3 * v3) ^ 2 <= (a * b) ^ 2).
  { replace ((a * b) ^ 2) with (a ^ 2 * b ^ 2) by ring.
    rewrite Ha2, Hb2.
    pose proof (pow2_ge_0 (u1 * v2 - u2 * v1)).
    pose proof (pow2_ge_0 (u1 * v3 - u3 * v1)).
    pose proof (pow2_ge_0 (u2 * v3 - u3 * v2)).
    nra. }
  assert (Hab : 0 <= a * b) by now apply Rmult_le_pos.
  set (t := u1 * v1 + u2 * v2 + u3 * v3) in *.
  assert (Hdot : t <= a * b).
  { destruct (Rle_dec t (a * b)) as [Hle|Hgt]; [exact Hle|]. exfalso.
    assert (0 < (t - a * b) * (t + a * b))
      by (apply Rmult_lt_0_compat; lra).
    nra. }
  destruct (Rle_dec c (a + b)) as [Hle|Hgt]; [exact Hle|]. exfalso.
  assert (0 < (c - (a + b)) * (c + (a + b)))
    by (apply Rmult_lt_0_compat; lra).
  unfold t in Hdot. nra.
Qed.

(** X18: [calculate_position_error] is a distance. It is never negative,
    it is zero exactly for equal positions, it does not depend on which
    position is called the true one, and it satisfies the triangle
    inequality. *)
Theorem position_error_is_a_distance (p q r : point) :
  0 <= Trilateration.calculate_position_error p q /\
  (Trilateration.calculate_position_error p q = 0 <-> p = q) /\
  Trilateration.calculate_position_error p q
    = Trilateration.calculate_position_error q p /\
  Trilateration.calculate_position_error p r
    <= Trilateration.calculate_position_error p q
       + Trilateration.calculate_position_error q r.
Proof.
  unfold Trilateration.calculate_position_error.
  split; [apply norm_nonneg|]. split; [|split].
  - rewrite norm_zero.
    destruct p as [[p1 p2] p3], q as [[q1 q2] q3]. unfold psub. split.
    + intros [= H1 H2 H3]. repeat f_equal; lra.
    + intros [= -> -> ->]. repeat f_equal; ring.
  - apply norm_psub_sym.
  - apply norm_triangle.
Qed.

Lemma position_error_is_a_distance_witness :
  Trilateration.calculate_position_error Samples.true_pos Samples.true_pos
    = 0 /\
  Trilateration.calculate_position_error Samples.true_pos Samples.room_lls
    = Trilateration.calculate_position_error Samples.room_lls
        Samples.true_pos.
Proof.
  destruct (position_error_is_a_distance Samples.true_pos Samples.true_pos
              Samples.true_pos) as (_ & Hzero & _).
  destruct (position_error_is_a_distance Samples.true_pos Samples.room_lls
              Samples.true_pos) as (_ & _ & Hsym & _).
  split; [exact (proj2 Hzero eq_refl) | exact Hsym].
Defined.

(** ** The objective of Stage B *)

Lemma fold_left_sum_nonneg (g : nat -> R) (indices : list nat) (acc : R) :
  (forall i, 0 <= g i) -> 0 <= acc ->
  0 <= fold_left (fun error_sum i => error_sum + g i) indices acc.
Proof.
  intros Hg. revert acc.
  induction indices as [|i rest IH]; intros acc Hacc; [exact Hacc|].
  cbn [fold_left]. apply IH. pose proof (Hg i). lra.
Qed.

Lemma objective_nonneg (self : Trilateration.t) (distances : list R)
    (pt : point) :
  0 <= Trilateration.objective self distances pt.
Proof.
  unfold Trilateration.objective.
  apply (fold_left_sum_nonneg
           (fun i => (norm (psub pt (nth i (Trilateration.anchor_positions
                                              self) (0, 0, 0)))
                      - nth i distances 0) ^ 2)); [|lra].
  intros i. apply pow2_ge_0.
Qed.

(** X19: the sum of squared range errors that Stage B minimises is never
    negative, and at noiseless distances it is zero at the target, so the
    target is a global minimiser of what the optimizer is given. *)
Theorem target_minimises_objective (anchors : list point)
    (self : Trilateration.t) (p : point) :
  Trilateration.constructed anchors self ->
  let f := Trilateration.objective self (exact_distances anchors p) in
  f p = 0 /\ forall q, f p <= f q.
Proof.
  intros Hc f. subst f.
  rewrite (objective_zero_at_target anchors self p Hc).
  split; [reflexivity|]. intros q. apply objective_nonneg.
Qed.

Lemma target_minimises_objective_witness :
  Trilateration.constructed Samples.anchors_room Samples.room /\
  Trilateration.objective Samples.room Samples.room_distances
    Samples.true_pos = 0 /\
  Trilateration.objective Samples.room Samples.room_distances
    Samples.true_pos
  <= Trilateration.objective Samples.room Samples.room_distances
       Samples.room_lls.
Proof.
  destruct (target_minimises_objective Samples.anchors_room Samples.room
              Samples.true_pos room_constructed) as [Hzero Hmin].
  split; [exact room_constructed|]. split; [exact Hzero|].
  exact (Hmin Samples.room_lls).
Defined.

(** ** The equations of Stage A at noiseless distances *)

Lemma dot_psub (u q p : point) : dot u (psub q p) = dot u q - dot u p.
Proof.
  destruct u as [[u1 u2] u3], q as [[q1 q2] q3], p as [[p1 p2] p3].
  unfold dot, psub. ring.
Qed.

Lemma dot_popp (u p : point) : dot u (popp p) = - dot u p.
Proof.
  destruct u as [[u1 u2] u3], p as [[p1 p2] p3]. unfold dot, popp. ring.
Qed.

(** The solutions of a solvable system differ from one of them by a
    vector orthogonal to every row. *)
Lemma solves_shift (A : list point) (b : list R) (p q : point) :
  solves A b p ->
  solves A b q <-> Forall (fun u => dot u (psub q p) = 0) A.
Proof.
  unfold solves. induction 1 as [|u r A b Hu _ IH].
  - split; constructor.
  - split.
    + intros Hq. apply Forall2_cons in Hq as [Hq Hrest]. constructor.
      * rewrite dot_psub. lra.
      * now apply IH.
    + intros Hq. apply Forall_cons in Hq as [Hq Hrest]. constructor.
      * rewrite dot_psub in Hq. lra.
      * now apply IH.
Qed.

(** X20: for any anchors accepted by the constructor and any target [p],
    the system lines 54 to 70 build from the noiseless distances is solved
    by the mirror image [-p]; its solutions are the points [q] with
    [q + p] orthogonal to every row of [A]; and the target itself solves
    it only if it is orthogonal to every row. *)
Theorem noiseless_system_solved_by_mirror_image
    (anchors : list point) (self : Trilateration.t) (p : point) :
  Trilateration.constructed anchors self ->
  exists A b,
    Trilateration.build_system self (exact_distances anchors p)
      = Some (A, b) /\
    solves A b (popp p) /\
    (forall q, solves A b q <->
               Forall (fun u => dot u (psub q (popp p)) = 0) A) /\
    (solves A b p <-> Forall (fun u => dot u p = 0) A).
Proof.
  intros Hc.
  destruct (constructed_inv _ _ Hc) as [Hn Hself].
  assert (Hlen : length (exact_distances anchors p) =
                 Trilateration.num_anchors self).
  { subst self. unfold exact_distances. cbn. now rewrite length_map. }
  destruct (build_system_spec anchors self _ Hc Hlen)
    as (A & b & Hsys & _).
  pose proof (lls_equations_hold_at_mirror_image anchors self p A b Hc Hsys)
    as Hmirror.
  exists A, b. split; [exact Hsys|]. split; [exact Hmirror|]. split.
  - intros q. now apply solves_shift.
  - rewrite (solves_shift A b (popp p) p Hmirror).
    apply Forall_proper; [|reflexivity].
    intros u. rewrite dot_psub, dot_popp. split; lra.
Qed.

Lemma noiseless_system_solved_by_mirror_image_witness :
  Trilateration.constructed Samples.anchors_room Samples.room /\
  exists A b,
    Trilateration.build_system Samples.room Samples.room_distances
      = Some (A, b) /\
    solves A b Samples.room_lls.
Proof.
  split; [exact room_constructed|].
  destruct (noiseless_system_solved_by_mirror_image Samples.anchors_room
              Samples.room Samples.true_pos room_constructed)
    as (A & b & Hsys & Hmirror & _).
  exists A, b. split; [exact Hsys|].
  replace Samples.room_lls with (popp Samples.true_pos); [exact Hmirror|].
  unfold Samples.room_lls, Samples.true_pos, popp. repeat f_equal; lra.
Defined.

(** ** Stage A and the sign of a distance *)

Lemma rhs_squares (p0 pi : point) (r0 r0' ri ri' : R) :
  r0 ^ 2 = r0' ^ 2 -> ri ^ 2 = ri' ^ 2 ->
  Trilateration.rhs p0 r0 pi ri = Trilateration.rhs p0 r0' pi ri'.
Proof.
  intros H0 Hi. destruct p0 as [[x0 y0] z0], pi as [[xi yi] zi].
  unfold Trilateration.rhs. now rewrite H0, Hi.
Qed.

Lemma for_each_ext {S : Type} (f g : S -> nat -> option S)
    (indices : list nat) (s : S) :
  (forall s i, f s i = g s i) ->
  for_each f indices s = for_each g indices s.
Proof.
  intros Hfg. revert s. induction indices as [|i rest IH]; intros s;
    [reflexivity|].
  cbn [for_each]. rewrite Hfg. destruct (g s i) as [s'|]; cbn; [apply IH|].
  reflexivity.
Qed.

Lemma fill_squares (self : Trilateration.t) (d d' : list R) (p0 : point)
    (r0 r0' : R) (Ab : list point * list R) (i : nat) :
  Forall2 (fun r r' => r ^ 2 = r' ^ 2) d d' -> r0 ^ 2 = r0' ^ 2 ->
  Trilateration.fill self d p0 r0 Ab i =
  Trilateration.fill self d' p0 r0' Ab i.
Proof.
  intros Hd H0. unfold Trilateration.fill. destruct Ab as [A b].
  destruct (Trilateration.anchor_positions self !! i) as [pi|];
    [|reflexivity].
  cbn. pose proof (proj1 (Forall2_lookup _ d d') Hd i) as Hi.
  destruct Hi as [ri ri' Hi|]; [|reflexivity].
  cbn. now rewrite (rhs_squares p0 pi r0 r0' ri ri' H0 Hi).
Qed.

Lemma build_system_squares (self : Trilateration.t) (d d' : list R) :
  Forall2 (fun r r' => r ^ 2 = r' ^ 2) d d' ->
  Trilateration.build_system self d = Trilateration.build_system self d'.
Proof.
  intros Hd. unfold Trilateration.build_system.
  destruct (Trilateration.anchor_positions self !! 0%nat) as [p0|];
    [|reflexivity].
  cbn. pose proof (proj1 (Forall2_lookup _ d d') Hd 0%nat) as H0.
  destruct H0 as [r0 r0' H0|]; [|reflexivity].
  cbn. apply for_each_ext. intros Ab i. now apply fill_squares.
Qed.

(** X21: Stage A reads each distance only through its square (line 70):
    two distance lists whose entries agree up to sign give the same
    system, the same call of the least-squares routine, the same log
    records and the same result. *)
Theorem stage_a_reads_only_squared_distances
    (lstsq : list point -> list R -> option LstsqResult)
    (self : Trilateration.t) (d d' : list R) :
  Forall2 (fun r r' => r ^ 2 = r' ^ 2) d d' ->
  Trilateration.build_system self d = Trilateration.build_system self d' /\
  Trilateration.linear_least_squares lstsq self d =
  Trilateration.linear_least_squares lstsq self d'.
Proof.
  intros Hd. pose proof (build_system_squares self d d' Hd) as Hsys.
  split; [exact Hsys|].
  unfold Trilateration.linear_least_squares.
  now rewrite (Forall2_length _ _ _ Hd), Hsys.
Qed.

Lemma stage_a_reads_only_squared_distances_witness :
  Trilateration.linear_least_squares
    (Samples.lstsq_returns Samples.room_lls 3) Samples.room
    Samples.room_distances =
  Trilateration.linear_least_squares
    (Samples.lstsq_returns Samples.room_lls 3) Samples.room
    (map Ropp Samples.room_distances).
Proof.
  apply (stage_a_reads_only_squared_distances
           (Samples.lstsq_returns Samples.room_lls 3) Samples.room
           Samples.room_distances (map Ropp Samples.room_distances)).
  unfold Samples.room_distances, exact_distances, Samples.anchors_room.
  cbn [map]. repeat constructor; ring.
Defined.

(** ** How often the library routines are called *)

Lemma lstsq_calls_app (t1 t2 : list Event) :
  lstsq_calls (t1 ++ t2) = (lstsq_calls t1 + lstsq_calls t2)%nat.
Proof.
  unfold lstsq_calls. now rewrite List.filter_app, length_app.
Qed.

Lemma minimize_calls_app (t1 t2 : list Event) :
  minimize_calls (t1 ++ t2) = (minimize_calls t1 + minimize_calls t2)%nat.
Proof.
  unfold minimize_calls. now rewrite List.filter_app, length_app.
Qed.

Section CallCounts.

Import Trilateration.

Variable lstsq : list point -> list R -> option LstsqResult.
Variable minimize : (point -> R) -> point -> option OptimizeResult.
Variables (self : t) (distances : list R).

Lemma lls_counts :
  (lstsq_calls (trace (linear_least_squares lstsq self distances)) <= 1)%nat
  /\ minimize_calls (trace (linear_least_squares lstsq self distances))
     = 0%nat.
Proof.
  unfold linear_least_squares.
  destruct (negb (length distances =? num_anchors self)%nat);
    [cbn; lia|].
  destruct (build_system self distances) as [[A b]|]; [|cbn; lia].
  destruct (lstsq A b); cbn; lia.
Qed.

Lemma nonlinear_counts (initial_guess : option point) :
  lstsq_calls
    (trace (nonlinear_optimization minimize self distances initial_guess))
    = 0%nat /\
  (minimize_calls
     (trace (nonlinear_optimization minimize self distances initial_guess))
   <= 1)%nat.
Proof.
  unfold nonlinear_optimization.
  destruct (negb (length distances =? num_anchors self)%nat);
    [cbn; lia|].
  destruct initial_guess as [g|]; cbn;
    (destruct (minimize _ _) as [result|];
     [destruct (res_success result)|]); cbn; lia.
Qed.

Lemma multilateral_counts :
  (lstsq_calls (trace (multilateral_algorithm lstsq minimize self distances))
   <= 1)%nat /\
  (minimize_calls
     (trace (multilateral_algorithm lstsq minimize self distances)) <= 2)%nat.
Proof.
  rewrite multilateral_trace.
  pose proof lls_counts as [Hl Hm].
  pose proof (nonlinear_counts None) as [Hl0 Hm0].
  destruct (value (linear_least_squares lstsq self distances)) as [guess|].
  - pose proof (nonlinear_counts (Some guess)) as [Hl1 Hm1].
    destruct (value (nonlinear_optimization minimize self distances
                       (Some guess)));
      rewrite ?lstsq_calls_app, ?minimize_calls_app; cbn; lia.
  - rewrite lstsq_calls_app, minimize_calls_app. lia.
Qed.

End CallCounts.

(** X22: whatever the library routines do, one call of [estimate_position]
    calls [np.linalg.lstsq] at most once and [minimize] at most twice;
    method 'lls' never calls the optimizer, method 'nonlinear' never calls
    the least-squares routine and calls the optimizer at most once, and any
    other method name than the three known ones calls neither and only
    logs an error. *)
Theorem estimate_position_call_budget
    (lstsq : list point -> list R -> option LstsqResult)
    (minimize : (point -> R) -> point -> option OptimizeResult)
    (self : Trilateration.t) (distances : list R) (method : string) :
  let tr := trace (Trilateration.estimate_position lstsq minimize self
                     distances method) in
  (lstsq_calls tr <= 1)%nat /\ (minimize_calls tr <= 2)%nat /\
  (method = "lls"%string -> minimize_calls tr = 0%nat) /\
  (method = "nonlinear"%string ->
   lstsq_calls tr = 0%nat /\ (minimize_calls tr <= 1)%nat) /\
  (method <> "lls"%string -> method <> "nonlinear"%string ->
   method <> "multi"%string ->
   tr = [Log ERROR (MsgUnknownMethod method)]).
Proof.
  intros tr. subst tr.
  pose proof (lls_counts lstsq self distances) as [Hl Hm].
  pose proof (nonlinear_counts minimize self distances None) as [Hl0 Hm0].
  pose proof (multilateral_counts lstsq minimize self distances) as [Hl2 Hm2].
  unfold Trilateration.estimate_position.
  destruct (String.eqb method "lls") eqn:E1.
  { apply String.eqb_eq in E1. subst method.
    repeat split; try lia; try congruence; intros; discriminate. }
  destruct (String.eqb method "nonlinear") eqn:E2.
  { apply String.eqb_eq in E2. subst method.
    repeat split; try lia; try congruence; intros; discriminate. }
  destruct (String.eqb method "multi") eqn:E3.
  { apply String.eqb_eq in E3. subst method.
    repeat split; try lia; try congruence; intros; discriminate. }
  apply String.eqb_neq in E1, E2, E3.
  cbn. repeat split; try lia; try congruence; reflexivity.
Qed.

Lemma estimate_position_call_budget_witness :
  minimize_calls
    (trace (Trilateration.estimate_position
              (Samples.lstsq_returns Samples.room_lls 3)
              Samples.minimize_stalls Samples.room Samples.room_distances
              "lls")) = 0%nat /\
  trace (Trilateration.estimate_position
           (Samples.lstsq_returns Samples.room_lls 3)
           Samples.minimize_stalls Samples.room Samples.room_distances
           "kalman") = [Log ERROR (MsgUnknownMethod "kalman")].
Proof.
  split.
  - apply (estimate_position_call_budget
             (Samples.lstsq_returns Samples.room_lls 3)
             Samples.minimize_stalls Samples.room Samples.room_distances
             "lls"). reflexivity.
  - apply (estimate_position_call_budget
             (Samples.lstsq_returns Samples.room_lls 3)
             Samples.minimize_stalls Samples.room Samples.room_distances
             "kalman"); discriminate.
Defined.

(** ** Where a returned point comes from *)

Section Provenance.

Import Trilateration.

Variable lstsq : list point -> list R -> option LstsqResult.
Variable minimize : (point -> R) -> point -> option OptimizeResult.
Variables (self : t) (distances : list R).

Lemma nonlinear_value_inv (initial_guess : option point) (p : point) :
  value (nonlinear_optimization minimize self distances initial_guess)
    = Some p ->
  length distances = num_anchors self /\
  exists result,
    minimize (objective self distances) (seed self initial_guess)
      = Some result /\
    res_success result = true /\ p = res_x result.
Proof.
  destruct (Nat.eq_dec (length distances) (num_anchors self)) as [Hlen|Hne].
  - rewrite nonlinear_value by assumption.
    destruct (minimize _ _) as [result|]; [|discriminate].
    destruct (res_success result) eqn:Hok; [|discriminate].
    intros [= <-]. split; [exact Hlen|]. now exists result.
  - rewrite nonlinear_mismatch by assumption. discriminate.
Qed.

Lemma multilateral_value_inv (p : point) :
  value (multilateral_algorithm lstsq minimize self distances) = Some p ->
  length distances = num_anchors self /\
  exists x0 result,
    (value (linear_least_squares lstsq self distances) = Some x0 \/
     x0 = centroid (anchor_positions self)) /\
    minimize (objective self distances) x0 = Some result /\
    res_success result = true /\ p = res_x result.
Proof.
  rewrite multilateral_value.
  destruct (value (linear_least_squares lstsq self distances)) as [guess|].
  - destruct (value (nonlinear_optimization minimize self distances
                       (Some guess))) as [p'|] eqn:Hfirst.
    + intros [= <-]. apply nonlinear_value_inv in Hfirst
        as (Hlen & result & Hres).
      split; [exact Hlen|]. exists guess, result. split; [now left|].
      exact Hres.
    + intros Hsecond. apply nonlinear_value_inv in Hsecond
        as (Hlen & result & Hres).
      split; [exact Hlen|].
      exists (centroid (anchor_positions self)), result.
      split; [now right|]. exact Hres.
  - intros Hsecond. apply nonlinear_value_inv in Hsecond
      as (Hlen & result & Hres).
    split; [exact Hlen|].
    exists (centroid (anchor_positions self)), result.
    split; [now right|]. exact Hres.
Qed.

End Provenance.

(** X23: a point returned by [estimate_position] always has a source. The
    method name is one of the three known ones and the distance count
    equals the anchor count. Under 'lls' the point is the solution
    [np.linalg.lstsq] returned for the system built from the distances.
    Under 'nonlinear' it is the point of an optimizer run on the
    range-error objective that started from the centroid of the anchors
    and reported success. Under 'multi' it is the point of such a run that
    started from the solution Stage A returned or from the centroid. *)
Theorem returned_point_has_a_source
    (lstsq : list point -> list R -> option LstsqResult)
    (minimize : (point -> R) -> point -> option OptimizeResult)
    (self : Trilateration.t) (distances : list R) (method : string)
    (p : point) :
  value (Trilateration.estimate_position lstsq minimize self distances
           method) = Some p ->
  length distances = Trilateration.num_anchors self /\
  ((method = "lls"%string /\
    exists A b sol,
      Trilateration.build_system self distances = Some (A, b) /\
      lstsq A b = Some sol /\ p = lstsq_x sol)
   \/
   (method = "nonlinear"%string /\
    exists result,
      minimize (Trilateration.objective self distances)
        (centroid (Trilateration.anchor_positions self)) = Some result /\
      res_success result = true /\ p = res_x result)
   \/
   (method = "multi"%string /\
    exists x0 result,
      (value (Trilateration.linear_least_squares lstsq self distances)
         = Some x0 \/
       x0 = centroid (Trilateration.anchor_positions self)) /\
      minimize (Trilateration.objective self distances) x0 = Some result /\
      res_success result = true /\ p = res_x result)).
Proof.
  unfold Trilateration.estimate_position.
  destruct (String.eqb method "lls") eqn:E1.
  { apply String.eqb_eq in E1. subst method. intros Hv.
    apply lls_value_inv in Hv as [Hlen Hsrc].
    split; [exact Hlen|]. left. now split. }
  destruct (String.eqb method "nonlinear") eqn:E2.
  { apply String.eqb_eq in E2. subst method. intros Hv.
    apply nonlinear_value_inv in Hv as (Hlen & result & Hres).
    split; [exact Hlen|]. right. left. split; [reflexivity|].
    now exists result. }
  destruct (String.eqb method "multi") eqn:E3.
  { apply String.eqb_eq in E3. subst method. intros Hv.
    apply multilateral_value_inv in Hv as [Hlen Hsrc].
    split; [exact Hlen|]. right. right. split; [reflexivity|]. exact Hsrc. }
  cbn. discriminate.
Qed.

Lemma returned_point_has_a_source_witness :
  value (Trilateration.estimate_position
           (Samples.lstsq_returns Samples.room_lls 3)
           (Samples.minimize_finds Samples.true_pos) Samples.room
           Samples.room_distances "multi") = Some Samples.true_pos /\
  exists x0 result,
    (x0 = Samples.room_lls \/ x0 = centroid Samples.anchors_room) /\
    Samples.minimize_finds Samples.true_pos
      (Trilateration.objective Samples.room Samples.room_distances) x0
      = Some result /\
    res_success result = true /\ Samples.true_pos = res_x result.
Proof.
  assert (Hv : value (Trilateration.estimate_position
                        (Samples.lstsq_returns Samples.room_lls 3)
                        (Samples.minimize_finds Samples.true_pos)
                        Samples.room Samples.room_distances "multi")
               = Some Samples.true_pos).
  { rewrite estimate_position_multi, multilateral_value, room_stage_a.
    cbn [value snd].
    now rewrite (nonlinear_value _ _ _ _ room_distances_length). }
  split; [exact Hv|].
  destruct (returned_point_has_a_source _ _ _ _ _ _ Hv)
    as [_ [[Hm _]|[[Hm _]|[_ (x0 & result & Hseed & Hres)]]]];
    [discriminate Hm | discriminate Hm |].
  exists x0, result. split; [|exact Hres].
  rewrite room_stage_a in Hseed. cbn [value snd] in Hseed.
  destruct Hseed as [Hseed | Hseed];
    [left; congruence | right; exact Hseed].
Defined.

(** ** Sensor positions and polls *)

(** X24: a poll never moves a sensor. Whether it returns or raises, and
    whatever it draws, [get_sensor_positions] afterwards is what it was
    before: the same identifiers in the same order with the same
    positions. *)
Theorem poll_leaves_sensor_positions
    (clock : R) (rng : string -> UWBSensor.Draws)
    (self : UWBSensorNetwork.t) (tag : point) (current_time : option R) :
  UWBSensorNetwork.get_sensor_positions
    (fst (UWBSensorNetwork.measure_distances clock rng self tag
            current_time))
  = UWBSensorNetwork.get_sensor_positions self.
Proof.
  rewrite measure_distances_unfold. cbn [fst].
  unfold UWBSensorNetwork.get_sensor_positions.
  cbn [UWBSensorNetwork.sensors].
  pose proof (measure_loop_frame clock rng tag
                (UWBSensor.effective_time clock current_time)
                (UWBSensorNetwork.sensors self) []) as Hframe.
  induction Hframe as [|before after entries entries' [Hid Hsensor] _ IH];
    [reflexivity|].
  cbn [map]. rewrite IH, Hid. do 2 f_equal.
  destruct Hsensor as [-> | ->]; reflexivity.
Qed.

(** ** Stage B and coplanar anchors *)

Lemma fold_left_sum_ext (g g' : nat -> R) (indices : list nat) (acc : R) :
  (forall i, i ∈ indices -> g i = g' i) ->
  fold_left (fun error_sum i => error_sum + g i) indices acc =
  fold_left (fun error_sum i => error_sum + g' i) indices acc.
Proof.
  revert acc. induction indices as [|i rest IH]; intros acc Hext;
    [reflexivity|].
  cbn [fold_left]. rewrite (Hext i) by left.
  apply IH. intros j Hj. apply Hext. now right.
Qed.

Lemma norm_reflected (x y z h ax ay : R) :
  norm (psub (x, y, 2 * h - z) (ax, ay, h)) =
  norm (psub (x, y, z) (ax, ay, h)).
Proof. unfold norm, psub. f_equal. ring. Qed.

(** X25: with all anchors at one height [h], as in the module's own
    example, the objective of Stage B takes the same value at a point and
    at its reflection in the plane of the anchors, for any distance list.
    At noiseless distances it is therefore zero at the reflection of the
    target as well as at the target: the ranges do not tell the two
    apart. *)
Theorem objective_blind_to_reflection_in_anchor_plane
    (anchors : list point) (self : Trilateration.t) (h : R) :
  Trilateration.constructed anchors self ->
  Forall (fun anchor => snd anchor = h) anchors ->
  (forall distances x y z,
     Trilateration.objective self distances (x, y, 2 * h - z) =
     Trilateration.objective self distances (x, y, z)) /\
  (forall x y z,
     Trilateration.objective self (exact_distances anchors (x, y, z))
       (x, y, 2 * h - z) = 0).
Proof.
  intros Hc Hplane.
  assert (Hsame : forall distances x y z,
     Trilateration.objective self distances (x, y, 2 * h - z) =
     Trilateration.objective self distances (x, y, z)).
  { intros distances x y z.
    destruct (constructed_inv _ _ Hc) as [_ ->].
    unfold Trilateration.objective.
    cbn [Trilateration.num_anchors Trilateration.anchor_positions].
    apply (fold_left_sum_ext
             (fun i => (norm (psub (x, y, 2 * h - z)
                                (nth i anchors (0, 0, 0)))
                        - nth i distances 0) ^ 2)
             (fun i => (norm (psub (x, y, z) (nth i anchors (0, 0, 0)))
                        - nth i distances 0) ^ 2)).
    intros i Hi. apply elem_of_seq in Hi.
    pose proof (proj1 (List.Forall_nth _ anchors) Hplane i (0, 0, 0))
      as Hh.
    destruct (nth i anchors (0, 0, 0)) as [[ax ay] az].
    cbn [snd] in Hh. rewrite Hh by lia.
    now rewrite norm_reflected. }
  split; [exact Hsame|].
  intros x y z. rewrite Hsame.
  now apply objective_zero_at_target.
Qed.

Lemma objective_blind_to_reflection_in_anchor_plane_witness :
  Trilateration.objective Samples.coplanar Samples.coplanar_distances
    (2.5, 2.5, 2 * 2.5 - 1.0) = 0.
Proof.
  assert (Hc : Trilateration.constructed Samples.anchors_coplanar
                 Samples.coplanar) by reflexivity.
  assert (Hplane : Forall (fun anchor : point => snd anchor = 2.5)
                     Samples.anchors_coplanar)
    by (repeat constructor).
  exact (proj2 (objective_blind_to_reflection_in_anchor_plane
                  Samples.anchors_coplanar Samples.coplanar 2.5 Hc Hplane)
           2.5 2.5 1.0).
Defined.
